(** * mcp-gateway: a shallow embedding of the proxy core

    The development follows the TypeScript sources:

    - [lib/utils.ts]: the header-injecting transport wrapper, the
      bidirectional proxy [mcpProxy] and the transport negotiation
      [connectToRemoteServer];
    - [lib/mcpUtils.ts]: [extractMCPResponseData] and its helpers;
    - [payments/protocolDetector.ts]: [ProtocolDetector.detectProtocol];
    - [payments/paymentHandler.ts]: [PaymentHandler];
    - [protocols/x402.ts] and [protocols/agentpay-v002.ts]: the two payment
      protocol descriptors.

    JavaScript values are dynamically typed, so the embedding works on one
    type [value] of JSON-like values; every operation that can throw returns
    a [completion], and [try]/[catch] is [catch].  Strings are Rocq strings:
    one character stands for one UTF-16 code unit, which covers the code
    units below 256.  Objects are association lists because the order of
    keys is observable; property lookup takes the first binding of a key. *)

From Stdlib Require Import ZArith QArith String Ascii List Bool Lia Permutation.
From stdpp Require Import gmap strings list pretty.
From Equations Require Import Equations.

Close Scope Q_scope.

(** ** JavaScript values and completions *)

Module JS.

(** Numbers: the finite doubles are read as exact rationals; [NaN] and the
    two infinities are kept apart because comparisons treat them apart. *)
Inductive number :=
| NaN
| PInf
| NInf
| Fin (q : Q).

#[warnings="-register-all"]
Inductive value :=
| VUndefined
| VNull
| VBool (b : bool)
| VNum (n : number)
| VStr (s : string)
| VArr (items : list value)
| VObj (fields : list (string * value)).

(** What a [throw] carries: an [Error] instance with its message, or any
    other value. *)
Inductive exn :=
| JSError (msg : string)
| Thrown (v : value).

Inductive completion (A : Type) :=
| Ret (a : A)
| Throw (e : exn).
Arguments Ret {A} a.
Arguments Throw {A} e.

Definition bind {A B} (c : completion A) (k : A -> completion B) : completion B :=
  match c with
  | Ret a => k a
  | Throw e => Throw e
  end.

(** [try { c } catch (e) { h e }] *)
Definition catch {A} (c : completion A) (h : exn -> completion A) : completion A :=
  match c with
  | Ret a => Ret a
  | Throw e => h e
  end.

#[export] Instance completion_ret : MRet completion := fun _ a => Ret a.
#[export] Instance completion_bind : MBind completion := fun _ _ k c => bind c k.
#[export] Instance completion_fmap : FMap completion :=
  fun _ _ f c => bind c (fun a => Ret (f a)).

(** [error instanceof Error ? error.message : dflt] *)
Definition message_or (dflt : string) (e : exn) : string :=
  match e with
  | JSError msg => msg
  | Thrown _ => dflt
  end.

Definition TypeError : exn := JSError "TypeError".
Definition SyntaxError : exn := JSError "SyntaxError".

(** *** Numbers *)

Definition num_of_Z (z : Z) : number := Fin (inject_Z z).
Definition num_of_nat (n : nat) : number := num_of_Z (Z.of_nat n).

(** [a === b] on numbers *)
Definition num_eqb (a b : number) : bool :=
  match a, b with
  | Fin p, Fin q => Qeq_bool p q
  | PInf, PInf | NInf, NInf => true
  | _, _ => false
  end.

(** [a < b] on numbers: false as soon as one side is [NaN] *)
Definition num_ltb (a b : number) : bool :=
  match a, b with
  | NaN, _ | _, NaN => false
  | Fin p, Fin q => negb (Qle_bool q p)
  | NInf, (Fin _ | PInf) => true
  | Fin _, PInf => true
  | _, _ => false
  end.

(** [a > b] and [a >= b] *)
Definition num_gtb (a b : number) : bool := num_ltb b a.
Definition num_geb (a b : number) : bool :=
  match a, b with
  | NaN, _ | _, NaN => false
  | _, _ => negb (num_ltb a b)
  end.

(** *** Strings *)

Definition startsWith (s p : string) : bool := String.prefix p s.

(** [s.slice(n)] for [0 <= n] *)
Fixpoint drop_str (n : nat) (s : string) : string :=
  match n, s with
  | O, _ => s
  | S n', EmptyString => EmptyString
  | S n', String _ s' => drop_str n' s'
  end.

(** [s.slice(0, n)] for [0 <= n] *)
Definition take_str (n : nat) (s : string) : string := String.substring 0 n s.

(** [s.slice(-n)] for [0 < n]: the last [n] characters, all of [s] when it
    is shorter *)
Definition slice_last (n : nat) (s : string) : string :=
  drop_str (String.length s - n) s.

Fixpoint repeat_str (c : ascii) (n : nat) : string :=
  match n with
  | O => EmptyString
  | S n' => String c (repeat_str c n')
  end.

(** [s.padStart(n, c)] for a one-character filler *)
Definition padStart (n : nat) (c : ascii) (s : string) : string :=
  repeat_str c (n - String.length s) +:+ s.

(** [s.includes(p)] *)
Fixpoint includes (s p : string) : bool :=
  String.prefix p s ||
  match s with
  | EmptyString => false
  | String _ s' => includes s' p
  end.

(** [s.replace(/p/g, r)] for a literal, non-empty pattern [p]: scan from the
    left, replace each match and continue after it *)
Fixpoint replace_all_fuel (fuel : nat) (p r s : string) : string :=
  match fuel with
  | O => s
  | S fuel' =>
      match s with
      | EmptyString => EmptyString
      | String c s' =>
          if String.prefix p s
          then r +:+ replace_all_fuel fuel' p r (drop_str (String.length p) s)
          else String c (replace_all_fuel fuel' p r s')
      end
  end.

Definition replace_all (p r s : string) : string :=
  replace_all_fuel (String.length s) p r s.

Fixpoint join (sep : string) (l : list string) : string :=
  match l with
  | [] => ""
  | [x] => x
  | x :: rest => x +:+ sep +:+ join sep rest
  end.

Definition is_hex_digit (c : ascii) : bool :=
  let n := nat_of_ascii c in
  ((48 <=? n) && (n <=? 57)) || ((65 <=? n) && (n <=? 70)) || ((97 <=? n) && (n <=? 102)).

Fixpoint all_chars (p : ascii -> bool) (s : string) : bool :=
  match s with
  | EmptyString => true
  | String c s' => p c && all_chars p s'
  end.

(** [/^0x[0-9a-fA-F]*$/.test(s)] on a string *)
Definition is_0x_hex (s : string) : bool :=
  match s with
  | String "0" (String "x" rest) => all_chars is_hex_digit rest
  | _ => false
  end.

(** *** Dynamic typing *)

(** [!!v] *)
Definition truthy (v : value) : bool :=
  match v with
  | VUndefined | VNull => false
  | VBool b => b
  | VNum NaN => false
  | VNum (Fin q) => negb (Qeq_bool q 0)
  | VNum _ => true
  | VStr s => negb (String.eqb s "")
  | VArr _ | VObj _ => true
  end.

(** [v == null] *)
Definition nullish (v : value) : bool :=
  match v with
  | VUndefined | VNull => true
  | _ => false
  end.

Definition typeof (v : value) : string :=
  match v with
  | VUndefined => "undefined"
  | VNull => "object"
  | VBool _ => "boolean"
  | VNum _ => "number"
  | VStr _ => "string"
  | VArr _ | VObj _ => "object"
  end.

Definition isArray (v : value) : bool :=
  match v with
  | VArr _ => true
  | _ => false
  end.

(** [v === "lit"], [v === n], [v === true] *)
Definition is_str (v : value) (lit : string) : bool :=
  match v with
  | VStr s => String.eqb s lit
  | _ => false
  end.

Definition is_num (v : value) (z : Z) : bool :=
  match v with
  | VNum n => num_eqb n (num_of_Z z)
  | _ => false
  end.

Definition is_true (v : value) : bool :=
  match v with
  | VBool true => true
  | _ => false
  end.

(** First binding of a key in an object's field list. *)
Fixpoint lookup_field (k : string) (fs : list (string * value)) : option value :=
  match fs with
  | [] => None
  | (k', v) :: rest => if String.eqb k k' then Some v else lookup_field k rest
  end.

(** [o[k] = v] on an own property: an existing key keeps its position, a new
    key goes last. *)
Fixpoint set_field (k : string) (v : value) (fs : list (string * value))
  : list (string * value) :=
  match fs with
  | [] => [(k, v)]
  | (k', v') :: rest =>
      if String.eqb k k' then (k', v) :: rest else (k', v') :: set_field k v rest
  end.

(** Array indices written as property keys: ["0"], ["1"], ... *)
Definition digit_val (c : ascii) : option nat :=
  let n := nat_of_ascii c in
  if (48 <=? n) && (n <=? 57) then Some (n - 48) else None.

Fixpoint index_digits (acc : nat) (s : string) : option nat :=
  match s with
  | EmptyString => Some acc
  | String c s' =>
      match digit_val c with
      | Some d => index_digits (10 * acc + d) s'
      | None => None
      end
  end.

Definition index_of_key (k : string) : option nat :=
  match k with
  | EmptyString => None
  | String "0" EmptyString => Some 0
  | String "0" _ => None
  | _ => index_digits 0 k
  end.

(** Property read [v.k].  It throws on [undefined] and [null]; a missing
    property reads as [undefined].  Arrays and strings answer ["length"] and
    their indices.  The sources only read property names that no built-in
    prototype defines, so inherited members are left out. *)
Definition get (v : value) (k : string) : completion value :=
  match v with
  | VUndefined | VNull => Throw TypeError
  | VBool _ | VNum _ => Ret VUndefined
  | VStr s =>
      if String.eqb k "length" then Ret (VNum (num_of_nat (String.length s)))
      else match index_of_key k with
           | Some i =>
               match String.get i s with
               | Some c => Ret (VStr (String c EmptyString))
               | None => Ret VUndefined
               end
           | None => Ret VUndefined
           end
  | VArr items =>
      if String.eqb k "length" then Ret (VNum (num_of_nat (List.length items)))
      else match index_of_key k with
           | Some i => Ret (nth i items VUndefined)
           | None => Ret VUndefined
           end
  | VObj fs =>
      match lookup_field k fs with
      | Some x => Ret x
      | None => Ret VUndefined
      end
  end.

(** Optional chaining [v?.k] *)
Definition get_opt (v : value) (k : string) : completion value :=
  if nullish v then Ret VUndefined else get v k.

(** [k in v]: a [TypeError] unless [v] is an object *)
Definition has_in (k : string) (v : value) : completion bool :=
  match v with
  | VObj fs => Ret (bool_decide (is_Some (lookup_field k fs)))
  | VArr items =>
      Ret (String.eqb k "length" ||
           match index_of_key k with
           | Some i => bool_decide (i < List.length items)
           | None => false
           end)
  | _ => Throw TypeError
  end.

(** [Object.keys(v)], kept only for the exception it raises on [undefined]
    and [null]; the sources pass the result to the debug log only. *)
Definition Object_keys (v : value) : completion unit :=
  if nullish v then Throw TypeError else Ret tt.

End JS.

Import JS.

(** ** Objects with string values: [Record<string, string>]

    The own properties of an object are enumerated with the array indices
    first, in ascending order, and the other keys after them in the order in
    which they were created.  The entries of a record are kept in that
    order; [{ k: v, ... }], [o[k] = v] and [{ ...a, ...b }] create
    properties one after the other. *)

Module StringRecord.

Record t := make { entries : list (string * string) }.

Fixpoint index_value (acc : N) (s : string) : option N :=
  match s with
  | EmptyString => Some acc
  | String c s' =>
      let n := N_of_ascii c in
      if (48 <=? n)%N && (n <=? 57)%N
      then index_value (10 * acc + (n - 48))%N s'
      else None
  end.

(** An array index: the canonical decimal text of an integer below
    [2^32 - 1] *)
Definition array_index (k : string) : option N :=
  match k with
  | EmptyString => None
  | String "0" EmptyString => Some 0%N
  | String "0" _ => None
  | _ =>
      match index_value 0 k with
      | Some i => if (i <=? 4294967294)%N then Some i else None
      | None => None
      end
  end.

Fixpoint lookup_entry (k : string) (es : list (string * string)) : option string :=
  match es with
  | [] => None
  | (k', v) :: rest => if String.eqb k k' then Some v else lookup_entry k rest
  end.

(** An existing property keeps its place and takes the new value. *)
Fixpoint replace_entry (k v : string) (es : list (string * string))
  : list (string * string) :=
  match es with
  | [] => []
  | (k', v') :: rest =>
      if String.eqb k k' then (k', v) :: rest else (k', v') :: replace_entry k v rest
  end.

(** A new array index goes before the first greater index and before every
    other key. *)
Fixpoint insert_index (i : N) (k v : string) (es : list (string * string))
  : list (string * string) :=
  match es with
  | [] => [(k, v)]
  | (k', v') :: rest =>
      match array_index k' with
      | Some j => if (i <? j)%N then (k, v) :: es else (k', v') :: insert_index i k v rest
      | None => (k, v) :: es
      end
  end.

Definition define_entry (k v : string) (es : list (string * string))
  : list (string * string) :=
  match lookup_entry k es with
  | Some _ => replace_entry k v es
  | None =>
      match array_index k with
      | Some i => insert_index i k v es
      | None => es ++ [(k, v)]
      end
  end.

Definition define_entries (new es : list (string * string)) : list (string * string) :=
  fold_left (fun acc e => define_entry (fst e) (snd e) acc) new es.

(** [o[k] = v] on an object without setters, and a property of an object
    literal *)
Definition define (k v : string) (r : t) : t := make (define_entry k v (entries r)).

(** [{ ...a, ...b }]: a new object that takes the properties of [a] and then
    those of [b] *)
Definition spread (a b : t) : t :=
  make (define_entries (entries b) (define_entries (entries a) [])).

(** [Object.keys(r)] *)
Definition keys (r : t) : list string := (entries r).*1.

#[global] Instance t_eq_dec : EqDecision t.
Proof. solve_decision. Defined.
#[global] Instance t_lookup : Lookup string string t :=
  fun k r => lookup_entry k (entries r).
#[global] Instance t_insert : Insert string string t := define.
#[global] Instance t_empty : Empty t := make [].
#[global] Instance t_singleton : SingletonM string string t :=
  fun k v => make [(k, v)].

End StringRecord.

(** ** Library functions the sources call

    The sources lean on the ECMAScript built-ins and on the [ethers]
    library.  The string methods and [BigInt] are written out (module [JS]
    and below).  The others are taken as an interface: their results are
    whatever the run-time gives, and the theorems hold for every
    implementation. *)

Module Library.

Class Externals := {
  (** [JSON.parse(v)]; a [SyntaxError] when the text is not JSON *)
  JSON_parse : value -> completion value;
  (** [JSON.stringify(v)] *)
  JSON_stringify : value -> string;
  (** [String(n)] for a number, as in a template literal *)
  Number_toString : number -> string;
  (** [parseFloat(s)] *)
  parseFloat : string -> number;
  (** [ethers.isAddress(v)] *)
  isAddress : value -> bool;
  (** [new ethers.Interface([transfer]).parseTransaction({ data })] *)
  parseTransaction : value -> completion unit;
  (** [new ethers.Interface([transfer]).encodeFunctionData('transfer', [payTo, amount])] *)
  encodeTransfer : value -> string -> completion string;
  (** [ethers.formatUnits(n, decimals)] *)
  formatUnits : Z -> nat -> completion string;
  (** [X402Protocol.createAuthorizationHeaders(signedTx, from)]: the
      EIP-3009 authorization built from the clock, a random nonce and a
      typed-data signature.  [PaymentHandler] never calls it. *)
  x402_createAuthorizationHeaders : string -> string -> completion StringRecord.t;
  (** [deriveAddress(token)] and [signPayload({ timestamp }, token)] of
      [@agentauth/core] *)
  deriveAddress : string -> completion string;
  signPayload : string -> string -> completion string;
  (** [Buffer.from(JSON.stringify({ timestamp })).toString('base64')] *)
  encodePayload : string -> string
}.

End Library.
Export Library.

(** The answers of the wallet service during one request.  Every method is
    called at most once per request, so one outcome per method is enough. *)
Record WalletService := {
  getWalletBalances : completion (string * string);  (* usdc, eth *)
  getCurrentChainId : value;
  configureForChain : value -> completion unit;
  estimateTxCost : value -> completion string;
  getTransactionCount : completion value;
  getGasPrice : completion value;
  signTransaction : value -> completion string;
  getAddress : string
}.

Module Builtins.

(** [try { return c } catch { return d }] *)
Definition try_or {A} (d : A) (c : completion A) : A :=
  match c with
  | Ret a => a
  | Throw _ => d
  end.

(** [String(v)] / template-literal conversion, given the conversion of
    numbers *)
Fixpoint ToString_with (numberToString : number -> string) (v : value) : string :=
  match v with
  | VUndefined => "undefined"
  | VNull => "null"
  | VBool true => "true"
  | VBool false => "false"
  | VNum n => numberToString n
  | VStr s => s
  | VArr items =>
      join "," (map (fun x => if nullish x then "" else ToString_with numberToString x) items)
  | VObj _ => "[object Object]"
  end.

Definition ToString `{Externals} (v : value) : string :=
  ToString_with Number_toString v.

(** Calling a string method on [v]: a [TypeError] unless [v] is a string. *)
Definition as_string (v : value) : completion string :=
  match v with
  | VStr s => Ret s
  | _ => Throw TypeError
  end.

(** [a === b] for two values that are not the same object: equal primitives
    of one type; two objects met here are never the same reference. *)
Definition strict_eq (a b : value) : bool :=
  match a, b with
  | VUndefined, VUndefined | VNull, VNull => true
  | VBool x, VBool y => Bool.eqb x y
  | VNum x, VNum y => num_eqb x y
  | VStr x, VStr y => String.eqb x y
  | _, _ => false
  end.

(** [s.toLowerCase()] on the code units below 256 *)
Definition lower_char (c : ascii) : ascii :=
  let n := nat_of_ascii c in
  if ((65 <=? n) && (n <=? 90)) || ((192 <=? n) && (n <=? 214)) || ((216 <=? n) && (n <=? 222))
  then ascii_of_nat (n + 32) else c.

Fixpoint toLowerCase (s : string) : string :=
  match s with
  | EmptyString => EmptyString
  | String c s' => String (lower_char c) (toLowerCase s')
  end.

(** *** [BigInt(s)] on a string (StringToBigInt) *)

Definition is_js_space (c : ascii) : bool :=
  let n := nat_of_ascii c in
  ((9 <=? n) && (n <=? 13)) || (n =? 32) || (n =? 160).

Fixpoint trim_left (s : string) : string :=
  match s with
  | String c s' => if is_js_space c then trim_left s' else s
  | EmptyString => EmptyString
  end.

Fixpoint rev_str (acc s : string) : string :=
  match s with
  | EmptyString => acc
  | String c s' => rev_str (String c acc) s'
  end.

Definition trim (s : string) : string :=
  rev_str "" (trim_left (rev_str "" (trim_left s))).

Definition digit_of (c : ascii) : option Z :=
  let n := nat_of_ascii c in
  if (48 <=? n) && (n <=? 57) then Some (Z.of_nat (n - 48))
  else if (65 <=? n) && (n <=? 70) then Some (Z.of_nat (n - 55))
  else if (97 <=? n) && (n <=? 102) then Some (Z.of_nat (n - 87))
  else None.

Fixpoint parse_digits (base acc : Z) (s : string) : option Z :=
  match s with
  | EmptyString => Some acc
  | String c s' =>
      match digit_of c with
      | Some d => if (d <? base)%Z then parse_digits base (base * acc + d)%Z s' else None
      | None => None
      end
  end.

(** One or more digits of the base *)
Definition parse_radix (base : Z) (s : string) : option Z :=
  match s with
  | EmptyString => None
  | _ => parse_digits base 0 s
  end.

Definition StringToBigInt (s : string) : option Z :=
  let t := trim s in
  match t with
  | EmptyString => Some 0%Z
  | String c rest =>
      if Ascii.eqb c "+" then parse_radix 10 rest
      else if Ascii.eqb c "-" then Z.opp <$> parse_radix 10 rest
      else if Ascii.eqb c "0" then
        match rest with
        | String c' rest' =>
            if (Ascii.eqb c' "x" || Ascii.eqb c' "X")%bool then parse_radix 16 rest'
            else if (Ascii.eqb c' "o" || Ascii.eqb c' "O")%bool then parse_radix 8 rest'
            else if (Ascii.eqb c' "b" || Ascii.eqb c' "B")%bool then parse_radix 2 rest'
            else parse_radix 10 t
        | EmptyString => parse_radix 10 t
        end
      else parse_radix 10 t
  end.

Definition BigInt (s : string) : completion Z :=
  match StringToBigInt s with
  | Some z => Ret z
  | None => Throw SyntaxError
  end.

End Builtins.
Import Builtins.

(** ** The [Headers] class of the Fetch standard

    A [Headers] object holds a header list.  Names are matched without
    regard to the case of ASCII letters and are lower-cased when the list is
    read, so the list keeps them lower-cased.  [append] and [set] strip the
    value of leading and trailing HTTP whitespace and throw a [TypeError]
    for a name that is no token and for a value with a NUL, CR or LF. *)

Module Fetch.

Abbreviation Headers := (list (string * string)).

(** The argument of [new Headers(init)], read as its entries: the pairs of a
    sequence or of another [Headers] object, or the properties of a
    record *)
Abbreviation HeadersInit := (list (string * string)).

Definition ascii_lower_char (c : ascii) : ascii :=
  let n := nat_of_ascii c in
  if (65 <=? n) && (n <=? 90) then ascii_of_nat (n + 32) else c.

Fixpoint lowercase (s : string) : string :=
  match s with
  | EmptyString => EmptyString
  | String c s' => String (ascii_lower_char c) (lowercase s')
  end.

(** The characters of a token (RFC 9110): letters, digits and
    [!#$%&'*+-.^_`|~] *)
Definition is_token_char (c : ascii) : bool :=
  let n := nat_of_ascii c in
  (n =? 33) || ((35 <=? n) && (n <=? 39)) || (n =? 42) || (n =? 43) ||
  (n =? 45) || (n =? 46) || ((48 <=? n) && (n <=? 57)) ||
  ((65 <=? n) && (n <=? 90)) || ((94 <=? n) && (n <=? 122)) ||
  (n =? 124) || (n =? 126).

Definition is_header_name (name : string) : bool :=
  negb (String.eqb name "") && all_chars is_token_char name.

Definition is_http_whitespace (c : ascii) : bool :=
  let n := nat_of_ascii c in
  (n =? 9) || (n =? 10) || (n =? 13) || (n =? 32).

Fixpoint strip_left (s : string) : string :=
  match s with
  | String c s' => if is_http_whitespace c then strip_left s' else s
  | EmptyString => EmptyString
  end.

(** A value without its leading and trailing HTTP whitespace *)
Definition normalize (value : string) : string :=
  rev_str "" (strip_left (rev_str "" (strip_left value))).

Definition is_forbidden_in_value (c : ascii) : bool :=
  let n := nat_of_ascii c in
  (n =? 0) || (n =? 10) || (n =? 13).

(** A normalized value is a header value when it holds no NUL, CR or LF. *)
Definition is_header_value (value : string) : bool :=
  all_chars (fun c => negb (is_forbidden_in_value c)) value.

(** Whether two names are one header name *)
Definition names_match (a b : string) : bool := String.eqb (lowercase a) (lowercase b).

(** Whether an entry of the list goes by the name [name] *)
Definition same_name (name : string) (entry : string * string) : bool :=
  String.eqb (lowercase name) (fst entry).

(** The value the list holds for a name: the values of the entries of that
    name, joined by a comma and a space *)
Definition lookup (headers : Headers) (name : string) : option string :=
  match filter (fun e => same_name name e = true) headers with
  | [] => None
  | found => Some (join ", " (map snd found))
  end.

(** [headers.get(name)] *)
Definition get (headers : Headers) (name : string) : completion (option string) :=
  if is_header_name name then Ret (lookup headers name) else Throw TypeError.

(** [headers.append(name, value)] *)
Definition append (name value : string) (headers : Headers) : completion Headers :=
  let value := normalize value in
  if negb (is_header_name name) then Throw TypeError else
  if negb (is_header_value value) then Throw TypeError else
  Ret (headers ++ [(lowercase name, value)]).

(** In the list: the first entry of the name takes the value, the others of
    that name go. *)
Fixpoint set_first (name value : string) (headers : Headers) : Headers :=
  match headers with
  | [] => []
  | e :: rest =>
      if same_name name e
      then (fst e, value) :: filter (fun e' => same_name name e' = false) rest
      else e :: set_first name value rest
  end.

(** [headers.set(name, value)] *)
Definition set (name value : string) (headers : Headers) : completion Headers :=
  let value := normalize value in
  if negb (is_header_name name) then Throw TypeError else
  if negb (is_header_value value) then Throw TypeError else
  Ret (if existsb (same_name name) headers
       then set_first name value headers
       else headers ++ [(lowercase name, value)]).

Fixpoint append_all (entries : list (string * string)) (headers : Headers)
  : completion Headers :=
  match entries with
  | [] => Ret headers
  | (name, value) :: rest =>
      match append name value headers with
      | Ret headers' => append_all rest headers'
      | Throw e => Throw e
      end
  end.

(** [new Headers(init)] *)
Definition create (init : option HeadersInit) : completion Headers :=
  match init with
  | None => Ret []
  | Some entries => append_all entries []
  end.

(** [Object.entries(record).forEach(([key, value]) => headers.set(key, value))] *)
Fixpoint set_all (entries : list (string * string)) (headers : Headers)
  : completion Headers :=
  match entries with
  | [] => Ret headers
  | (name, value) :: rest =>
      match set name value headers with
      | Ret headers' => set_all rest headers'
      | Throw e => Throw e
      end
  end.

End Fetch.

(** ** lib/mcpUtils.ts *)

Module McpUtils.
Section WithExternals.
Context `{Externals}.

Definition isMCPContentFormat_body (result : value) : completion bool :=
  if negb (truthy result) then Ret false else
  if negb (String.eqb (typeof result) "object") then Ret false else
  content ← get result "content";
  if negb (isArray content) then Ret false else
  len ← get content "length";
  if negb (match len with VNum n => num_gtb n (num_of_Z 0) | _ => false end)
  then Ret false else
  first ← get content "0";
  if negb (truthy first) then Ret false else
  if negb (String.eqb (typeof first) "object") then Ret false else
  ty ← get first "type";
  if negb (is_str ty "text") then Ret false else
  text ← get first "text";
  Ret (String.eqb (typeof text) "string").

(** [isMCPContentFormat]: the conjunction is computed inside [try], the
    handler returns [false] *)
Definition isMCPContentFormat (result : value) : bool :=
  try_or false (isMCPContentFormat_body result).

Definition double_quote : string := String (ascii_of_nat 34) EmptyString.

(** The two parsing attempts of [extractFromMCPContent]: strict JSON, then
    the rewrite of Python-style text; when both fail the first error is
    thrown again. *)
Definition parse_tolerant (textContent : value) : completion value :=
  catch (JSON_parse textContent)
    (fun firstParseError =>
       catch
         (s ← as_string textContent;
          let jsonified :=
            replace_all "None" "null"
              (replace_all "False" "false"
                 (replace_all "True" "true"
                    (replace_all "'" double_quote s))) in
          JSON_parse (VStr jsonified))
         (fun _ => Throw firstParseError)).

Definition extractFromMCPContent_body (result : value) : completion value :=
  content ← get result "content";
  first ← get content "0";
  textContent ← get first "text";
  (* debug log: textContent.length, textContent.substring(0, 100) *)
  _ ← get textContent "length";
  _ ← as_string textContent;
  parsedContent ← parse_tolerant textContent;
  (* debug log: Object.keys(parsedContent), 'error' in parsedContent,
     parsedContent.error, parsedContent.error?.data *)
  _ ← Object_keys parsedContent;
  _ ← has_in "error" parsedContent;
  err ← get parsedContent "error";
  data ← get_opt err "data";
  if truthy data then Ret data else Ret parsedContent.

(** [extractFromMCPContent]: on any failure the raw text is returned; that
    read is outside the [try]. *)
Definition extractFromMCPContent (result : value) : completion value :=
  catch (extractFromMCPContent_body result)
    (fun _ =>
       content ← get result "content";
       first ← get content "0";
       get first "text").

Definition extractMCPResponseData_body (message : value) : completion value :=
  (* debug log: 'error' in message, 'result' in message, Object.keys(message) *)
  hasError ← has_in "error" message;
  hasResult ← has_in "result" message;
  _ ← Object_keys message;
  errorSet ← (if (hasError : bool) then truthy <$> get message "error" else Ret false);
  if (errorSet : bool) then
    error ← get message "error";
    data ← get error "data";
    if truthy data then Ret data else Ret error
  else
    resultSet ← (if (hasResult : bool) then truthy <$> get message "result" else Ret false);
    if (resultSet : bool) then
      result ← get message "result";
      if isMCPContentFormat result then extractFromMCPContent result
      else Ret result
    else Ret VNull.

Definition extractMCPResponseData (message : value) : value :=
  try_or VNull (extractMCPResponseData_body message).

End WithExternals.
End McpUtils.
Import McpUtils.

(** ** The protocol interface (protocols/agentpay-v002.ts) *)

Module Protocol.

Record ValidationResult := {
  valid : bool;
  errors : list string
}.

(** [interface PaymentProtocol], the methods the handler and the detector
    call. *)
Record PaymentProtocol := {
  isPaymentRequired : value -> completion bool;
  fixTruncatedTransactionData : value -> completion value;
  validateTransactionTemplate : value -> completion ValidationResult;
  signPaymentTransaction : value -> WalletService -> completion (string * string);
  createAuthorizationHeaders : string -> string -> completion StringRecord.t
}.

(** The other methods of the interface, the ones [processPaymentRequired]
    calls on the detected protocol: [extractPaymentDetails(extractedData)]
    ([null] is [VNull]), [formatForUser(details, balances, walletService)]
    with the balances as (usdc, eth), and [formatForAgent(details, params)]. *)
Record Presentation := {
  extractPaymentDetails : value -> completion value;
  formatForUser : value -> string * string -> WalletService -> completion string;
  formatForAgent : value -> value -> completion string
}.

End Protocol.
Abbreviation PaymentProtocol := Protocol.PaymentProtocol.
Abbreviation ValidationResult := Protocol.ValidationResult.

(** Errors pushed one after the other: [errors.push(msg)] when [c] holds *)
Definition push_if (c : bool) (msg : string) (errs : list string) : list string :=
  if c then errs ++ [msg] else errs.

Definition ERC20_TRANSFER_SELECTOR : string := "0xa9059cbb".

(** ** protocols/agentpay-v002.ts *)

Module AgentPay.
Section WithExternals.
Context `{Externals}.

Definition USDC_BASE_LOWER : string := "0x833589fcd6edb6e08f4c7c32d4f71b54bda02913".

(** One round of the loop over [response.content] in [isPaymentRequired]:
    [Some b] is [return b], [None] goes on with the next item.  The read of
    [item.type] is outside the inner [try]. *)
Definition content_item_verdict (item : value) : completion (option bool) :=
  ty ← get item "type";
  text ← get item "text";
  if is_str ty "text" && truthy text then
    catch
      (parsed ← JSON_parse text;
       v ← get parsed "x402Version";
       if negb (nullish v) then Ret (Some false) else
       e ← get parsed "error";
       c ← get parsed "code";
       if is_str e "payment_required" || is_num c 402 then Ret (Some true)
       else Ret None)
      (fun _ => Ret None)
  else Ret None.

Fixpoint content_loop (items : list value) : completion bool :=
  match items with
  | [] => Ret false
  | item :: rest =>
      r ← content_item_verdict item;
      match (r : option bool) with
      | Some b => Ret b
      | None => content_loop rest
      end
  end.

Definition isPaymentRequired (response : value) : completion bool :=
  if negb (truthy response) then Ret false else
  v ← get response "x402Version";
  if negb (nullish v) then Ret false else
  e ← get response "error";
  if is_str e "payment_required" then Ret true else
  c ← get response "code";
  if is_num c 402 then Ret true else
  content ← get response "content";
  match content with
  | VArr items => content_loop items
  | _ => Ret false
  end.

(** One round of the loops of [extractPaymentDetails]: [Some parsed] is
    [return parsed], [None] goes on with the next item. *)
Definition details_item_verdict (item : value) : completion (option value) :=
  ty ← get item "type";
  text ← get item "text";
  if is_str ty "text" && truthy text then
    catch
      (parsed ← JSON_parse text;
       e ← get parsed "error";
       c ← get parsed "code";
       if is_str e "payment_required" || is_num c 402 then Ret (Some parsed)
       else Ret None)
      (fun _ => Ret None)
  else Ret None.

Fixpoint details_loop (items : list value) : completion (option value) :=
  match items with
  | [] => Ret None
  | item :: rest =>
      r ← details_item_verdict item;
      match (r : option value) with
      | Some parsed => Ret (Some parsed)
      | None => details_loop rest
      end
  end.

(** [extractPaymentDetails]: the response itself, or the first payment
    request found in [response.content], then in [response.result.content];
    [null] when there is none. *)
Definition extractPaymentDetails (response : value) : completion value :=
  e ← get response "error";
  if is_str e "payment_required" then Ret response else
  content ← get response "content";
  found ← (match content with
           | VArr items => details_loop items
           | _ => Ret None
           end);
  match (found : option value) with
  | Some parsed => Ret parsed
  | None =>
      result ← get response "result";
      resultContent ← get_opt result "content";
      found ← (match resultContent with
               | VArr items => details_loop items
               | _ => Ret None
               end);
      match (found : option value) with
      | Some parsed => Ret parsed
      | None => Ret VNull
      end
  end.

(** [fixTruncatedTransactionData]: left-pad the amount word of an ERC-20
    transfer whose data is at least 74 and fewer than 138 characters. *)
Definition fixTruncatedTransactionData (template : value) : completion value :=
  data ← get template "data";
  if negb (truthy data) then Ret template else
  s ← as_string data;
  if startsWith s ERC20_TRANSFER_SELECTOR
     && (74 <=? String.length s) && (String.length s <? 138)
  then
    let methodAndRecipient := take_str 74 s in
    let truncatedAmount := drop_str 74 s in
    let paddedAmount := padStart 64 "0" truncatedAmount in
    let fixedData := methodAndRecipient +:+ paddedAmount in
    match template with
    | VObj fs => Ret (VObj (set_field "data" (VStr fixedData) fs))
    | _ => Ret template
    end
  else Ret template.

(** The USDC block of [validateTransactionTemplate] *)
Definition usdc_checks (data : value) (errs : list string) : completion (list string) :=
  len ← get data "length";
  let errs :=
    push_if (negb (is_num len 138))
      ("USDC transfer data has incorrect length: " +:+ ToString len +:+
       " chars (expected 138). This indicates LLM agent truncation of leading zeros.")
      errs in
  match parseTransaction data with
  | Ret _ => Ret errs
  | Throw parseError =>
      Ret (errs ++ ["USDC transfer data is corrupted and cannot be parsed: " +:+
                    message_or "Unknown error" parseError])
  end.

Definition validateTransactionTemplate (template : value) : completion ValidationResult :=
  to ← get template "to";
  let errs := push_if (negb (truthy to) || negb (isAddress to))
                "Invalid recipient address" [] in
  data ← get template "data";
  let errs := push_if (negb (truthy data) || negb (is_0x_hex (ToString data)))
                "Invalid transaction data" errs in
  isUsdc ← (if truthy data && truthy to
            then (fun l => String.eqb (toLowerCase l) USDC_BASE_LOWER) <$> as_string to
            else Ret false);
  errs ← (if (isUsdc : bool) then usdc_checks data errs else Ret errs);
  val ← get template "value";
  let errs := push_if (negb (truthy val) || negb (is_0x_hex (ToString val)))
                "Invalid transaction value" errs in
  chainId ← get template "chainId";
  let errs := push_if (negb (truthy chainId) || negb (String.eqb (typeof chainId) "number"))
                "Invalid chain ID" errs in
  gasLimit ← get template "gasLimit";
  let errs := push_if (negb (truthy gasLimit)) "Missing gas limit" errs in
  let errs := push_if (negb (is_num chainId 8453))
                ("Unexpected chain ID: " +:+ ToString chainId +:+
                 " (expected Base mainnet: 8453)") errs in
  Ret {| Protocol.valid := bool_decide (errs = []); Protocol.errors := errs |}.

(** [signPaymentTransaction]: nonce and gas price from the wallet, then the
    signature over the completed transaction. *)
Definition signPaymentTransaction (template : value) (w : WalletService)
  : completion (string * string) :=
  nonce ← getTransactionCount w;
  gasPrice ← getGasPrice w;
  to ← get template "to";
  data ← get template "data";
  val ← get template "value";
  chainId ← get template "chainId";
  gasLimit ← get template "gasLimit";
  let tx := VObj [("to", to); ("data", data); ("value", val); ("chainId", chainId);
                  ("gasLimit", gasLimit); ("gasPrice", gasPrice); ("nonce", nonce)] in
  signedTx ← signTransaction w tx;
  Ret (signedTx, getAddress w).

Definition createAuthorizationHeaders (signedTx from : string)
  : completion StringRecord.t :=
  Ret (<["x-agentpay-from" := from]> {["x-agentpay-authorization" := signedTx]}).

Definition protocol : PaymentProtocol := {|
  Protocol.isPaymentRequired := isPaymentRequired;
  Protocol.fixTruncatedTransactionData := fixTruncatedTransactionData;
  Protocol.validateTransactionTemplate := validateTransactionTemplate;
  Protocol.signPaymentTransaction := signPaymentTransaction;
  Protocol.createAuthorizationHeaders := createAuthorizationHeaders
|}.

End WithExternals.
End AgentPay.

(** ** protocols/x402.ts *)

Module X402.
Section WithExternals.
Context `{Externals}.

(** The instance field [currentChainId] *)
Record state := { currentChainId : value }.

Definition isPaymentRequired_body (response : value) : completion bool :=
  (* debug log: response?.x402Version, 'accepts' in (response || {}),
     Array.isArray(response?.accepts) *)
  _ ← get_opt response "x402Version";
  _ ← has_in "accepts" (if truthy response then response else VObj []);
  _ ← get_opt response "accepts";
  if negb (String.eqb (typeof response) "object") then Ret false else
  if strict_eq response VNull then Ret false else
  v ← get response "x402Version";
  if nullish v then Ret false else
  accepts ← get response "accepts";
  Ret (isArray accepts).

Definition isPaymentRequired (response : value) : completion bool :=
  Ret (try_or false (isPaymentRequired_body response)).

Definition typeof_is (v : value) (t : string) : bool := String.eqb (typeof v) t.

Definition isValidPaymentRequirement (requirement : value) : completion bool :=
  (* debug log: 'scheme' in (requirement || {}) and its like *)
  _ ← has_in "scheme" (if truthy requirement then requirement else VObj []);
  if negb (typeof_is requirement "object") then Ret false else
  if strict_eq requirement VNull then Ret false else
  scheme ← get requirement "scheme";
  network ← get requirement "network";
  maxAmountRequired ← get requirement "maxAmountRequired";
  resource ← get requirement "resource";
  description ← get requirement "description";
  payTo ← get requirement "payTo";
  maxTimeoutSeconds ← get requirement "maxTimeoutSeconds";
  asset ← get requirement "asset";
  mimeType ← get requirement "mimeType";
  outputSchema ← get requirement "outputSchema";
  extra ← get requirement "extra";
  Ret (typeof_is scheme "string" &&
       typeof_is network "string" &&
       typeof_is maxAmountRequired "string" &&
       typeof_is resource "string" &&
       typeof_is description "string" &&
       typeof_is payTo "string" &&
       typeof_is maxTimeoutSeconds "number" &&
       typeof_is asset "string" &&
       isAddress payTo &&
       isAddress asset &&
       (strict_eq mimeType VUndefined || typeof_is mimeType "string") &&
       (strict_eq outputSchema VUndefined || strict_eq outputSchema VNull
        || typeof_is outputSchema "object") &&
       (strict_eq extra VUndefined || strict_eq extra VNull
        || typeof_is extra "object")).

(** The names every object inherits from [Object.prototype]: [configs[name]]
    finds a truthy value for them, and that value has no [chainId]. *)
Definition OBJECT_PROTOTYPE_NAMES : list string :=
  ["constructor"; "hasOwnProperty"; "isPrototypeOf"; "propertyIsEnumerable";
   "toLocaleString"; "toString"; "valueOf"; "__proto__";
   "__defineGetter__"; "__defineSetter__"; "__lookupGetter__"; "__lookupSetter__"].

(** [getChainConfig(networkName).chainId] *)
Definition getChainConfig (networkName : string) : completion value :=
  if String.eqb networkName "base" then Ret (VNum (num_of_Z 8453))
  else if String.eqb networkName "base-sepolia" then Ret (VNum (num_of_Z 84532))
  else if bool_decide (networkName ∈ OBJECT_PROTOTYPE_NAMES) then Ret VUndefined
  else Throw (JSError ("Unsupported network: " +:+ networkName +:+
                       ". AgentAuth MCP Gateway supports: base, base-sepolia")).

(** [getNetworkFromChainId()]: the [switch] compares with [===] *)
Definition getNetworkFromChainId (st : state) : completion string :=
  if negb (truthy (currentChainId st))
  then Throw (JSError "Chain ID not set - call extractPaymentDetails first")
  else if is_num (currentChainId st) 8453 then Ret "base"
  else if is_num (currentChainId st) 84532 then Ret "base-sepolia"
  else Throw (JSError ("Unknown chain ID: " +:+ ToString (currentChainId st))).

(** The amount check shared by [extractPaymentDetails] and
    [buildTransactionFromRequirement]: no decimal point, and [BigInt]
    accepts the text with a value above zero. *)
Definition check_atomic_amount (maxAmount : string) : completion Z :=
  if includes maxAmount "." then
    Throw (JSError ("Invalid x402 amount format: " +:+ maxAmount +:+
      ". x402 requires atomic units, not decimals. Server must send atomic units (e.g., " +:+
      double_quote +:+ "10000" +:+ double_quote +:+ " for 0.01 USDC, not " +:+
      double_quote +:+ "0.01" +:+ double_quote +:+ ")."))
  else
    catch
      (atomicValue ← BigInt maxAmount;
       if (atomicValue <=? 0)%Z
       then Throw (JSError ("Invalid x402 amount: " +:+ maxAmount +:+ ". Amount must be positive."))
       else Ret atomicValue)
      (fun _ => Throw (JSError ("Invalid x402 amount format: " +:+ maxAmount +:+
                 ". Must be a valid positive integer in atomic units."))).

Definition buildTransactionFromRequirement (requirement chainId : value) : completion value :=
  catch
    (payTo ← get requirement "payTo";
     asset ← get requirement "asset";
     if negb (isAddress payTo)
     then Throw (JSError ("Invalid payTo address: " +:+ ToString payTo)) else
     if negb (isAddress asset)
     then Throw (JSError ("Invalid asset address: " +:+ ToString asset)) else
     maxAmountRequired ← get requirement "maxAmountRequired";
     let maxAmount := ToString maxAmountRequired in
     _ ← check_atomic_amount maxAmount;
     data ← encodeTransfer payTo maxAmount;
     Ret (VObj [("to", asset); ("data", VStr data); ("value", VStr "0x0");
                ("chainId", chainId); ("gasLimit", VStr "50000");
                ("x402Requirement", requirement)]))
    (fun error =>
       Throw (JSError ("x402 transaction building failed: " +:+
                       message_or "Unknown error" error))).

(** [extractPaymentDetails] up to the assignment of [currentChainId] *)
Definition extract_requirement (response : value) : completion (value * value) :=
  version ← get response "x402Version";
  if negb (is_num version 1) then
    Throw (JSError ("Unsupported x402 version: " +:+ ToString version +:+
                    ". Supported versions: 1")) else
  accepts ← get response "accepts";
  empty ← (if isArray accepts then (fun len => is_num len 0) <$> get accepts "length"
           else Ret true);
  if (empty : bool) then
    Throw (JSError "Invalid x402 response: accepts array is empty or missing") else
  requirement ← get accepts "0";
  ok ← isValidPaymentRequirement requirement;
  if negb ok then Throw (JSError "Invalid x402 payment requirement structure") else
  network ← get requirement "network";
  chainId ← getChainConfig (ToString network);
  Ret (requirement, chainId).

(** ... and from there to the returned details *)
Definition extract_details (requirement chainId : value) : completion value :=
  maxAmountRequired ← get requirement "maxAmountRequired";
  let maxAmount := ToString maxAmountRequired in
  atomicValue ← check_atomic_amount maxAmount;
  amount ← formatUnits atomicValue 6;
  description ← get requirement "description";
  transaction ← buildTransactionFromRequirement requirement chainId;
  Ret (VObj [("error", VStr "payment_required"); ("code", VNum (num_of_Z 402));
             ("message", description); ("amount", VStr amount);
             ("currency", VStr "USDC"); ("description", description);
             ("transaction", transaction)]).

(** [extractPaymentDetails]: the new instance state and the details, [null]
    when anything threw. *)
Definition extractPaymentDetails (st : state) (response : value) : state * value :=
  match extract_requirement response with
  | Throw _ => (st, VNull)
  | Ret (requirement, chainId) =>
      ({| currentChainId := chainId |},
       try_or VNull (extract_details requirement chainId))
  end.

(** x402 templates are returned as they are *)
Definition fixTruncatedTransactionData (template : value) : completion value :=
  Ret template.

Definition validateTransactionTemplate (template : value) : completion ValidationResult :=
  to ← get template "to";
  let errs := push_if (negb (truthy to) || negb (isAddress to))
                "Invalid recipient address" [] in
  data ← get template "data";
  let errs := push_if (negb (truthy data) || negb (is_0x_hex (ToString data)))
                "Invalid transaction data" errs in
  val ← get template "value";
  let errs := push_if (negb (truthy val) || negb (is_0x_hex (ToString val)))
                "Invalid transaction value" errs in
  chainId ← get template "chainId";
  let errs := push_if (negb (truthy chainId) || negb (typeof_is chainId "number"))
                "Invalid chain ID" errs in
  gasLimit ← get template "gasLimit";
  let errs := push_if (negb (truthy gasLimit)) "Missing gas limit" errs in
  let errs := push_if (truthy chainId && negb (is_num chainId 8453)
                       && negb (is_num chainId 84532))
                ("Unsupported chain ID for x402: " +:+ ToString chainId +:+
                 " (supported: 8453, 84532)") errs in
  Ret {| Protocol.valid := bool_decide (errs = []); Protocol.errors := errs |}.

(** [signPaymentTransaction]: the template itself, serialized, is what the
    header construction receives later. *)
Definition signPaymentTransaction (template : value) (w : WalletService)
  : completion (string * string) :=
  Ret (JSON_stringify template, getAddress w).

Definition protocol : PaymentProtocol := {|
  Protocol.isPaymentRequired := isPaymentRequired;
  Protocol.fixTruncatedTransactionData := fixTruncatedTransactionData;
  Protocol.validateTransactionTemplate := validateTransactionTemplate;
  Protocol.signPaymentTransaction := signPaymentTransaction;
  Protocol.createAuthorizationHeaders := x402_createAuthorizationHeaders
|}.

End WithExternals.
End X402.

(** ** payments/protocolDetector.ts *)

Module ProtocolDetector.
Section WithExternals.
Context `{Externals}.

Record t := {
  protocols : gmap string PaymentProtocol;
  protocolPriority : list string
}.

Record ProtocolDetection := {
  protocol : PaymentProtocol;
  name : string;
  extractedData : value
}.

(** [new ProtocolDetector(protocols)] *)
Definition create (protocols : gmap string PaymentProtocol) : t :=
  {| protocols := protocols; protocolPriority := ["x402"; "agentpay-v002"] |}.

(** [registerProtocol]: set the entry, append the name to the priority list
    if it is not there yet *)
Definition registerProtocol (name : string) (p : PaymentProtocol) (d : t) : t :=
  {| protocols := <[name := p]> (protocols d);
     protocolPriority :=
       if bool_decide (name ∈ protocolPriority d) then protocolPriority d
       else protocolPriority d ++ [name] |}.

(** The loop over the priority list.  A name without a registered protocol
    is skipped; a predicate that throws counts as no match. *)
Fixpoint try_protocols (ps : gmap string PaymentProtocol) (names : list string)
  (data : value) : option ProtocolDetection :=
  match names with
  | [] => None
  | protocolName :: rest =>
      match ps !! protocolName with
      | None => try_protocols ps rest data
      | Some p =>
          match Protocol.isPaymentRequired p data with
          | Ret true =>
              Some {| protocol := p; name := protocolName; extractedData := data |}
          | Ret false | Throw _ => try_protocols ps rest data
          end
      end
  end.

Definition detectProtocol_body (d : t) (message : value)
  : completion (option ProtocolDetection) :=
  (* debug log: 'error' in message, 'result' in message, Object.keys(message) *)
  _ ← has_in "error" message;
  _ ← has_in "result" message;
  _ ← Object_keys message;
  let data := extractMCPResponseData message in
  if negb (truthy data) then Ret None else
  (* debug log: 'x402Version' in data, 'error' in data, data.error,
     Object.keys(data) *)
  _ ← has_in "x402Version" data;
  _ ← has_in "error" data;
  _ ← get data "error";
  _ ← Object_keys data;
  Ret (try_protocols (protocols d) (protocolPriority d) data).

(** [detectProtocol]: the whole body runs inside [try]; the handler returns
    [null]. *)
Definition detectProtocol (d : t) (message : value)
  : completion (option ProtocolDetection) :=
  catch (detectProtocol_body d message) (fun _ => Ret None).

End WithExternals.
End ProtocolDetector.

(** ** payments/paymentHandler.ts *)

Module PaymentHandler.
Section WithExternals.
Context `{Externals}.

(** The handler and its detector hold the same [Map] object, so the model
    keeps one map, inside the detector. *)
Record t := {
  walletService : WalletService;
  protocolDetector : ProtocolDetector.t
}.

Definition protocols (h : t) : gmap string PaymentProtocol :=
  ProtocolDetector.protocols (protocolDetector h).

Definition registerProtocol (name : string) (p : PaymentProtocol) (h : t) : t :=
  {| walletService := walletService h;
     protocolDetector := ProtocolDetector.registerProtocol name p (protocolDetector h) |}.

(** [new PaymentHandler(walletService)] *)
Definition create (w : WalletService) : t :=
  registerProtocol "agentpay-v002" AgentPay.protocol
    (registerProtocol "x402" X402.protocol
       {| walletService := w; protocolDetector := ProtocolDetector.create ∅ |}).

Definition isPaymentRequired (h : t) (message : value) : completion bool :=
  detection ← ProtocolDetector.detectProtocol (protocolDetector h) message;
  Ret (bool_decide (is_Some (detection : option ProtocolDetector.ProtocolDetection))).

Definition hasPaymentAuthorization (message : value) : completion bool :=
  if negb (truthy message) then Ret false else
  if negb (String.eqb (typeof message) "object") then Ret false else
  hasParams ← has_in "params" message;
  if negb (hasParams : bool) then Ret false else
  params ← get message "params";
  if negb (truthy params) then Ret false else
  args ← get params "arguments";
  if negb (truthy args) then Ret false else
  approved ← get args "aa_payment_approved";
  if negb (is_true approved || is_str approved "true") then Ret false else
  transaction ← get args "aa_payment_transaction";
  Ret (truthy transaction).

Record GasEstimate := {
  costEth : string;
  sufficient : bool;
  errorMessage : option string
}.

Definition fallbackGasCost : string := "0.00005".

Definition estimateTransactionGas (w : WalletService) (transaction : value)
  (availableEth : number) : GasEstimate :=
  if negb (truthy transaction) then
    {| costEth := fallbackGasCost;
       sufficient := num_gtb availableEth (parseFloat fallbackGasCost);
       errorMessage := Some "No transaction provided for gas estimation" |}
  else
    match (chainId ← get transaction "chainId";
           _ ← (if truthy chainId && negb (strict_eq (getCurrentChainId w) chainId)
                then configureForChain w chainId else Ret tt);
           estimateTxCost w transaction) with
    | Ret gasCostEth =>
        {| costEth := gasCostEth;
           sufficient := num_gtb availableEth (parseFloat gasCostEth);
           errorMessage := None |}
    | Throw error =>
        {| costEth := fallbackGasCost;
           sufficient := num_gtb availableEth (parseFloat fallbackGasCost);
           errorMessage := Some ("Gas estimation failed: " +:+
                                 message_or "Unknown error" error) |}
    end.

(** [extractAmountFromTransaction]: the amount word of an ERC-20 transfer in
    USDC units, [0] for anything else and whenever decoding throws *)
Definition extractAmountFromTransaction_body (transaction : value) : completion number :=
  data ← get transaction "data";
  if negb (truthy data) then Ret (num_of_Z 0) else
  s ← as_string data;
  if startsWith s ERC20_TRANSFER_SELECTOR then
    let amountHex := slice_last 64 s in
    amountWei ← BigInt ("0x" +:+ amountHex);
    units ← formatUnits amountWei 6;
    Ret (parseFloat units)
  else Ret (num_of_Z 0).

Definition extractAmountFromTransaction (transaction : value) : number :=
  try_or (num_of_Z 0) (extractAmountFromTransaction_body transaction).

(** The result object [{ headers?, error? }]: every [return] of
    [processPaymentAuthorization] sets exactly one of the two. *)
Inductive AuthorizationResult :=
| AuthHeaders (headers : StringRecord.t)
| AuthError (error : string).

(** [processPaymentAuthorization] once the asset balance has been found
    sufficient: the gas check, the signature and the headers *)
Definition authorize_funded (protocol : PaymentProtocol) (w : WalletService)
  (transaction : value) (availableEth : number) : completion AuthorizationResult :=
  let gasEstimate := estimateTransactionGas w transaction availableEth in
  if negb (sufficient gasEstimate) then
    Ret (AuthError ("Insufficient ETH for gas. Required: ~" +:+ costEth gasEstimate +:+
                    " ETH, Available: " +:+ Number_toString availableEth +:+
                    match errorMessage gasEstimate with
                    | Some m => " (" +:+ m +:+ ")"
                    | None => ""
                    end))
  else
  signed ← Protocol.signPaymentTransaction protocol transaction w;
  headers ← Protocol.createAuthorizationHeaders protocol (fst signed) (snd signed);
  Ret (AuthHeaders headers).

(** The body of the [try] block of [processPaymentAuthorization] *)
Definition authorize (h : t) (transaction : value) : completion AuthorizationResult :=
  match protocols h !! "agentpay-v002" with
  | None => Ret (AuthError "AgentPay v0.0.2 protocol not available")
  | Some protocol =>
      fixedTransaction ← Protocol.fixTruncatedTransactionData protocol transaction;
      validation ← Protocol.validateTransactionTemplate protocol fixedTransaction;
      if negb (Protocol.valid validation) then
        Ret (AuthError ("Invalid transaction: " +:+
                        join ", " (Protocol.errors validation)))
      else
      balances ← getWalletBalances (walletService h);
      let requiredAmount := extractAmountFromTransaction fixedTransaction in
      let availableUsdc := parseFloat (fst balances) in
      let availableEth := parseFloat (snd balances) in
      if num_ltb availableUsdc requiredAmount then
        Ret (AuthError ("Insufficient USDC balance. Required: " +:+
                        Number_toString requiredAmount +:+ ", Available: " +:+
                        Number_toString availableUsdc))
      else authorize_funded protocol (walletService h) fixedTransaction availableEth
  end.

Definition processPaymentAuthorization (h : t) (message : value)
  : completion AuthorizationResult :=
  hasParams ← has_in "params" message;
  paramsSet ← (if (hasParams : bool) then truthy <$> get message "params" else Ret false);
  if negb (paramsSet : bool) then Ret (AuthError "No parameters in message") else
  params ← get message "params";
  args ← get params "arguments";
  argsSet ← (if truthy args then
               approved ← get args "aa_payment_approved";
               transaction ← get args "aa_payment_transaction";
               Ret (truthy approved && truthy transaction)
             else Ret false);
  if negb (argsSet : bool) then Ret (AuthError "Missing payment authorization parameters") else
  raw ← get args "aa_payment_transaction";
  match (if String.eqb (typeof raw) "string" then JSON_parse raw else Ret raw) with
  | Throw _ => Ret (AuthError "Invalid transaction format: unable to parse JSON")
  | Ret transaction =>
      catch (authorize h transaction)
        (fun error => Ret (AuthError (message_or "Payment processing failed" error)))
  end.

(** *** [processPaymentRequired] *)

Section Enrichment.

(** [JSON.stringify(v, null, 2)] *)
Variable JSON_stringify_indented : value -> string.

(** The remaining methods of the protocol object registered under a name *)
Variable presentation : string -> Protocol.Presentation.

(** [extractRequestParams] *)
Definition extractRequestParams (message : value) : completion value :=
  hasParams ← has_in "params" message;
  if (hasParams : bool) then
    params ← get message "params";
    if truthy params then Ret params else Ret VNull
  else Ret VNull.

(** The own properties [{ ...v }] copies *)
Definition spread_fields (v : value) : list (string * value) :=
  match v with
  | VObj fs => fs
  | VArr items => imap (fun i x => (pretty i, x)) items
  | _ => []
  end.

(** [createEnhancedMessage]: the enhancement goes into [error.data] of an
    error response, and into the text of a result otherwise. *)
Definition createEnhancedMessage (original enhancement : value) : completion value :=
  hasError ← has_in "error" original;
  if (hasError : bool) then
    Ret (VObj (set_field "error"
                 (VObj [("code", VNum (num_of_Z (-32001)));
                        ("message", VStr "Payment authorization required");
                        ("data", enhancement)])
                 (spread_fields original)))
  else
    Ret (VObj (set_field "result"
                 (VObj [("content",
                         VArr [VObj [("type", VStr "text");
                                     ("text", VStr (JSON_stringify_indented enhancement))]])])
                 (spread_fields original))).

(** [createErrorResponse] *)
Definition createErrorResponse (original : value) (errorMessage : string)
  : completion value :=
  hasId ← has_in "id" original;
  id ← (if (hasId : bool) then get original "id" else Ret (VStr "error"));
  Ret (VObj [("jsonrpc", VStr "2.0"); ("id", id);
             ("error", VObj [("code", VNum (num_of_Z (-32001)));
                             ("message", VStr "Payment processing failed");
                             ("data", VObj [("error_type", VStr "payment_configuration_failed");
                                            ("message", VStr errorMessage);
                                            ("instructions",
                                             VStr "Please check your configuration and try again.")])])]).

(** [a || b] on values *)
Definition or_else (a b : value) : value := if truthy a then a else b.

(** The object [enhancedResponse] *)
Definition enhancedResponse (paymentDetails transaction amount currency : value)
  (userDisplay agentInstructions : string) (balances : string * string)
  (hasSufficientFunds : bool) (gasEstimate : GasEstimate) : completion value :=
  description ← get paymentDetails "description";
  message ← get paymentDetails "message";
  headers ← get paymentDetails "headers";
  recipient ← get_opt headers "x-agentpay-recipient";
  to ← get_opt transaction "to";
  let payment := ToString amount +:+ " " +:+ ToString currency in
  Ret (VObj
    [("payment_authorization_required",
      VObj [("user_display", VStr userDisplay);
            ("agent_instructions", VStr agentInstructions);
            ("wallet_balances",
             VObj [("usdc", VStr (fst balances)); ("eth", VStr (snd balances));
                   ("sufficient_funds", VBool hasSufficientFunds)]);
            ("payment_transaction", transaction);
            ("cost_breakdown",
             VObj [("payment_amount", VStr payment);
                   ("estimated_gas", VStr ("~" +:+ costEth gasEstimate +:+ " ETH"));
                   ("total_cost",
                    VStr (payment +:+ " + ~" +:+ costEth gasEstimate +:+ " ETH gas"));
                   ("gas_estimation_note",
                    VStr (match errorMessage gasEstimate with
                          | Some m => if String.eqb m "" then "Real-time gas estimate" else m
                          | None => "Real-time gas estimate"
                          end))]);
            ("payment_details",
             VObj [("amount", amount); ("currency", currency);
                   ("description", or_else description message);
                   ("recipient", or_else recipient (or_else to (VStr "Unknown")))])])]).

(** [processPaymentRequired] from the point where the payment details are
    known to be truthy *)
Definition enrich (h : t) (activeProtocol : Protocol.Presentation)
  (message paymentDetails : value) (originalRequest : option value) : completion value :=
  transaction ← get paymentDetails "transaction";
  chainId ← get_opt transaction "chainId";
  match (if truthy chainId then configureForChain (walletService h) chainId else Ret tt) with
  | Throw error =>
      createErrorResponse message
        ("Chain configuration failed: " +:+ message_or "Unknown error" error)
  | Ret _ =>
      match getWalletBalances (walletService h) with
      | Throw error =>
          createErrorResponse message
            ("Unable to check wallet balances: " +:+ message_or "Unknown error" error)
      | Ret walletBalances =>
          amount ← get paymentDetails "amount";
          let requiredAmount := parseFloat (ToString amount) in
          let availableUsdc := parseFloat (fst walletBalances) in
          let availableEth := parseFloat (snd walletBalances) in
          let gasEstimate :=
            estimateTransactionGas (walletService h) transaction availableEth in
          let hasSufficientFunds :=
            num_geb availableUsdc requiredAmount && sufficient gasEstimate in
          userDisplay ← Protocol.formatForUser activeProtocol paymentDetails walletBalances
                          (walletService h);
          params ← (match originalRequest with
                    | Some request =>
                        if truthy request then extractRequestParams request
                        else Ret VUndefined
                    | None => Ret VUndefined
                    end);
          agentInstructions ← Protocol.formatForAgent activeProtocol paymentDetails params;
          currency ← get paymentDetails "currency";
          enhancement ← enhancedResponse paymentDetails transaction amount currency
                          userDisplay agentInstructions walletBalances hasSufficientFunds
                          gasEstimate;
          createEnhancedMessage message enhancement
      end
  end.

Definition processPaymentRequired (h : t) (message : value) (originalRequest : option value)
  : completion value :=
  detection ← ProtocolDetector.detectProtocol (protocolDetector h) message;
  match (detection : option ProtocolDetector.ProtocolDetection) with
  | None => Ret message
  | Some detection =>
      let activeProtocol := presentation (ProtocolDetector.name detection) in
      paymentDetails ← Protocol.extractPaymentDetails activeProtocol
                         (ProtocolDetector.extractedData detection);
      if negb (truthy paymentDetails) then Ret message
      else enrich h activeProtocol message paymentDetails originalRequest
  end.

End Enrichment.

End WithExternals.
End PaymentHandler.

(** ** lib/utils.ts: the header-injecting wrapper *)

Module AuthRefreshTransportWrapper.
Section WithExternals.
Context `{Externals}.

(** [generateFreshAuthHeaders(token)] at the time [now] (an ISO timestamp);
    the properties are created in the order of the literal: address,
    signature, payload *)
Definition generateFreshAuthHeaders (token now : string)
  : completion StringRecord.t :=
  agentauth_address ← deriveAddress token;
  signature ← signPayload now token;
  Ret (<["X-AgentAuth-Payload" := encodePayload now]>
       (<["X-AgentAuth-Signature" := signature]>
        {["X-AgentAuth-Address" := agentauth_address]})).

Definition PROTECTED_AGENTAUTH_HEADERS : list string :=
  ["x-agentauth-address"; "x-agentauth-signature"; "x-agentauth-payload"].

(** [hasAgentAuthConflict(headerName)] *)
Definition hasAgentAuthConflict (headerName : string) : bool :=
  let normalized := toLowerCase headerName in
  existsb (fun protectedHeader => String.eqb (toLowerCase protectedHeader) normalized)
    PROTECTED_AGENTAUTH_HEADERS.

(** The fields of the wrapper that [interceptFetch] reads and writes *)
Record t := {
  token : string;
  baseCustomHeaders : StringRecord.t;
  pendingPaymentHeaders : option StringRecord.t
}.

(** [new AuthRefreshTransportWrapper(transport, token, customHeaders)] *)
Definition create (token : string) (customHeaders : StringRecord.t) : t :=
  {| token := token; baseCustomHeaders := customHeaders; pendingPaymentHeaders := None |}.

Definition setPaymentHeadersForNextRequest (headers : StringRecord.t) (w : t) : t :=
  {| token := token w; baseCustomHeaders := baseCustomHeaders w;
     pendingPaymentHeaders := Some headers |}.

(** [this.pendingPaymentHeaders = null] *)
Definition clear (w : t) : t :=
  {| token := token w; baseCustomHeaders := baseCustomHeaders w;
     pendingPaymentHeaders := None |}.

Record RequestInit := {
  method : option string;
  headers : option Fetch.HeadersInit;
  body : option string
}.

(** The [headers] member of the [init] that reaches the original [fetch]:
    the one of the caller, or the [Headers] object built for a POST *)
Inductive HeadersArg :=
| Untouched (init : option Fetch.HeadersInit)
| Rebuilt (headers : Fetch.Headers).

(** The call that reaches the original [fetch] *)
Record FetchCall := {
  input : string;
  init_method : option string;
  init_body : option string;
  init_headers : HeadersArg
}.

(** An untouched call: [originalFetch(input, init)] *)
Definition passthrough (input : string) (init : option RequestInit) : FetchCall :=
  {| input := input;
     init_method := init ≫= method;
     init_body := init ≫= body;
     init_headers := Untouched (init ≫= headers) |}.

(** [finalHeaders], and the wrapper once the slot has been read *)
Definition merge (freshHeaders : StringRecord.t) (w : t) : StringRecord.t * t :=
  let finalHeaders := StringRecord.spread freshHeaders (baseCustomHeaders w) in
  match pendingPaymentHeaders w with
  | Some pending => (StringRecord.spread finalHeaders pending, clear w)
  | None => (finalHeaders, w)
  end.

(** [new Headers(init.headers)] with one [set] for each entry of
    [finalHeaders], and the [init] built around it *)
Definition rebuild (finalHeaders : StringRecord.t) (input : string) (i : RequestInit)
  : completion FetchCall :=
  headers ← Fetch.create (headers i);
  headers ← Fetch.set_all (StringRecord.entries finalHeaders) headers;
  Ret {| input := input;
         init_method := method i;
         init_body := body i;
         init_headers := Rebuilt headers |}.

(** The replacement of [globalThis.fetch] installed by [interceptFetch].
    Everything up to the call of the original [fetch] runs synchronously:
    the result is the wrapper this leaves behind and the request handed on,
    or the exception that ended the call.  The slot is emptied before the
    [Headers] object is built, so it is empty also when that throws. *)
Definition interceptFetch (w : t) (now : string) (input : string)
  (init : option RequestInit) : t * completion FetchCall :=
  match init with
  | Some i =>
      if bool_decide (method i = Some "POST") then
        match generateFreshAuthHeaders (token w) now with
        | Throw e => (w, Throw e)
        | Ret freshHeaders =>
            let '(finalHeaders, w') := merge freshHeaders w in
            (w', rebuild finalHeaders input i)
        end
      else (w, Ret (passthrough input init))
  | None => (w, Ret (passthrough input init))
  end.

End WithExternals.
End AuthRefreshTransportWrapper.

(** ** lib/utils.ts: [mcpProxy] *)

Module McpProxy.
Section WithExternals.
Context `{Externals}.

(** [PaymentHandler.processPaymentRequired] (the enrichment of a detected
    challenge) is taken as given: the proxy only forwards what it returns. *)
Variable processPaymentRequired :
  PaymentHandler.t -> value -> option value -> completion value.

Definition VERSION : string := "0.1.0".

(** The remote transport as the proxy sees it: a wrapper that can stage
    payment headers, or a transport without that method. *)
Inductive RemoteTransport :=
| Staging (w : AuthRefreshTransportWrapper.t)
| Plain.

(** The variables captured by the handlers *)
Record t := {
  transportToClientClosed : bool;
  transportToServerClosed : bool;
  paymentHandler : option PaymentHandler.t;
  lastRequest : option value;
  transportToServer : RemoteTransport
}.

(** [mcpProxy({ transportToClient, transportToServer, walletService })] *)
Definition create (remote : RemoteTransport) (walletService : option WalletService) : t :=
  {| transportToClientClosed := false;
     transportToServerClosed := false;
     paymentHandler := PaymentHandler.create <$> walletService;
     lastRequest := None;
     transportToServer := remote |}.

(** What a handler asks of the two transports *)
Inductive action :=
| SendToServer (message : value)
| SendToClient (message : value)
| CloseServer
| CloseClient.

(** The rewrite of an [initialize] request:
    [clientInfo.name = `${clientInfo.name} (via agentauth-mcp ${VERSION})`].
    The assignment writes into the message itself.  The module is strict
    code, so assigning a property on a primitive throws; a named property on
    an array does not show in the JSON that is sent. *)
Definition rename_client (message : value) : completion value :=
  params ← get message "params";
  clientInfo ← get params "clientInfo";
  if negb (truthy clientInfo) then Ret message else
  name ← get clientInfo "name";
  let renamed := VStr (ToString name +:+ " (via agentauth-mcp " +:+ VERSION +:+ ")") in
  match clientInfo, params, message with
  | VObj cfs, VObj pfs, VObj mfs =>
      Ret (VObj (set_field "params"
                   (VObj (set_field "clientInfo"
                            (VObj (set_field "name" renamed cfs)) pfs)) mfs))
  | VArr _, _, _ => Ret message
  | _, _, _ => Throw TypeError
  end.

Definition set_lastRequest (m : value) (st : t) : t :=
  {| transportToClientClosed := transportToClientClosed st;
     transportToServerClosed := transportToServerClosed st;
     paymentHandler := paymentHandler st;
     lastRequest := Some m;
     transportToServer := transportToServer st |}.

Definition set_transportToServer (r : RemoteTransport) (st : t) : t :=
  {| transportToClientClosed := transportToClientClosed st;
     transportToServerClosed := transportToServerClosed st;
     paymentHandler := paymentHandler st;
     lastRequest := lastRequest st;
     transportToServer := r |}.

(** The JSON-RPC error sent to the local side when authorization fails *)
Definition authorization_error_response (message : value) (error : string)
  : completion value :=
  hasId ← has_in "id" message;
  id ← (if (hasId : bool) then get message "id" else Ret (VStr "error"));
  Ret (VObj [("jsonrpc", VStr "2.0"); ("id", id);
             ("error", VObj [("code", VNum (num_of_Z (-32001)));
                             ("message", VStr "Payment authorization failed");
                             ("data", VObj [("error_type", VStr "payment_authorization_failed");
                                            ("message", VStr error);
                                            ("instructions",
                                             VStr "Please fix the issue and retry with the same parameters.")])])]).

(** [transportToClient.onmessage] after [lastRequest] has been stored *)
Definition onClientMessage_rest (st : t) (hasMethod : bool) (message : value)
  : completion (t * list action) :=
  method ← (if hasMethod then get message "method" else Ret VUndefined);
  message ← (if hasMethod && is_str method "initialize"
             then rename_client message else Ret message);
  let st := if hasMethod then set_lastRequest message st else st in
  let forward := Ret (st, [SendToServer message]) in
  match paymentHandler st with
  | None => forward
  | Some handler =>
      authorized ← PaymentHandler.hasPaymentAuthorization message;
      if negb (authorized : bool) then forward else
      result ← PaymentHandler.processPaymentAuthorization handler message;
      match result with
      | PaymentHandler.AuthError error =>
          if truthy (VStr error) then
            errorResponse ← authorization_error_response message error;
            Ret (st, [SendToClient errorResponse])
          else forward
      | PaymentHandler.AuthHeaders headers =>
          match transportToServer st with
          | Staging w =>
              Ret (set_transportToServer
                     (Staging (AuthRefreshTransportWrapper.setPaymentHeadersForNextRequest headers w))
                     st,
                   [SendToServer message])
          | Plain => forward
          end
      end
  end.

(** [transportToClient.onmessage]: a message from the local side.  The
    result is the state the handler leaves behind and what it sent, or the
    exception that ended it.  The stored [lastRequest] is the message object
    itself, so it shows the rewrite of [rename_client] as well. *)
Definition onClientMessage (st : t) (message : value) : t * completion (list action) :=
  match has_in "method" message with
  | Throw e => (st, Throw e)
  | Ret hasMethod =>
      match onClientMessage_rest st hasMethod message with
      | Ret (st', actions) => (st', Ret actions)
      | Throw e => ((if hasMethod then set_lastRequest message st else st), Throw e)
      end
  end.

(** [transportToServer.onmessage]: a message from the remote side *)
Definition onServerMessage (st : t) (message : value) : completion (t * list action) :=
  hasMethod ← has_in "method" message;
  _ ← (if (hasMethod : bool) then get message "method" else get message "id");
  let forward := Ret (st, [SendToClient message]) in
  match paymentHandler st with
  | None => forward
  | Some handler =>
      required ← PaymentHandler.isPaymentRequired handler message;
      if negb (required : bool) then forward else
      match processPaymentRequired handler message (lastRequest st) with
      | Ret enhancedMessage => Ret (st, [SendToClient enhancedMessage])
      | Throw _ => forward
      end
  end.

Definition set_closed (client server : bool) (st : t) : t :=
  {| transportToClientClosed := client;
     transportToServerClosed := server;
     paymentHandler := paymentHandler st;
     lastRequest := lastRequest st;
     transportToServer := transportToServer st |}.

(** [transportToClient.onclose] and [transportToServer.onclose] *)
Definition onClientClose (st : t) : t * list action :=
  if transportToServerClosed st then (st, [])
  else (set_closed true (transportToServerClosed st) st, [CloseServer]).

Definition onServerClose (st : t) : t * list action :=
  if transportToClientClosed st then (st, [])
  else (set_closed (transportToClientClosed st) true st, [CloseClient]).

End WithExternals.
End McpProxy.

(** ** lib/utils.ts: [connectToRemoteServer] *)

Module Negotiator.

Inductive TransportStrategy := SseOnly | HttpOnly | SseFirst | HttpFirst.

(** [SSEClientTransport] or [StreamableHTTPClientTransport] *)
Inductive TransportKind := SSE | HTTP.

Definition REASON_TRANSPORT_FALLBACK : string := "falling-back-to-alternate-transport".

(** What the negotiator does, in order: [transport.start()] on a transport
    of some kind, the probe of the HTTP endpoint with a throwaway client,
    and [recursionReasons.add(REASON_TRANSPORT_FALLBACK)]. *)
Inductive event :=
| Start (kind : TransportKind)
| Probe
| Fallback.

(** The remote endpoint: the outcome of a start or of a probe, which may
    depend on everything attempted before. [None] is success. *)
Record Endpoint := {
  start : list event -> TransportKind -> option exn;
  probe : list event -> option exn
}.

(** What [connectToRemoteServer] resolves to *)
Inductive Transport :=
| Bare (kind : TransportKind)
| AuthRefresh (kind : TransportKind) (w : AuthRefreshTransportWrapper.t)
| CustomHeaders (kind : TransportKind) (customHeaders : StringRecord.t).

(** The set [recursionReasons] is one object shared by all the recursive
    calls and the caller; the trace records the attempts. *)
Record state := {
  recursionReasons : gset string;
  trace : list event
}.

Definition record_fallback (st : state) : state :=
  {| recursionReasons := {[REASON_TRANSPORT_FALLBACK]} ∪ recursionReasons st;
     trace := trace st ++ [Fallback] |}.

Definition log_event (e : event) (st : state) : state :=
  {| recursionReasons := recursionReasons st; trace := trace st ++ [e] |}.

Definition fallback_recorded (st : state) : bool :=
  bool_decide (REASON_TRANSPORT_FALLBACK ∈ recursionReasons st).

(** The test both [catch] blocks apply to the error message *)
Definition isProtocolLikeError (e : exn) : bool :=
  match e with
  | JSError msg =>
      includes msg "405" || includes msg "Method Not Allowed" ||
      includes msg "404" || includes msg "Not Found" ||
      includes msg "protocol error"
  | Thrown _ => false
  end.

Definition is_first (strategy : TransportStrategy) : bool :=
  match strategy with
  | SseFirst | HttpFirst => true
  | _ => false
  end.

Definition shouldAttemptFallback (strategy : TransportStrategy) (st : state) : bool :=
  is_first strategy && negb (fallback_recorded st).

(** [error.message], read for the debug log: a [TypeError] when the thrown
    value is [undefined] or [null] *)
Definition read_message (e : exn) : completion unit :=
  match e with
  | JSError _ => Ret tt
  | Thrown v => _ ← get v "message"; Ret tt
  end.

(** [token] is used when it is a non-empty string *)
Definition token_set (token : option string) : bool :=
  match token with
  | Some s => negb (String.eqb s "")
  | None => false
  end.

(** The wrapper chosen once the connection stands *)
Definition wrap (kind : TransportKind) (token : option string)
  (customHeaders : StringRecord.t) : Transport :=
  let hasCustomHeaders := negb (bool_decide (customHeaders = ∅)) in
  match token with
  | Some tok =>
      if token_set token && hasCustomHeaders
      then AuthRefresh kind (AuthRefreshTransportWrapper.create tok customHeaders)
      else if token_set token
      then AuthRefresh kind (AuthRefreshTransportWrapper.create tok ∅)
      else if hasCustomHeaders then CustomHeaders kind customHeaders
      else Bare kind
  | None => if hasCustomHeaders then CustomHeaders kind customHeaders else Bare kind
  end.

(** One activation of [connectToRemoteServer]: either it settles, or it
    ends in a recursive call whose arguments are returned. *)
Inductive outcome :=
| Settled (r : completion Transport)
| Recurse (strategy : TransportStrategy).

(** The outer [catch (error)] *)
Definition on_connect_error (strategy : TransportStrategy) (st : state) (error : exn)
  : outcome * state :=
  match read_message error with
  | Throw e => (Settled (Throw e), st)
  | Ret _ =>
      if shouldAttemptFallback strategy st && isProtocolLikeError error
      then (Recurse strategy, record_fallback st)
      else (Settled (Throw error), st)
  end.

Definition attempt (ep : Endpoint) (token : option string)
  (customHeaders : StringRecord.t)
  (strategy : TransportStrategy) (st : state) : outcome * state :=
  let recorded := fallback_recorded st in
  let useSSE := match strategy with
                | SseOnly => true
                | SseFirst => negb recorded
                | _ => false
                end in
  let useHTTP := match strategy with
                 | HttpOnly => true
                 | HttpFirst => negb recorded
                 | _ => false
                 end in
  if useSSE then
    let st1 := log_event (Start SSE) st in
    match start ep (trace st) SSE with
    | Some error => on_connect_error strategy st1 error
    | None => (Settled (Ret (wrap SSE token customHeaders)), st1)
    end
  else if useHTTP then
    let st1 := log_event (Start HTTP) st in
    match start ep (trace st) HTTP with
    | Some error => on_connect_error strategy st1 error
    | None =>
        let st2 := log_event Probe st1 in
        match probe ep (trace st1) with
        | None => (Settled (Ret (wrap HTTP token customHeaders)), st2)
        | Some probeError =>
            match read_message probeError with
            | Throw e => on_connect_error strategy st2 e
            | Ret _ =>
                if shouldAttemptFallback strategy st2 && isProtocolLikeError probeError
                then (Recurse SseOnly, record_fallback st2)
                else on_connect_error strategy st2 probeError
            end
        end
    end
  else
    (Recurse (match strategy with SseFirst => HttpOnly | _ => SseOnly end), st).

(** How many recursive calls a strategy can still make *)
Definition rank (strategy : TransportStrategy) (st : state) : nat :=
  if is_first strategy then (if fallback_recorded st then 1 else 2) else 0.

Lemma fallback_recorded_log e st :
  fallback_recorded (log_event e st) = fallback_recorded st.
Proof. reflexivity. Qed.

Lemma fallback_recorded_record st : fallback_recorded (record_fallback st) = true.
Proof.
  unfold fallback_recorded, record_fallback; simpl.
  apply bool_decide_eq_true. set_solver.
Qed.

Lemma on_connect_error_decreases strategy st error strategy' st' base :
  fallback_recorded st = fallback_recorded base ->
  on_connect_error strategy st error = (Recurse strategy', st') ->
  rank strategy' st' < rank strategy base.
Proof.
  unfold on_connect_error, shouldAttemptFallback, rank. intros Hb.
  destruct (read_message error); [|congruence].
  destruct (is_first strategy) eqn:Hf; simpl; [|congruence].
  rewrite <- Hb.
  destruct (fallback_recorded st) eqn:Hr; simpl; [congruence|].
  destruct (isProtocolLikeError error); [|congruence].
  intros [= <- <-]. rewrite Hf, fallback_recorded_record. lia.
Qed.

Lemma attempt_decreases ep token customHeaders strategy st strategy' st' :
  attempt ep token customHeaders strategy st = (Recurse strategy', st') ->
  rank strategy' st' < rank strategy st.
Proof.
  unfold attempt.
  destruct strategy; simpl;
    repeat match goal with
    | |- context [if negb ?b then _ else _] => destruct b eqn:?; simpl
    | |- context [match start ?e ?t ?k with _ => _ end] => destruct (start e t k); simpl
    | |- context [match probe ?e ?t with _ => _ end] => destruct (probe e t); simpl
    | |- context [match read_message ?e with _ => _ end] => destruct (read_message e); simpl
    end.
  all: try (intros Hc; eapply on_connect_error_decreases in Hc; [exact Hc | reflexivity]).
  all: try (intros [= <- <-]); try congruence.
  - unfold rank; simpl. rewrite Heqb. lia.
  - unfold rank; simpl. rewrite Heqb. lia.
  - destruct (shouldAttemptFallback _ _ && isProtocolLikeError e).
    + intros [= <- <-]. unfold rank; simpl. destruct (fallback_recorded st); lia.
    + intros Hc; eapply on_connect_error_decreases in Hc; [exact Hc | reflexivity].
Qed.

Definition inspect {A} (a : A) : {b | a = b} := exist _ a eq_refl.

(** [connectToRemoteServer(serverUrl, strategy, recursionReasons, token,
    customHeaders)] against the endpoint [ep]: the settled promise, with the
    final ledger and the trace of attempts. *)
Equations? connectToRemoteServer (ep : Endpoint) (token : option string)
  (customHeaders : StringRecord.t)
  (strategy : TransportStrategy) (st : state) : completion Transport * state
  by wf (rank strategy st) lt :=
  connectToRemoteServer ep token customHeaders strategy st
    with inspect (attempt ep token customHeaders strategy st) := {
    | exist _ (Settled r, st') _ => (r, st')
    | exist _ (Recurse strategy', st') Heq =>
        connectToRemoteServer ep token customHeaders strategy' st' }.
Proof. eapply attempt_decreases; eauto. Qed.

End Negotiator.

(** ** index.ts: [parseCustomHeaders] *)

Module Cli.
Section WithEnvironment.

(** [process.env[name] || ''], as the text the replacement inserts *)
Variable env : string -> string.

(** [s.indexOf(c)] *)
Fixpoint indexOf (c : ascii) (s : string) : option nat :=
  match s with
  | EmptyString => None
  | String a rest => if Ascii.eqb a c then Some 0 else S <$> indexOf c rest
  end.

(** The longest run of characters other than the closing brace, and what
    follows it *)
Fixpoint span_name (s : string) : string * string :=
  match s with
  | EmptyString => (EmptyString, EmptyString)
  | String c rest =>
      if Ascii.eqb c "}" then (EmptyString, s)
      else let '(name, after) := span_name rest in (String c name, after)
  end.

(** A match of [/\$\{([^}]+)\}/] at the start of [s]: the name and the text
    after the match *)
Definition match_variable (s : string) : option (string * string) :=
  match s with
  | String "$" (String "{" body) =>
      match span_name body with
      | (String c name, String _ after) => Some (String c name, after)
      | _ => None
      end
  | _ => None
  end.

(** [value.replace(/\$\{([^}]+)\}/g, (match, name) => process.env[name] || '')] *)
Fixpoint expand_fuel (fuel : nat) (s : string) : string :=
  match fuel with
  | O => s
  | S fuel' =>
      match match_variable s with
      | Some (name, after) => env name +:+ expand_fuel fuel' after
      | None =>
          match s with
          | EmptyString => EmptyString
          | String c rest => String c (expand_fuel fuel' rest)
          end
      end
  end.

Definition expand (s : string) : string := expand_fuel (String.length s) s.

(** [headers[key] = value] on an object literal: the key [__proto__] names
    the prototype accessor, which ignores a string. *)
Definition assign (key value : string) (headers : StringRecord.t)
  : StringRecord.t :=
  if String.eqb key "__proto__" then headers else <[key := value]> headers.

(** What [parseCustomHeaders] ends in: the headers, or the message printed
    before [process.exit(1)] *)
Inductive outcome :=
| Parsed (headers : StringRecord.t)
| Exit (message : string).

Fixpoint parse_loop (headers : StringRecord.t) (headerArgs : list string) : outcome :=
  match headerArgs with
  | [] => Parsed headers
  | header :: rest =>
      match indexOf ":" header with
      | None =>
          Exit ("Error: Invalid header format '" +:+ header +:+ "'. Use format " +:+
                double_quote +:+ "Key:Value" +:+ double_quote +:+ ".")
      | Some colonIndex =>
          let key := trim (take_str colonIndex header) in
          let value := trim (drop_str (S colonIndex) header) in
          if String.eqb key "" then
            Exit ("Error: Empty header key in '" +:+ header +:+ "'.")
          else parse_loop (assign key (expand value) headers) rest
      end
  end.

Definition parseCustomHeaders (headerArgs : list string) : outcome :=
  parse_loop ∅ headerArgs.

End WithEnvironment.
End Cli.

(** ** wallet/walletService.ts: [derivePrivateKey] *)

Module Wallet.

(** [/^0x[0-9a-fA-F]{64}$/.test(s)] *)
Definition is_private_key (s : string) : bool :=
  match s with
  | String "0" (String "x" h) => (String.length h =? 64) && all_chars is_hex_digit h
  | _ => false
  end.

Definition derivePrivateKey (agentAuthToken : string) : completion string :=
  let cleanToken :=
    if startsWith agentAuthToken "aa-" then drop_str 3 agentAuthToken else agentAuthToken in
  let privateKey :=
    if startsWith cleanToken "0x" then cleanToken else "0x" +:+ cleanToken in
  if negb (is_private_key privateKey) then Throw (JSError "Invalid private key format")
  else Ret privateKey.

End Wallet.

(** ** A reference implementation of the library interface

    Concrete library functions for evaluating the model on examples.  They
    follow the ECMAScript and [ethers] v6 behaviour on the inputs the
    examples use: JSON texts whose escapes stay below code unit 256, decimal
    literals without exponent for [parseFloat], numbers with a finite
    decimal expansion for [String(n)], addresses in uniform case (the
    checksum of a mixed-case address needs Keccak).  The signatures of
    [@agentauth/core] are symbolic. *)

Module Reference.

Definition dq : ascii := ascii_of_nat 34.
Definition backslash : ascii := ascii_of_nat 92.

(** *** Decimal rendering *)

Definition render_nat (n : nat) : string := pretty (N.of_nat n).
Definition render_Z (z : Z) : string :=
  if (z <? 0)%Z then "-" +:+ pretty (Z.to_N (- z)) else pretty (Z.to_N z).

(** [ethers.formatUnits]: sign, whole part, point, fraction without trailing
    zeros but with at least one digit; values outside the signed 512-bit
    range are an overflow error. *)
Fixpoint strip_trailing_zeros_rev (r : string) : string :=
  match r with
  | String "0" ((String _ _) as tl) => strip_trailing_zeros_rev tl
  | _ => r
  end.

Definition strip_trailing_zeros (s : string) : string :=
  rev_str "" (strip_trailing_zeros_rev (rev_str "" s)).

Definition frac_digits (decimals : nat) (r : N) : string :=
  padStart decimals "0" (pretty r).

Definition format_fixed (z : Z) (decimals : nat) : string :=
  let a := Z.abs_N z in
  let scale := (10 ^ N.of_nat decimals)%N in
  let whole := pretty (a / scale)%N in
  let sign := if (z <? 0)%Z then "-" else "" in
  match decimals with
  | O => sign +:+ whole
  | _ => sign +:+ whole +:+ "." +:+ strip_trailing_zeros (frac_digits decimals (a mod scale)%N)
  end.

Definition formatUnits (z : Z) (decimals : nat) : completion string :=
  if ((- 2 ^ 511 <=? z) && (z <? 2 ^ 511))%Z
  then Ret (format_fixed z decimals)
  else Throw (JSError "overflow").

(** *** [parseFloat] on decimal literals *)

Fixpoint take_digits (s : string) : string * string :=
  match s with
  | String c rest =>
      match digit_val c with
      | Some _ => let '(d, r) := take_digits rest in (String c d, r)
      | None => (EmptyString, s)
      end
  | EmptyString => (EmptyString, EmptyString)
  end.

Definition digits_value (s : string) : Z :=
  match parse_digits 10 0 s with
  | Some z => z
  | None => 0
  end.

Definition parse_unsigned_decimal (s : string) : option Q :=
  let '(whole, rest) := take_digits s in
  let '(frac, _) := match rest with
                    | String "." r => take_digits r
                    | _ => (EmptyString, rest)
                    end in
  match whole, frac with
  | EmptyString, EmptyString => None
  | _, _ =>
      Some (Qred (Qmake (digits_value (whole +:+ frac))
                        (Z.to_pos (10 ^ Z.of_nat (String.length frac)))))
  end.

Definition parseFloat (s : string) : number :=
  let t := trim_left s in
  let '(neg, body) := match t with
                      | String "-" r => (true, r)
                      | String "+" r => (false, r)
                      | _ => (false, t)
                      end in
  if String.prefix "Infinity" body then (if neg then NInf else PInf)
  else match parse_unsigned_decimal body with
       | Some q => Fin (if neg then Qopp q else q)
       | None => NaN
       end.

(** *** [String(n)] for numbers with a finite decimal expansion *)

Fixpoint decimal_scale (fuel : nat) (q : Q) (k : nat) : nat :=
  match fuel with
  | O => k
  | S fuel' =>
      if (Z.rem (Qnum q * 10 ^ Z.of_nat k) (Z.pos (Qden q)) =? 0)%Z then k
      else decimal_scale fuel' q (S k)
  end.

Definition Number_toString (n : number) : string :=
  match n with
  | NaN => "NaN"
  | PInf => "Infinity"
  | NInf => "-Infinity"
  | Fin q =>
      let k := decimal_scale 30 q 0 in
      let scaled := (Qnum q * 10 ^ Z.of_nat k / Z.pos (Qden q))%Z in
      let a := Z.abs_N scaled in
      let scale := (10 ^ N.of_nat k)%N in
      let sign := if (scaled <? 0)%Z then "-" else "" in
      match k with
      | O => sign +:+ pretty a
      | _ => sign +:+ pretty (a / scale)%N +:+ "." +:+ frac_digits k (a mod scale)%N
      end
  end.

(** *** Addresses and the ERC-20 transfer call *)

Definition is_lower_hex (c : ascii) : bool :=
  is_hex_digit c && Ascii.eqb (lower_char c) c.
Definition is_upper_hex (c : ascii) : bool :=
  is_hex_digit c && negb (let n := nat_of_ascii c in (97 <=? n) && (n <=? 102)).

Definition isAddress (v : value) : bool :=
  match v with
  | VStr (String "0" (String "x" h)) =>
      (String.length h =? 40) && (all_chars is_lower_hex h || all_chars is_upper_hex h)
  | _ => false
  end.

Definition hex_char (d : N) : ascii :=
  ascii_of_N (if (d <? 10)%N then 48 + d else 87 + d).

Fixpoint to_hex_fuel (fuel : nat) (n : N) (acc : string) : string :=
  match fuel with
  | O => acc
  | S fuel' =>
      let acc' := String (hex_char (n mod 16)%N) acc in
      if (n / 16 =? 0)%N then acc' else to_hex_fuel fuel' (n / 16)%N acc'
  end.

Definition to_hex (n : N) : string := to_hex_fuel (S (N.to_nat (N.log2 n))) n "".

Definition encodeTransfer (payTo : value) (amount : string) : completion string :=
  match payTo, StringToBigInt amount with
  | VStr (String "0" (String "x" h)), Some z =>
      if isAddress payTo && (0 <=? z)%Z && (z <? 2 ^ 256)%Z
      then Ret ("0xa9059cbb" +:+ padStart 64 "0" (toLowerCase h)
                +:+ padStart 64 "0" (to_hex (Z.to_N z)))
      else Throw (JSError "value out-of-bounds")
  | _, _ => Throw (JSError "invalid argument")
  end.

(** [parseTransaction({ data })]: invalid bytes throw; an unknown selector
    gives [null]; the two argument words must be there and the address word
    must fit 20 bytes. *)
Definition parseTransaction (data : value) : completion unit :=
  match data with
  | VStr s =>
      if negb (is_0x_hex s && Nat.even (String.length s))
      then Throw (JSError "invalid BytesLike value")
      else if negb (startsWith (toLowerCase s) "0xa9059cbb") then Ret tt
      else if String.length s <? 138 then Throw (JSError "data out-of-bounds")
      else if negb (all_chars (Ascii.eqb "0") (take_str 24 (drop_str 10 s)))
      then Throw (JSError "value exceeds width")
      else Ret tt
  | _ => Throw (JSError "invalid BytesLike value")
  end.

(** *** [JSON.parse] and [JSON.stringify] *)

Definition is_json_space (c : ascii) : bool :=
  let n := nat_of_ascii c in
  (n =? 32) || (n =? 9) || (n =? 10) || (n =? 13).

Fixpoint skip_ws (s : string) : string :=
  match s with
  | String c rest => if is_json_space c then skip_ws rest else s
  | EmptyString => EmptyString
  end.

Definition hex4 (a b c d : ascii) : option Z :=
  parse_digits 16 0 (String a (String b (String c (String d EmptyString)))).

(** The characters of a string literal after its opening quote *)
Fixpoint parse_string_body (s acc_rev : string) : option (string * string) :=
  match s with
  | EmptyString => None
  | String c rest =>
      if Ascii.eqb c dq then Some (rev_str "" acc_rev, rest)
      else if Ascii.eqb c backslash then
        match rest with
        | String "u" (String h1 (String h2 (String h3 (String h4 rest')))) =>
            match hex4 h1 h2 h3 h4 with
            | Some z =>
                if (z <? 256)%Z
                then parse_string_body rest' (String (ascii_of_N (Z.to_N z)) acc_rev)
                else None
            | None => None
            end
        | String e rest' =>
            let plain (x : ascii) := parse_string_body rest' (String x acc_rev) in
            if Ascii.eqb e dq then plain dq
            else if Ascii.eqb e backslash then plain backslash
            else if Ascii.eqb e "/" then plain "/"%char
            else if Ascii.eqb e "b" then plain (ascii_of_nat 8)
            else if Ascii.eqb e "f" then plain (ascii_of_nat 12)
            else if Ascii.eqb e "n" then plain (ascii_of_nat 10)
            else if Ascii.eqb e "r" then plain (ascii_of_nat 13)
            else if Ascii.eqb e "t" then plain (ascii_of_nat 9)
            else None
        | EmptyString => None
        end
      else if nat_of_ascii c <? 32 then None
      else parse_string_body rest (String c acc_rev)
  end.

(** A JSON number: [-]int[.frac][(e|E)[+|-]digits] *)
Definition parse_number (s : string) : option (number * string) :=
  let '(neg, s1) := match s with
                    | String "-" r => (true, r)
                    | _ => (false, s)
                    end in
  let '(whole, s2) := take_digits s1 in
  let whole_ok := match whole with
                  | EmptyString => false
                  | String "0" (String _ _) => false
                  | _ => true
                  end in
  let '(frac, s3, frac_ok) :=
    match s2 with
    | String "." r =>
        let '(f, r') := take_digits r in
        (f, r', negb (String.eqb f ""))
    | _ => (EmptyString, s2, true)
    end in
  let '(exp, s4, exp_ok) :=
    match s3 with
    | String c r =>
        if Ascii.eqb c "e" || Ascii.eqb c "E" then
          let '(eneg, r1) := match r with
                             | String "-" r' => (true, r')
                             | String "+" r' => (false, r')
                             | _ => (false, r)
                             end in
          let '(e, r2) := take_digits r1 in
          ((if eneg then - digits_value e else digits_value e)%Z, r2,
           negb (String.eqb e ""))
        else (0%Z, s3, true)
    | _ => (0%Z, s3, true)
    end in
  if whole_ok && frac_ok && exp_ok then
    let mant := Qmake (digits_value (whole +:+ frac))
                      (Z.to_pos (10 ^ Z.of_nat (String.length frac))) in
    let scaled := if (exp <? 0)%Z
                  then Qdiv mant (inject_Z (10 ^ (- exp)))
                  else Qmult mant (inject_Z (10 ^ exp)) in
    Some (Fin (Qred (if neg then Qopp scaled else scaled)), s4)
  else None.

Fixpoint parse_value (fuel : nat) (s : string) : option (value * string) :=
  match fuel with
  | O => None
  | S fuel' =>
      match skip_ws s with
      | EmptyString => None
      | String c rest as t =>
          if Ascii.eqb c "{" then
            match skip_ws rest with
            | String "}" r => Some (VObj [], r)
            | r => parse_members fuel' r []
            end
          else if Ascii.eqb c "[" then
            match skip_ws rest with
            | String "]" r => Some (VArr [], r)
            | r => parse_elements fuel' r []
            end
          else if Ascii.eqb c dq then
            match parse_string_body rest "" with
            | Some (str, r) => Some (VStr str, r)
            | None => None
            end
          else if String.prefix "true" t then Some (VBool true, drop_str 4 t)
          else if String.prefix "false" t then Some (VBool false, drop_str 5 t)
          else if String.prefix "null" t then Some (VNull, drop_str 4 t)
          else match parse_number t with
               | Some (n, r) => Some (VNum n, r)
               | None => None
               end
      end
  end
with parse_elements (fuel : nat) (s : string) (acc_rev : list value)
  : option (value * string) :=
  match fuel with
  | O => None
  | S fuel' =>
      match parse_value fuel' s with
      | Some (v, r) =>
          match skip_ws r with
          | String "," r' => parse_elements fuel' r' (v :: acc_rev)
          | String "]" r' => Some (VArr (rev (v :: acc_rev)), r')
          | _ => None
          end
      | None => None
      end
  end
with parse_members (fuel : nat) (s : string) (acc : list (string * value))
  : option (value * string) :=
  match fuel with
  | O => None
  | S fuel' =>
      match skip_ws s with
      | String c r =>
          if Ascii.eqb c dq then
            match parse_string_body r "" with
            | Some (k, r1) =>
                match skip_ws r1 with
                | String ":" r2 =>
                    match parse_value fuel' r2 with
                    | Some (v, r3) =>
                        match skip_ws r3 with
                        | String "," r4 => parse_members fuel' r4 (set_field k v acc)
                        | String "}" r4 => Some (VObj (set_field k v acc), r4)
                        | _ => None
                        end
                    | None => None
                    end
                | _ => None
                end
            | None => None
            end
          else None
      | EmptyString => None
      end
  end.

Definition JSON_parse (v : value) : completion value :=
  let text := ToString_with Number_toString v in
  match parse_value (2 * String.length text + 2) text with
  | Some (parsed, rest) =>
      match skip_ws rest with
      | EmptyString => Ret parsed
      | _ => Throw SyntaxError
      end
  | None => Throw SyntaxError
  end.

Fixpoint escape (s : string) : string :=
  match s with
  | EmptyString => EmptyString
  | String c rest =>
      if Ascii.eqb c dq || Ascii.eqb c backslash
      then String backslash (String c (escape rest))
      else if Ascii.eqb c (ascii_of_nat 10) then String backslash (String "n" (escape rest))
      else if Ascii.eqb c (ascii_of_nat 13) then String backslash (String "r" (escape rest))
      else if Ascii.eqb c (ascii_of_nat 9) then String backslash (String "t" (escape rest))
      else String c (escape rest)
  end.

Definition quote (s : string) : string :=
  String dq (escape s) +:+ String dq EmptyString.

Fixpoint JSON_stringify (v : value) : string :=
  match v with
  | VUndefined | VNull => "null"
  | VBool true => "true"
  | VBool false => "false"
  | VNum (Fin q) => Number_toString (Fin q)
  | VNum _ => "null"
  | VStr s => quote s
  | VArr items => "[" +:+ join "," (map JSON_stringify items) +:+ "]"
  | VObj fs =>
      "{" +:+ join ","
        (concat (map (fun kv => let '(k, x) := kv in
                              match x with
                              | VUndefined => []
                              | _ => [quote k +:+ ":" +:+ JSON_stringify x]
                              end) fs))
      +:+ "}"
  end.

(** *** The instance *)

#[export] Instance externals : Externals := {|
  Library.JSON_parse := JSON_parse;
  Library.JSON_stringify := JSON_stringify;
  Library.Number_toString := Number_toString;
  Library.parseFloat := parseFloat;
  Library.isAddress := isAddress;
  Library.parseTransaction := parseTransaction;
  Library.encodeTransfer := encodeTransfer;
  Library.formatUnits := formatUnits;
  Library.x402_createAuthorizationHeaders :=
    fun _ _ => Throw (JSError "x402 header creation failed: Chain ID not set - call extractPaymentDetails first");
  Library.deriveAddress := fun token => Ret ("address(" +:+ token +:+ ")");
  Library.signPayload := fun now token => Ret ("signature(" +:+ now +:+ "," +:+ token +:+ ")");
  Library.encodePayload := fun now => "payload(" +:+ now +:+ ")"
|}.

End Reference.
(** * Properties *)

(** ** Strings and objects *)

Section StringFacts.

Lemma length_append (a b : string) :
  String.length (a +:+ b) = String.length a + String.length b.
Proof. induction a as [|c a IH]; simpl; [reflexivity | now rewrite IH]. Qed.

Lemma length_repeat_str c n : String.length (repeat_str c n) = n.
Proof. induction n as [|n IH]; simpl; [reflexivity | now rewrite IH]. Qed.

Lemma length_padStart n c s :
  String.length (padStart n c s) = Nat.max n (String.length s).
Proof. unfold padStart. rewrite length_append, length_repeat_str. lia. Qed.

Lemma length_drop_str n s : String.length (drop_str n s) = String.length s - n.
Proof.
  revert s; induction n as [|n IH]; intros [|c s]; simpl; try reflexivity; try lia.
  apply IH.
Qed.

Lemma length_take_str n s :
  String.length (take_str n s) = Nat.min n (String.length s).
Proof.
  unfold take_str. revert s; induction n as [|n IH]; intros [|c s]; simpl; try reflexivity.
  now rewrite IH.
Qed.

Lemma take_drop_str n s : take_str n s +:+ drop_str n s = s.
Proof.
  unfold take_str. revert s; induction n as [|n IH]; intros [|c s]; simpl; try reflexivity.
  change (String c (substring 0 n s +:+ drop_str n s) = String c s).
  f_equal. apply IH.
Qed.

Lemma lookup_set_field_eq k v fs : lookup_field k (set_field k v fs) = Some v.
Proof.
  induction fs as [|[k' v'] fs IH]; simpl.
  - now rewrite String.eqb_refl.
  - destruct (String.eqb k k') eqn:E; simpl; rewrite E; [reflexivity | exact IH].
Qed.

Lemma lookup_set_field_ne k k' v fs :
  k <> k' -> lookup_field k' (set_field k v fs) = lookup_field k' fs.
Proof.
  intros Hne. induction fs as [|[k0 v0] fs IH]; simpl.
  - apply String.eqb_neq in Hne. rewrite String.eqb_sym in Hne. now rewrite Hne.
  - destruct (String.eqb k k0) eqn:E; simpl.
    + apply String.eqb_eq in E; subst k0.
      assert (String.eqb k' k = false) as -> by (apply String.eqb_neq; congruence).
      reflexivity.
    + destruct (String.eqb k' k0); [reflexivity | exact IH].
Qed.

Lemma set_field_set_field k v w fs :
  set_field k v (set_field k w fs) = set_field k v fs.
Proof.
  induction fs as [|[k' v'] fs IH]; simpl.
  - now rewrite String.eqb_refl.
  - destruct (String.eqb k k') eqn:E; simpl; rewrite E; [reflexivity | now rewrite IH].
Qed.

#[global] Arguments drop_str : simpl never.
#[global] Arguments take_str : simpl never.
#[global] Arguments padStart : simpl never.
#[global] Arguments String.length : simpl never.
#[global] Arguments Nat.leb : simpl never.
#[global] Arguments Nat.ltb : simpl never.

(** Reading a string-valued property off a value means the value is an
    object that binds the key. *)
Lemma get_VStr_inv v k s :
  k <> "length" -> index_of_key k = None ->
  get v k = Ret (VStr s) ->
  exists fs, v = VObj fs /\ lookup_field k fs = Some (VStr s).
Proof.
  intros Hk Hi. apply String.eqb_neq in Hk.
  destruct v; simpl; try congruence.
  - rewrite Hk, Hi. congruence.
  - rewrite Hk, Hi. congruence.
  - destruct (lookup_field k fields) eqn:E; intros [= ->]; eauto.
Qed.

End StringFacts.

(** ** Repair of truncated transaction data (C7) *)

Section Repair.
Context `{Externals}.

(** The trigger window of the AgentPay repair *)
Definition in_repair_window (template : value) : Prop :=
  exists s, get template "data" = Ret (VStr s) /\
            startsWith s ERC20_TRANSFER_SELECTOR = true /\
            74 <= String.length s < 138.

Lemma fix_unfold template :
  AgentPay.fixTruncatedTransactionData template =
  match get template "data" with
  | Throw e => Throw e
  | Ret data =>
      if negb (truthy data) then Ret template else
      match data with
      | VStr s =>
          if startsWith s ERC20_TRANSFER_SELECTOR
             && (74 <=? String.length s) && (String.length s <? 138)
          then match template with
               | VObj fs =>
                   Ret (VObj (set_field "data"
                                (VStr (take_str 74 s +:+ padStart 64 "0" (drop_str 74 s))) fs))
               | _ => Ret template
               end
          else Ret template
      | _ => Throw TypeError
      end
  end.
Proof.
  unfold AgentPay.fixTruncatedTransactionData, mbind, completion_bind, bind.
  destruct (get template "data") as [data|]; [|reflexivity].
  destruct (negb (truthy data)); [reflexivity|].
  destruct data; reflexivity.
Qed.

Lemma window_cond s :
  startsWith s ERC20_TRANSFER_SELECTOR && (74 <=? String.length s)
    && (String.length s <? 138) = true <->
  startsWith s ERC20_TRANSFER_SELECTOR = true /\ 74 <= String.length s < 138.
Proof.
  rewrite !andb_true_iff, Nat.leb_le, Nat.ltb_lt. tauto.
Qed.

Lemma repair_outside_window template template' :
  ~ in_repair_window template ->
  AgentPay.fixTruncatedTransactionData template = Ret template' ->
  template' = template.
Proof.
  rewrite fix_unfold. intros Hout.
  destruct (get template "data") as [data|] eqn:Hd; [|discriminate].
  destruct (negb (truthy data)); [congruence|].
  destruct data; try discriminate.
  destruct (_ && _ && _) eqn:Hc; [|congruence].
  exfalso. apply Hout. exists s. apply window_cond in Hc. tauto.
Qed.

Lemma repaired_length s :
  74 <= String.length s < 138 ->
  String.length (take_str 74 s +:+ padStart 64 "0" (drop_str 74 s)) = 138.
Proof.
  intros Hl. rewrite length_append, length_take_str, length_padStart, length_drop_str. lia.
Qed.

Lemma agentpay_repair_idempotent template :
  AgentPay.fixTruncatedTransactionData template ≫= AgentPay.fixTruncatedTransactionData
  = AgentPay.fixTruncatedTransactionData template.
Proof.
  unfold mbind, completion_bind, bind.
  destruct (AgentPay.fixTruncatedTransactionData template) as [t'|e] eqn:Hfix; [|reflexivity].
  rewrite fix_unfold in Hfix.
  destruct (get template "data") as [data|] eqn:Hd; [|discriminate].
  destruct (negb (truthy data)) eqn:Ht.
  { injection Hfix as <-. rewrite fix_unfold, Hd, Ht. reflexivity. }
  destruct data; try discriminate.
  destruct (_ && _ && _) eqn:Hc.
  2:{ injection Hfix as <-. rewrite fix_unfold, Hd, Ht, Hc. reflexivity. }
  apply window_cond in Hc as [Hs Hl].
  apply get_VStr_inv in Hd as (fs & -> & Hlk); [|discriminate|reflexivity].
  injection Hfix as <-.
  rewrite fix_unfold. cbn [get]. rewrite lookup_set_field_eq.
  set (fixed := take_str 74 s +:+ padStart 64 "0" (drop_str 74 s)).
  assert (String.length fixed = 138) as Hlen by (apply repaired_length; lia).
  destruct (negb (truthy (VStr fixed))); [reflexivity|].
  rewrite Hlen. rewrite Nat.ltb_irrefl, andb_false_r. reflexivity.
Qed.

(** C7. The repair of transaction data is idempotent for both protocols,
    [repair(repair(t)) = repair(t)] for every template [t] (with a thrown
    exception counted as the outcome it is), and it returns the template
    unchanged outside the trigger window: data that begin with the ERC-20
    transfer selector and are at least 74 and fewer than 138 characters
    long.  The x402 repair never changes anything. *)
Theorem repair_idempotent_and_windowed (template : value) :
  (AgentPay.fixTruncatedTransactionData template ≫= AgentPay.fixTruncatedTransactionData
   = AgentPay.fixTruncatedTransactionData template) /\
  (X402.fixTruncatedTransactionData template ≫= X402.fixTruncatedTransactionData
   = X402.fixTruncatedTransactionData template) /\
  (~ in_repair_window template ->
   forall template', AgentPay.fixTruncatedTransactionData template = Ret template' ->
                     template' = template) /\
  X402.fixTruncatedTransactionData template = Ret template.
Proof.
  split; [apply agentpay_repair_idempotent|].
  split; [reflexivity|].
  split; [|reflexivity].
  intros Hout template' Hfix. eapply repair_outside_window; eauto.
Qed.

End Repair.

(** ** Payment authorization (C4, C9, C10) *)

Section Authorization.
Context `{Externals}.

Import PaymentHandler.

(** A transaction without a decodable amount: if its data are a string that
    begins with the transfer selector, then [BigInt] rejects the last 64
    characters read as a hexadecimal literal. *)
Definition no_decodable_amount (transaction : value) : Prop :=
  forall s, get transaction "data" = Ret (VStr s) ->
            startsWith s ERC20_TRANSFER_SELECTOR = true ->
            StringToBigInt ("0x" +:+ slice_last 64 s) = None.

Lemma extractAmount_zero transaction :
  no_decodable_amount transaction ->
  extractAmountFromTransaction transaction = num_of_Z 0.
Proof.
  intros Hno. unfold extractAmountFromTransaction, extractAmountFromTransaction_body.
  unfold mbind, completion_bind, bind.
  destruct (get transaction "data") as [data|] eqn:Hd; [|reflexivity].
  destruct (negb (truthy data)); [reflexivity|].
  destruct data; try reflexivity.
  cbn [as_string].
  destruct (startsWith s ERC20_TRANSFER_SELECTOR) eqn:Hs; [|reflexivity].
  unfold BigInt. rewrite (Hno s Hd Hs). reflexivity.
Qed.

Lemma authorize_unfold h transaction protocol fixed validation usdc eth :
  protocols h !! "agentpay-v002" = Some protocol ->
  Protocol.fixTruncatedTransactionData protocol transaction = Ret fixed ->
  Protocol.validateTransactionTemplate protocol fixed = Ret validation ->
  Protocol.valid validation = true ->
  getWalletBalances (walletService h) = Ret (usdc, eth) ->
  authorize h transaction =
  if num_ltb (parseFloat usdc) (extractAmountFromTransaction fixed) then
    Ret (AuthError ("Insufficient USDC balance. Required: " +:+
                    Number_toString (extractAmountFromTransaction fixed) +:+
                    ", Available: " +:+ Number_toString (parseFloat usdc)))
  else authorize_funded protocol (walletService h) fixed (parseFloat eth).
Proof.
  intros Hp Hf Hv Hok Hb. unfold authorize. rewrite Hp.
  unfold mbind, completion_bind, bind. rewrite Hf, Hv, Hok, Hb. reflexivity.
Qed.

(** C10. A transaction whose data do not begin with the ERC-20 transfer
    selector, or whose amount bytes cannot be decoded, has the recomputed
    required amount 0; so for every balance that is not below zero the
    asset check of the authorization passes and the flow goes on to the gas
    check: no asset-insufficiency error is produced. *)
Theorem undecodable_amount_is_zero_and_passes
  (h : PaymentHandler.t) (transaction fixed : value) (protocol : PaymentProtocol)
  (validation : ValidationResult) (usdc eth : string) :
  no_decodable_amount fixed ->
  protocols h !! "agentpay-v002" = Some protocol ->
  Protocol.fixTruncatedTransactionData protocol transaction = Ret fixed ->
  Protocol.validateTransactionTemplate protocol fixed = Ret validation ->
  Protocol.valid validation = true ->
  getWalletBalances (walletService h) = Ret (usdc, eth) ->
  num_ltb (parseFloat usdc) (num_of_Z 0) = false ->
  extractAmountFromTransaction fixed = num_of_Z 0 /\
  authorize h transaction =
    authorize_funded protocol (walletService h) fixed (parseFloat eth).
Proof.
  intros Hno Hp Hf Hv Hok Hb Hnonneg.
  pose proof (extractAmount_zero fixed Hno) as Hz.
  split; [exact Hz|].
  rewrite (authorize_unfold _ _ _ _ _ _ _ Hp Hf Hv Hok Hb), Hz, Hnonneg.
  reflexivity.
Qed.

(** C4 (amended). When an approved transaction passes validation and the
    asset balance is below the amount recomputed from the transaction, the
    authorization returns the error text that names the required amount and
    the available balance; no shortfall is computed. *)
Theorem insufficient_asset_reports_required_and_available
  (h : PaymentHandler.t) (transaction fixed : value) (protocol : PaymentProtocol)
  (validation : ValidationResult) (usdc eth : string) :
  protocols h !! "agentpay-v002" = Some protocol ->
  Protocol.fixTruncatedTransactionData protocol transaction = Ret fixed ->
  Protocol.validateTransactionTemplate protocol fixed = Ret validation ->
  Protocol.valid validation = true ->
  getWalletBalances (walletService h) = Ret (usdc, eth) ->
  num_ltb (parseFloat usdc) (extractAmountFromTransaction fixed) = true ->
  authorize h transaction =
    Ret (AuthError ("Insufficient USDC balance. Required: " +:+
                    Number_toString (extractAmountFromTransaction fixed) +:+
                    ", Available: " +:+ Number_toString (parseFloat usdc))).
Proof.
  intros Hp Hf Hv Hok Hb Hlt.
  rewrite (authorize_unfold _ _ _ _ _ _ _ Hp Hf Hv Hok Hb), Hlt. reflexivity.
Qed.

(** The transaction an authorization request carries: the argument
    [aa_payment_transaction], parsed when it is text. *)
Definition submitted_transaction (message : value) : completion value :=
  params ← get message "params";
  args ← get params "arguments";
  raw ← get args "aa_payment_transaction";
  if String.eqb (typeof raw) "string" then JSON_parse raw else Ret raw.

Lemma create_agentpay w :
  protocols (create w) !! "agentpay-v002" = Some AgentPay.protocol.
Proof.
  unfold create, protocols, registerProtocol, ProtocolDetector.registerProtocol; simpl.
  apply lookup_insert_eq.
Qed.

Lemma create_x402 w :
  protocols (create w) !! "x402" = Some X402.protocol.
Proof.
  unfold create, protocols, registerProtocol, ProtocolDetector.registerProtocol; simpl.
  rewrite lookup_insert_ne by discriminate. apply lookup_insert_eq.
Qed.

Lemma create_priority w :
  ProtocolDetector.protocolPriority (protocolDetector (create w)) = ["x402"; "agentpay-v002"].
Proof. reflexivity. Qed.

Lemma repair_keeps_chainId transaction fixed :
  AgentPay.fixTruncatedTransactionData transaction = Ret fixed ->
  get fixed "chainId" = get transaction "chainId".
Proof.
  rewrite fix_unfold.
  destruct (get transaction "data") as [data|] eqn:Hd; [|discriminate].
  destruct (negb (truthy data)); [congruence|].
  destruct data; try discriminate.
  destruct (_ && _ && _); [|congruence].
  destruct transaction; try congruence.
  intros [= <-]. cbn [get]. rewrite lookup_set_field_ne by discriminate. reflexivity.
Qed.

Lemma push_if_app c msg errs : push_if c msg errs = errs ++ (if c then [msg] else []).
Proof. destruct c; simpl; [reflexivity | now rewrite app_nil_r]. Qed.

(** The AgentPay validation rejects every chain id other than 8453. *)
Lemma agentpay_validation_rejects template chainId validation :
  get template "chainId" = Ret chainId ->
  is_num chainId 8453 = false ->
  AgentPay.validateTransactionTemplate template = Ret validation ->
  Protocol.valid validation = false /\
  exists errs, Protocol.errors validation =
    errs ++ ["Unexpected chain ID: " +:+ ToString chainId +:+ " (expected Base mainnet: 8453)"].
Proof.
  intros Hc Hn. unfold AgentPay.validateTransactionTemplate.
  unfold mbind, completion_bind, bind.
  destruct (get template "to") as [to|]; [|discriminate].
  destruct (get template "data") as [data|]; [|discriminate].
  destruct (if truthy data && truthy to then _ else _) as [isUsdc|]; [|discriminate].
  destruct (if isUsdc then _ else _) as [errs|]; [|discriminate].
  destruct (get template "value") as [val|]; [|discriminate].
  rewrite Hc.
  destruct (get template "gasLimit") as [gasLimit|]; [|discriminate].
  rewrite Hn. intros [= <-]. cbn [Protocol.valid Protocol.errors negb push_if].
  split; [|eauto].
  apply bool_decide_eq_false. intros Heq. apply app_eq_nil in Heq as [_ Heq]. discriminate.
Qed.

Lemma is_num_84532_not_8453 chainId :
  is_num chainId 84532 = true -> is_num chainId 8453 = false.
Proof.
  destruct chainId; try discriminate. destruct n; try discriminate.
  unfold is_num, num_eqb, num_of_Z. intros H1.
  destruct (Qeq_bool q (inject_Z 8453)) eqn:H2; [|reflexivity].
  apply Qeq_bool_iff in H1, H2. rewrite H1 in H2. discriminate.
Qed.

Lemma get_truthy v k : truthy v = true -> exists x, get v k = Ret x.
Proof.
  destruct v; try discriminate; intros _; cbn [get]; eauto.
  - destruct (String.eqb k "length"); eauto.
    destruct (index_of_key k); eauto. destruct (String.get n s); eauto.
  - destruct (String.eqb k "length"); eauto. destruct (index_of_key k); eauto.
  - destruct (lookup_field k fields); eauto.
Qed.

Lemma authorize_chain_rejected w transaction chainId :
  get transaction "chainId" = Ret chainId ->
  is_num chainId 8453 = false ->
  exists error,
    catch (authorize (create w) transaction)
      (fun e => Ret (AuthError (message_or "Payment processing failed" e)))
    = Ret (AuthError error).
Proof.
  intros Hc Hn. unfold authorize. rewrite create_agentpay.
  cbn [Protocol.fixTruncatedTransactionData Protocol.validateTransactionTemplate
       AgentPay.protocol].
  unfold mbind at 1, completion_bind, bind.
  destruct (AgentPay.fixTruncatedTransactionData transaction) as [fixed|] eqn:Hf;
    [|cbn; eauto].
  unfold mbind at 1. 
  destruct (AgentPay.validateTransactionTemplate fixed) as [validation|] eqn:Hv;
    [|cbn; eauto].
  rewrite <- (repair_keeps_chainId _ _ Hf) in Hc.
  destruct (agentpay_validation_rejects _ _ _ Hc Hn Hv) as [-> _].
  cbn. eauto.
Qed.

(** C9. The authorization always goes through the AgentPay descriptor, and
    that descriptor's validation adds an error for every chain id other
    than 8453.  So an authorization request whose transaction template has
    chain id 84532 gets an error and never headers. *)
Theorem base_sepolia_template_is_rejected
  (w : WalletService) (message transaction chainId : value) :
  submitted_transaction message = Ret transaction ->
  get transaction "chainId" = Ret chainId ->
  is_num chainId 84532 = true ->
  protocols (create w) !! "agentpay-v002" = Some AgentPay.protocol /\
  exists error, processPaymentAuthorization (create w) message = Ret (AuthError error).
Proof.
  intros Hsub Hc H84. split; [apply create_agentpay|].
  apply is_num_84532_not_8453 in H84.
  unfold submitted_transaction, mbind, completion_bind, bind in Hsub.
  destruct (get message "params") as [params|] eqn:Hp; [|discriminate].
  destruct (get params "arguments") as [args|] eqn:Ha; [|discriminate].
  destruct (get args "aa_payment_transaction") as [raw|] eqn:Hr; [|discriminate].
  assert (exists fs, message = VObj fs) as [fs ->].
  { destruct message; try discriminate; eauto.
    - injection Hp as <-. discriminate.
    - injection Hp as <-. discriminate.
    - cbn [get] in Hp. change (String.eqb "params" "length") with false in Hp.
      change (index_of_key "params") with (@None nat) in Hp.
      injection Hp as <-. discriminate.
    - cbn [get] in Hp. change (String.eqb "params" "length") with false in Hp.
      change (index_of_key "params") with (@None nat) in Hp.
      injection Hp as <-. discriminate. }
  unfold processPaymentAuthorization, mbind, completion_bind, bind.
  cbn [has_in].
  destruct (bool_decide (is_Some (lookup_field "params" fs))).
  2:{ cbn. eauto. }
  rewrite Hp. unfold fmap, completion_fmap, bind.
  destruct (truthy params) eqn:Htp; cbn [negb]; [|eauto].
  rewrite Ha.
  destruct (truthy args) eqn:Hta.
  2:{ cbn. eauto. }
  destruct (get_truthy args "aa_payment_approved" Hta) as [approved ->].
  rewrite Hr.
  destruct (truthy approved && truthy raw); cbn [negb]; [|eauto].
  destruct (String.eqb (typeof raw) "string").
  - rewrite Hsub. now apply authorize_chain_rejected with (chainId := chainId).
  - injection Hsub as ->. now apply authorize_chain_rejected with (chainId := chainId).
Qed.

End Authorization.

(** ** Protocol detection (C5, C8) *)

Section Detection.
Context `{Externals}.

Import ProtocolDetector.

Lemma try_protocols_sound ps names data d :
  try_protocols ps names data = Some d ->
  name d ∈ names /\ ps !! name d = Some (protocol d) /\
  Protocol.isPaymentRequired (protocol d) data = Ret true /\
  extractedData d = data.
Proof.
  induction names as [|n names IH]; simpl; [discriminate|].
  destruct (ps !! n) as [p|] eqn:Hp.
  - destruct (Protocol.isPaymentRequired p data) as [[|]|] eqn:Hq.
    + intros [= <-]; simpl. repeat split; auto. left.
    + intros Hd. destruct (IH Hd) as (? & ? & ? & ?). repeat split; auto. now right.
    + intros Hd. destruct (IH Hd) as (? & ? & ? & ?). repeat split; auto. now right.
  - intros Hd. destruct (IH Hd) as (? & ? & ? & ?). repeat split; auto. now right.
Qed.

(** A protocol whose predicate throws, or answers [false], is passed over. *)
Lemma try_protocols_no_match ps names data :
  (forall n p, n ∈ names -> ps !! n = Some p ->
               Protocol.isPaymentRequired p data <> Ret true) ->
  try_protocols ps names data = None.
Proof.
  induction names as [|n names IH]; intros Hall; simpl; [reflexivity|].
  assert (try_protocols ps names data = None) as Hrest.
  { apply IH. intros n' p' Hin. apply Hall. now right. }
  destruct (ps !! n) as [p|] eqn:Hp; [|exact Hrest].
  destruct (Protocol.isPaymentRequired p data) as [[|]|] eqn:Hq; try exact Hrest.
  exfalso. eapply Hall; eauto. left.
Qed.

Lemma detectProtocol_returns (d : ProtocolDetector.t) (message : value) :
  exists r, detectProtocol d message = Ret r.
Proof.
  unfold detectProtocol, catch.
  destruct (detectProtocol_body d message); eauto.
Qed.

Lemma detectProtocol_body_inv d message r :
  detectProtocol_body d message = Ret r ->
  r = None \/
  r = try_protocols (protocols d) (protocolPriority d) (extractMCPResponseData message).
Proof.
  unfold detectProtocol_body, mbind, completion_bind, bind.
  destruct (has_in "error" message); [|discriminate].
  destruct (has_in "result" message); [|discriminate].
  destruct (Object_keys message); [|discriminate].
  set (data := extractMCPResponseData message).
  destruct (negb (truthy data)); [intros [= <-]; now left|].
  destruct (has_in "x402Version" data); [|discriminate].
  destruct (has_in "error" data); [|discriminate].
  destruct (get data "error"); [|discriminate].
  destruct (Object_keys data); [|discriminate].
  intros [= <-]. now right.
Qed.

(** C8. Detection is total and never throws: for every detector (whatever
    its registered predicates do, throwing included) and every message
    (a non-object, an empty payload and unparsable text included)
    [detectProtocol] returns a detection or [null].  A detection names a
    registered protocol whose predicate accepted the extracted payload; when
    every predicate throws or declines, the result is [null]. *)
Theorem detectProtocol_total (d : ProtocolDetector.t) (message : value) :
  (exists r, detectProtocol d message = Ret r) /\
  (forall det, detectProtocol d message = Ret (Some det) ->
     protocols d !! name det = Some (protocol det) /\
     Protocol.isPaymentRequired (protocol det) (extractedData det) = Ret true /\
     extractedData det = extractMCPResponseData message) /\
  ((forall n p, protocols d !! n = Some p ->
      Protocol.isPaymentRequired p (extractMCPResponseData message) <> Ret true) ->
   detectProtocol d message = Ret None).
Proof.
  split; [apply detectProtocol_returns|].
  unfold detectProtocol, catch.
  destruct (detectProtocol_body d message) as [r|e] eqn:Hbody.
  - apply detectProtocol_body_inv in Hbody as [->| ->].
    + split; [discriminate | reflexivity].
    + split.
      * intros det [= Hdet]. apply try_protocols_sound in Hdet as (_ & ? & ? & ->). auto.
      * intros Hall. f_equal. apply try_protocols_no_match. intros n p _. apply Hall.
  - split; [discriminate | reflexivity].
Qed.

(** The payment handler's predicate inherits the totality. *)
Lemma isPaymentRequired_total (h : PaymentHandler.t) (message : value) :
  exists b, PaymentHandler.isPaymentRequired h message = Ret b.
Proof.
  unfold PaymentHandler.isPaymentRequired, mbind, completion_bind, bind.
  destruct (detectProtocol_returns (PaymentHandler.protocolDetector h) message) as [r ->].
  eauto.
Qed.

(** *** Priority *)

Lemma lookup_field_in k v fs :
  lookup_field k fs = Some v -> In (k, v) fs.
Proof.
  induction fs as [|[k' v'] fs IH]; simpl; [discriminate|].
  destruct (String.eqb k k') eqn:E.
  - apply String.eqb_eq in E; subst. intros [= ->]. now left.
  - intros Hl. right. auto.
Qed.

Lemma in_lookup_field k v fs :
  NoDup (map fst fs) -> In (k, v) fs -> lookup_field k fs = Some v.
Proof.
  induction fs as [|[k' v'] fs IH]; simpl; [tauto|].
  intros Hnd [Heq|Hin].
  - injection Heq as <- <-. now rewrite String.eqb_refl.
  - apply NoDup_cons in Hnd as [Hnotin Hnd'].
    destruct (String.eqb k k') eqn:E.
    + apply String.eqb_eq in E; subst k'. exfalso. apply Hnotin.
      apply list_elem_of_In. apply in_map_iff. exists (k, v). auto.
    + auto.
Qed.

(** With distinct keys the order of an object's fields does not show in
    property lookup. *)
Lemma lookup_field_perm k fs fs' :
  NoDup (map fst fs) -> Permutation fs fs' ->
  lookup_field k fs' = lookup_field k fs.
Proof.
  intros Hnd Hperm.
  assert (NoDup (map fst fs')) as Hnd'.
  { assert (map fst fs ≡ₚ map fst fs') as Hp by (now apply Permutation_map).
    now rewrite <- Hp. }
  destruct (lookup_field k fs) as [v|] eqn:E.
  - apply in_lookup_field; [assumption|].
    eapply Permutation_in; [exact Hperm|]. now apply lookup_field_in.
  - destruct (lookup_field k fs') as [v|] eqn:E'; [|reflexivity].
    apply lookup_field_in in E'. apply Permutation_sym in Hperm.
    eapply Permutation_in in E'; [|exact Hperm].
    apply in_lookup_field in E'; [congruence | assumption].
Qed.

Lemma x402_detects fs v items :
  lookup_field "x402Version" fs = Some v -> nullish v = false ->
  lookup_field "accepts" fs = Some (VArr items) ->
  X402.isPaymentRequired (VObj fs) = Ret true.
Proof.
  intros Hv Hn Ha. unfold X402.isPaymentRequired, X402.isPaymentRequired_body.
  unfold mbind, completion_bind, bind. cbn [get_opt nullish truthy has_in get typeof].
  rewrite Hv, Ha. cbn. rewrite Hn. reflexivity.
Qed.

(** The AgentPay predicate declines whatever carries an x402 version. *)
Lemma agentpay_declines_x402 fs v :
  lookup_field "x402Version" fs = Some v -> nullish v = false ->
  AgentPay.isPaymentRequired (VObj fs) = Ret false.
Proof.
  intros Hv Hn. unfold AgentPay.isPaymentRequired, mbind, completion_bind, bind.
  cbn [truthy negb get]. rewrite Hv, Hn. reflexivity.
Qed.

Lemma extract_object_message message fs :
  extractMCPResponseData message = VObj fs ->
  (exists a, has_in "error" message = Ret a) /\
  (exists b, has_in "result" message = Ret b) /\
  Object_keys message = Ret tt.
Proof.
  unfold extractMCPResponseData, extractMCPResponseData_body, try_or.
  unfold mbind, completion_bind, bind.
  destruct (has_in "error" message); [|discriminate].
  destruct (has_in "result" message); [|discriminate].
  destruct (Object_keys message) as [[]|]; [|discriminate].
  eauto.
Qed.

(** C5. A payload with the x402 indicators (a non-null [x402Version] and an
    [accepts] array) is detected as x402 by the payment handler's detector,
    whatever else it carries (the AgentPay indicators in particular) and in
    whatever order its keys come: [fs'] is any reordering of the fields. *)
Theorem x402_has_priority
  (w : WalletService) (message : value) (fs fs' : list (string * value))
  (version : value) (accepts : list value) :
  extractMCPResponseData message = VObj fs' ->
  Permutation fs fs' -> NoDup (map fst fs) ->
  lookup_field "x402Version" fs = Some version -> nullish version = false ->
  lookup_field "accepts" fs = Some (VArr accepts) ->
  exists det,
    detectProtocol (PaymentHandler.protocolDetector (PaymentHandler.create w)) message
      = Ret (Some det) /\
    name det = "x402" /\ extractedData det = VObj fs' /\
    AgentPay.isPaymentRequired (VObj fs') = Ret false.
Proof.
  intros Hex Hperm Hnd Hv Hn Ha.
  rewrite <- (lookup_field_perm "x402Version" _ _ Hnd Hperm) in Hv.
  rewrite <- (lookup_field_perm "accepts" _ _ Hnd Hperm) in Ha.
  destruct (extract_object_message _ _ Hex) as ([a Ha1] & [b Hb1] & Hk).
  unfold detectProtocol, detectProtocol_body, mbind, completion_bind, bind, catch.
  rewrite Ha1, Hb1, Hk, Hex. cbn [truthy negb has_in get Object_keys nullish].
  assert (forall A (x : option value) (k : completion A),
            match (match x with Some y => Ret y | None => Ret VUndefined end) with
            | Ret _ => k | Throw e => Throw e end = k) as Hskip
    by (intros A [x|] k; reflexivity).
  rewrite Hskip.
  rewrite create_priority. cbn [try_protocols].
  change (protocols (PaymentHandler.protocolDetector (PaymentHandler.create w)))
    with (PaymentHandler.protocols (PaymentHandler.create w)).
  rewrite create_x402.
  change (Protocol.isPaymentRequired X402.protocol) with X402.isPaymentRequired.
  rewrite (x402_detects _ _ _ Hv Hn Ha).
  eexists; split; [reflexivity|]. split; [reflexivity|]. split; [reflexivity|].
  now apply agentpay_declines_x402 with (v := version).
Qed.

End Detection.

(** ** Extraction of an x402 challenge (C6) *)

Section X402Extraction.
Context `{Externals}.

Definition is_decimal_digit (c : ascii) : bool :=
  let n := nat_of_ascii c in (48 <=? n) && (n <=? 57).

(** A pure positive integer string: one or more decimal digits that denote
    [n], with [n] above zero *)
Definition pure_positive_integer (s : string) (n : Z) : Prop :=
  s <> "" /\ all_chars is_decimal_digit s = true /\
  parse_digits 10 0 s = Some n /\ (0 < n)%Z.

Lemma rev_str_rev_str s a1 a2 :
  rev_str a1 (rev_str a2 s) = rev_str (s +:+ a1) a2.
Proof.
  revert a1 a2; induction s as [|c s IH]; intros a1 a2; [reflexivity|].
  cbn [rev_str]. rewrite IH. reflexivity.
Qed.

Lemma append_empty_r s : s +:+ "" = s.
Proof.
  induction s as [|c s IH]; [reflexivity|].
  change (String c (s +:+ "") = String c s). now rewrite IH.
Qed.

Lemma all_chars_rev_str p acc s :
  all_chars p (rev_str acc s) = all_chars p s && all_chars p acc.
Proof.
  revert acc; induction s as [|c s IH]; intros acc; [reflexivity|].
  cbn [rev_str all_chars]. rewrite IH. cbn [all_chars].
  destruct (p c), (all_chars p s), (all_chars p acc); reflexivity.
Qed.

Lemma digit_not_space c : is_decimal_digit c = true -> is_js_space c = false.
Proof.
  unfold is_decimal_digit, is_js_space. cbv zeta.
  rewrite andb_true_iff, Nat.leb_le, Nat.leb_le. intros [? ?].
  rewrite !orb_false_iff, andb_false_iff, !Nat.leb_gt, !Nat.eqb_neq. lia.
Qed.

Lemma trim_left_digits s :
  all_chars is_decimal_digit s = true -> trim_left s = s.
Proof.
  destruct s as [|c s]; [reflexivity|]. cbn [all_chars trim_left].
  intros Hd. apply andb_prop in Hd as [Hc _]. now rewrite (digit_not_space c Hc).
Qed.

Lemma trim_digits s : all_chars is_decimal_digit s = true -> trim s = s.
Proof.
  intros Hd. unfold trim. rewrite (trim_left_digits s Hd).
  rewrite trim_left_digits.
  - rewrite rev_str_rev_str. cbn [rev_str]. apply append_empty_r.
  - rewrite all_chars_rev_str, Hd. reflexivity.
Qed.

Lemma digit_not_char c (x : ascii) :
  is_decimal_digit c = true -> is_decimal_digit x = false -> Ascii.eqb c x = false.
Proof.
  intros Hc Hx. destruct (Ascii.eqb c x) eqn:E; [|reflexivity].
  apply Ascii.eqb_eq in E; subst. congruence.
Qed.

(** [BigInt] reads a string of decimal digits as the number it denotes. *)
Lemma StringToBigInt_digits s n :
  s <> "" -> all_chars is_decimal_digit s = true ->
  parse_digits 10 0 s = Some n -> StringToBigInt s = Some n.
Proof.
  intros Hne Hd Hp. unfold StringToBigInt. rewrite (trim_digits s Hd).
  destruct s as [|c rest]; [congruence|]. cbv zeta.
  cbn [all_chars] in Hd. apply andb_prop in Hd as [Hc Hrest].
  rewrite (digit_not_char c "+" Hc eq_refl), (digit_not_char c "-" Hc eq_refl).
  assert (parse_radix 10 (String c rest) = Some n) as Hr by exact Hp.
  destruct (Ascii.eqb c "0"); [|exact Hr].
  destruct rest as [|c' rest']; [exact Hr|].
  cbn [all_chars] in Hrest. apply andb_prop in Hrest as [Hc' _].
  rewrite (digit_not_char c' "x" Hc' eq_refl), (digit_not_char c' "X" Hc' eq_refl),
    (digit_not_char c' "o" Hc' eq_refl), (digit_not_char c' "O" Hc' eq_refl),
    (digit_not_char c' "b" Hc' eq_refl), (digit_not_char c' "B" Hc' eq_refl).
  exact Hr.
Qed.

Lemma includes_digits s :
  all_chars is_decimal_digit s = true -> includes s "." = false.
Proof.
  induction s as [|c s IH]; [reflexivity|].
  cbn [all_chars includes]. intros Hd. apply andb_prop in Hd as [Hc Hs].
  rewrite (IH Hs), orb_false_r.
  cbn [String.prefix]. destruct (ascii_dec "." c) as [<-|]; [discriminate|reflexivity].
Qed.

Lemma check_atomic_amount_rejects s :
  includes s "." = true \/ StringToBigInt s = None \/
  (exists z, StringToBigInt s = Some z /\ (z <= 0)%Z) ->
  exists e, X402.check_atomic_amount s = Throw e.
Proof.
  unfold X402.check_atomic_amount, BigInt, mbind, completion_bind, bind, catch.
  intros [Hdot|[Hnone|(z & Hz & Hle)]].
  - rewrite Hdot. eauto.
  - destruct (includes s "."); [eauto|]. rewrite Hnone. eauto.
  - destruct (includes s "."); [eauto|]. rewrite Hz.
    apply Z.leb_le in Hle. rewrite Hle. eauto.
Qed.

Lemma typeof_string_inv v : X402.typeof_is v "string" = true -> exists s, v = VStr s.
Proof. destruct v; try discriminate. eauto. Qed.

(** What the structural validation has established when
    [extract_requirement] returns *)
Lemma extract_requirement_valid response requirement chainId :
  X402.extract_requirement response = Ret (requirement, chainId) ->
  exists s payTo asset description,
    get requirement "maxAmountRequired" = Ret (VStr s) /\
    get requirement "payTo" = Ret payTo /\ isAddress payTo = true /\
    get requirement "asset" = Ret asset /\ isAddress asset = true /\
    get requirement "description" = Ret description.
Proof.
  unfold X402.extract_requirement, mbind, completion_bind, bind, fmap, completion_fmap, bind.
  destruct (get response "x402Version") as [version|]; [|discriminate].
  destruct (negb (is_num version 1)); [discriminate|].
  destruct (get response "accepts") as [accepts|]; [|discriminate].
  destruct (if isArray accepts then _ else _) as [[|]|]; try discriminate.
  destruct (get accepts "0") as [req|]; [|discriminate].
  destruct (X402.isValidPaymentRequirement req) as [[|]|] eqn:Hv; try discriminate.
  cbn [negb].
  destruct (get req "network") as [network|]; [|discriminate].
  destruct (X402.getChainConfig _); [|discriminate].
  intros [= <- _]. revert Hv.
  unfold X402.isValidPaymentRequirement, mbind, completion_bind, bind.
  destruct (has_in "scheme" _); [|discriminate].
  destruct (negb (X402.typeof_is req "object")); [discriminate|].
  destruct (strict_eq req VNull); [discriminate|].
  destruct (get req "scheme") as [scheme|]; [|discriminate].
  destruct (get req "network") as [network'|]; [|discriminate].
  destruct (get req "maxAmountRequired") as [maxAmountRequired|]; [|discriminate].
  destruct (get req "resource") as [resource|]; [|discriminate].
  destruct (get req "description") as [description|]; [|discriminate].
  destruct (get req "payTo") as [payTo|]; [|discriminate].
  destruct (get req "maxTimeoutSeconds") as [maxTimeoutSeconds|]; [|discriminate].
  destruct (get req "asset") as [asset|]; [|discriminate].
  destruct (get req "mimeType") as [mimeType|]; [|discriminate].
  destruct (get req "outputSchema") as [outputSchema|]; [|discriminate].
  destruct (get req "extra") as [extra|]; [|discriminate].
  intros [= Hall].
  repeat (apply andb_prop in Hall as [Hall ?]).
  destruct (typeof_string_inv maxAmountRequired) as [s ->]; [assumption|].
  exists s, payTo, asset, description. repeat split; auto.
Qed.

Lemma check_atomic_amount_accepts s n :
  includes s "." = false -> StringToBigInt s = Some n -> (0 < n)%Z ->
  X402.check_atomic_amount s = Ret n.
Proof.
  intros Hdot Hbig Hpos. unfold X402.check_atomic_amount, BigInt. rewrite Hdot, Hbig.
  unfold mbind, completion_bind, bind, catch.
  destruct (n <=? 0)%Z eqn:E; [apply Z.leb_le in E; lia | reflexivity].
Qed.

(** The details [extractPaymentDetails] returns for an amount [amount] and
    transaction data [data] *)
Definition x402_details (requirement chainId description asset : value)
  (amount data : string) : value :=
  VObj [("error", VStr "payment_required"); ("code", VNum (num_of_Z 402));
        ("message", description); ("amount", VStr amount);
        ("currency", VStr "USDC"); ("description", description);
        ("transaction",
         VObj [("to", asset); ("data", VStr data); ("value", VStr "0x0");
               ("chainId", chainId); ("gasLimit", VStr "50000");
               ("x402Requirement", requirement)])].

(** C6 (amended). For an x402 challenge that passes the structural
    validation (version 1, a valid first requirement, a known network),
    [maxAmountRequired] is text that [BigInt] reads.  When the text has no
    decimal point and [BigInt] reads it as an integer [n] above zero, the
    extracted amount is [formatUnits(n, 6)], the integer over [10^6] as a
    decimal string, provided ethers formats [n] and encodes the transfer;
    extraction returns [null] when ethers throws.  Such texts are the pure
    positive integer strings and every other text [BigInt] accepts: with
    surrounding whitespace, a plus sign, or a radix prefix.  When the text
    has a decimal point, or [BigInt] rejects it, or its value is not above
    zero, extraction returns [null]. *)
Theorem x402_amount_normalized
  (st : X402.state) (response requirement chainId : value) :
  X402.extract_requirement response = Ret (requirement, chainId) ->
  exists s payTo asset description,
    get requirement "maxAmountRequired" = Ret (VStr s) /\
    get requirement "payTo" = Ret payTo /\
    get requirement "asset" = Ret asset /\
    get requirement "description" = Ret description /\
    (forall n,
       includes s "." = false -> StringToBigInt s = Some n -> (0 < n)%Z ->
       X402.extractPaymentDetails st response =
         ({| X402.currentChainId := chainId |},
          match formatUnits n 6, encodeTransfer payTo s with
          | Ret amount, Ret data =>
              x402_details requirement chainId description asset amount data
          | _, _ => VNull
          end)) /\
    (forall n,
       pure_positive_integer s n ->
       includes s "." = false /\ StringToBigInt s = Some n /\ (0 < n)%Z) /\
    (includes s "." = true \/ StringToBigInt s = None \/
     (exists z, StringToBigInt s = Some z /\ (z <= 0)%Z) ->
     X402.extractPaymentDetails st response = ({| X402.currentChainId := chainId |}, VNull)).
Proof.
  intros Hreq.
  destruct (extract_requirement_valid _ _ _ Hreq)
    as (s & payTo & asset & description & Hamt & Hp & Hpa & Ha & Haa & Hd).
  exists s, payTo, asset, description.
  split; [exact Hamt|]. split; [exact Hp|]. split; [exact Ha|]. split; [exact Hd|].
  unfold X402.extractPaymentDetails. rewrite Hreq.
  unfold X402.extract_details, X402.buildTransactionFromRequirement.
  unfold mbind, completion_bind, bind, catch.
  rewrite Hamt, Hp, Ha, Hpa, Haa, Hd. cbn [negb ToString ToString_with].
  split; [|split].
  - intros n Hdot Hbig Hpos.
    rewrite (check_atomic_amount_accepts s n Hdot Hbig Hpos).
    destruct (formatUnits n 6) as [amount|]; [|reflexivity].
    destruct (encodeTransfer payTo s) as [data|]; reflexivity.
  - intros n (Hne & Hdigits & Hparse & Hpos).
    split; [now apply includes_digits|]. split; [now apply StringToBigInt_digits | exact Hpos].
  - intros Hbad. destruct (check_atomic_amount_rejects s Hbad) as [e He].
    rewrite He. reflexivity.
Qed.

End X402Extraction.

(** ** Records and header lists *)

Section RecordFacts.

Import StringRecord.

Lemma lookup_entry_elem_of k v es : lookup_entry k es = Some v -> (k, v) ∈ es.
Proof.
  induction es as [|[k' v'] es IH]; [discriminate|]. cbn [lookup_entry].
  destruct (String.eqb k k') eqn:E.
  - apply String.eqb_eq in E as ->. intros [= ->]. left.
  - intros Hl. right. now apply IH.
Qed.

Lemma lookup_entry_None k es : lookup_entry k es = None <-> k ∉ es.*1.
Proof.
  induction es as [|[k' v'] es IH]; [cbn; split; [intros _; apply not_elem_of_nil|done]|].
  cbn [lookup_entry fmap list_fmap fst]. rewrite not_elem_of_cons.
  destruct (String.eqb k k') eqn:E.
  - apply String.eqb_eq in E as ->. split; [discriminate|]. intros [Hn _]. now contradict Hn.
  - apply String.eqb_neq in E. rewrite IH. tauto.
Qed.

Lemma elem_of_lookup_entry k v es :
  NoDup es.*1 -> (k, v) ∈ es -> lookup_entry k es = Some v.
Proof.
  induction es as [|[k' v'] es IH]; [intros _ Hin; now apply elem_of_nil in Hin|].
  cbn [fmap list_fmap fst lookup_entry].
  intros Hnd Hin. apply NoDup_cons in Hnd as [Hk Hnd].
  apply elem_of_cons in Hin as [[= -> ->]|Hin].
  - now rewrite String.eqb_refl.
  - destruct (String.eqb k k') eqn:E; [|now apply IH].
    apply String.eqb_eq in E as ->. exfalso. apply Hk.
    eapply list_elem_of_fmap_2'; [eassumption|reflexivity].
Qed.

Lemma keys_replace_entry k v es : (replace_entry k v es).*1 = es.*1.
Proof.
  induction es as [|[k' v'] es IH]; [reflexivity|]. cbn [replace_entry].
  destruct (String.eqb k k'); cbn [fmap list_fmap fst]; [reflexivity|].
  f_equal. exact IH.
Qed.

Lemma lookup_replace_entry_eq k v es :
  k ∈ es.*1 -> lookup_entry k (replace_entry k v es) = Some v.
Proof.
  induction es as [|[k' v'] es IH]; [intros Hin; now apply elem_of_nil in Hin|].
  cbn [replace_entry fmap list_fmap fst].
  intros Hin. destruct (String.eqb k k') eqn:E; cbn [lookup_entry]; rewrite E; [reflexivity|].
  apply IH. apply elem_of_cons in Hin as [->|Hin]; [|exact Hin].
  now rewrite String.eqb_refl in E.
Qed.

Lemma lookup_replace_entry_ne k k' v es :
  k <> k' -> lookup_entry k' (replace_entry k v es) = lookup_entry k' es.
Proof.
  intros Hne. induction es as [|[k0 v0] es IH]; [reflexivity|]. cbn [replace_entry].
  destruct (String.eqb k k0) eqn:E; cbn [lookup_entry]; [|now rewrite IH].
  apply String.eqb_eq in E as <-.
  destruct (String.eqb k' k) eqn:E'; [|reflexivity].
  apply String.eqb_eq in E'. congruence.
Qed.

Lemma keys_insert_index i k v es : (insert_index i k v es).*1 ≡ₚ k :: es.*1.
Proof.
  induction es as [|[k' v'] es IH]; [reflexivity|]. cbn [insert_index].
  destruct (array_index k') as [j|]; [|reflexivity].
  destruct (i <? j)%N; [reflexivity|]. cbn [fmap list_fmap fst].
  change (list_fmap _ _ fst (insert_index i k v es)) with (insert_index i k v es).*1.
  rewrite IH. apply perm_swap.
Qed.

Lemma lookup_insert_index_eq i k v es :
  k ∉ es.*1 -> lookup_entry k (insert_index i k v es) = Some v.
Proof.
  induction es as [|[k' v'] es IH]; cbn [insert_index lookup_entry fmap list_fmap fst].
  - now rewrite String.eqb_refl.
  - rewrite not_elem_of_cons. intros [Hne Hn].
    destruct (array_index k') as [j|];
      [destruct (i <? j)%N|]; cbn [lookup_entry]; rewrite ?String.eqb_refl; try reflexivity.
    apply String.eqb_neq in Hne. rewrite Hne. now apply IH.
Qed.

Lemma lookup_insert_index_ne i k k' v es :
  k <> k' -> lookup_entry k' (insert_index i k v es) = lookup_entry k' es.
Proof.
  intros Hne. assert (String.eqb k' k = false) as E by (apply String.eqb_neq; congruence).
  induction es as [|[k0 v0] es IH]; cbn [insert_index lookup_entry].
  - now rewrite E.
  - destruct (array_index k0) as [j|]; [destruct (i <? j)%N|]; cbn [lookup_entry];
      rewrite ?E; try reflexivity.
    now rewrite IH.
Qed.

Lemma lookup_entry_app k es es' :
  lookup_entry k (es ++ es') =
  match lookup_entry k es with Some v => Some v | None => lookup_entry k es' end.
Proof.
  induction es as [|[k' v'] es IH]; [reflexivity|]. cbn [app lookup_entry].
  destruct (String.eqb k k'); [reflexivity | exact IH].
Qed.

Lemma keys_define_entry k v es :
  (define_entry k v es).*1 ≡ₚ (if bool_decide (k ∈ es.*1) then es.*1 else k :: es.*1).
Proof.
  unfold define_entry. destruct (lookup_entry k es) as [x|] eqn:E.
  - rewrite keys_replace_entry, bool_decide_eq_true_2; [reflexivity|].
    apply lookup_entry_elem_of in E. eapply list_elem_of_fmap_2'; [eassumption|reflexivity].
  - apply lookup_entry_None in E. rewrite bool_decide_eq_false_2 by exact E.
    destruct (array_index k) as [i|]; [apply keys_insert_index|].
    rewrite fmap_app. cbn [fmap list_fmap fst]. symmetry. apply Permutation_cons_append.
Qed.

Lemma NoDup_define_entry k v es : NoDup es.*1 -> NoDup (define_entry k v es).*1.
Proof.
  intros Hnd. rewrite keys_define_entry. case_bool_decide as Hin; [exact Hnd|].
  now apply NoDup_cons.
Qed.

Lemma elem_of_keys_define_entry k v k' es :
  k' ∈ (define_entry k v es).*1 <-> k' = k \/ k' ∈ es.*1.
Proof.
  rewrite keys_define_entry. case_bool_decide as Hin.
  - split; [tauto|]. intros [->|?]; tauto.
  - apply elem_of_cons.
Qed.

Lemma lookup_define_entry_eq k v es : lookup_entry k (define_entry k v es) = Some v.
Proof.
  unfold define_entry. destruct (lookup_entry k es) as [x|] eqn:E.
  - apply lookup_replace_entry_eq. apply lookup_entry_elem_of in E.
    eapply list_elem_of_fmap_2'; [eassumption|reflexivity].
  - destruct (array_index k) as [i|].
    + apply lookup_insert_index_eq. now apply lookup_entry_None.
    + rewrite lookup_entry_app, E. cbn [lookup_entry]. now rewrite String.eqb_refl.
Qed.

Lemma lookup_define_entry_ne k k' v es :
  k <> k' -> lookup_entry k' (define_entry k v es) = lookup_entry k' es.
Proof.
  intros Hne. unfold define_entry. destruct (lookup_entry k es) as [x|] eqn:E.
  - now apply lookup_replace_entry_ne.
  - destruct (array_index k) as [i|]; [now apply lookup_insert_index_ne|].
    rewrite lookup_entry_app. destruct (lookup_entry k' es); [reflexivity|].
    cbn [lookup_entry]. destruct (String.eqb k' k) eqn:E'; [|reflexivity].
    apply String.eqb_eq in E'. congruence.
Qed.

Lemma NoDup_define_entries new es : NoDup es.*1 -> NoDup (define_entries new es).*1.
Proof.
  unfold define_entries. revert es.
  induction new as [|[k v] new IH]; intros es Hnd; [exact Hnd|].
  cbn [fold_left fst snd]. apply IH. now apply NoDup_define_entry.
Qed.

Lemma elem_of_keys_define_entries new es k :
  k ∈ (define_entries new es).*1 <-> k ∈ new.*1 \/ k ∈ es.*1.
Proof.
  unfold define_entries. revert es.
  induction new as [|[k0 v0] new IH]; intros es; cbn [fold_left fst snd fmap list_fmap].
  - rewrite elem_of_nil. tauto.
  - rewrite IH, elem_of_keys_define_entry, elem_of_cons. tauto.
Qed.

(** The properties defined last win over what is there already. *)
Lemma lookup_define_entries new es k :
  NoDup new.*1 ->
  lookup_entry k (define_entries new es) =
  match lookup_entry k new with Some v => Some v | None => lookup_entry k es end.
Proof.
  unfold define_entries. revert es.
  induction new as [|[k0 v0] new IH]; intros es Hnd; [reflexivity|].
  cbn [fold_left fst snd fmap list_fmap] in *. apply NoDup_cons in Hnd as [Hk Hnd].
  rewrite IH by exact Hnd. cbn [lookup_entry].
  destruct (String.eqb k k0) eqn:E.
  - apply String.eqb_eq in E as ->.
    assert (lookup_entry k0 new = None) as -> by now apply lookup_entry_None.
    apply lookup_define_entry_eq.
  - apply String.eqb_neq in E. destruct (lookup_entry k new); [reflexivity|].
    apply lookup_define_entry_ne. congruence.
Qed.

Lemma NoDup_keys_spread a b : NoDup (keys (spread a b)).
Proof.
  unfold keys, spread. cbn [entries]. apply NoDup_define_entries, NoDup_define_entries.
  constructor.
Qed.

Lemma elem_of_keys_spread a b k : k ∈ keys (spread a b) <-> k ∈ keys a \/ k ∈ keys b.
Proof.
  unfold keys, spread. cbn [entries]. rewrite !elem_of_keys_define_entries.
  cbn [fmap list_fmap]. rewrite elem_of_nil. tauto.
Qed.

Lemma lookup_spread a b k :
  NoDup (keys a) -> NoDup (keys b) ->
  spread a b !! k = match b !! k with Some v => Some v | None => a !! k end.
Proof.
  intros Ha Hb. unfold lookup, t_lookup, spread. cbn [entries].
  rewrite lookup_define_entries by exact Hb.
  destruct (lookup_entry k (entries b)); [reflexivity|].
  rewrite lookup_define_entries by exact Ha.
  destruct (lookup_entry k (entries a)); reflexivity.
Qed.

Lemma lookup_elem_of_entries (r : t) k v : r !! k = Some v -> (k, v) ∈ entries r.
Proof. apply lookup_entry_elem_of. Qed.

Lemma lookup_elem_of_keys (r : t) k v : r !! k = Some v -> k ∈ keys r.
Proof.
  intros Hl. apply lookup_elem_of_entries in Hl. eapply list_elem_of_fmap_2'; [eassumption|reflexivity].
Qed.

End RecordFacts.

Section HeaderListFacts.

Import Fetch.

Lemma ascii_lower_char_idem c : ascii_lower_char (ascii_lower_char c) = ascii_lower_char c.
Proof.
  unfold ascii_lower_char. cbv zeta.
  destruct ((65 <=? nat_of_ascii c) && (nat_of_ascii c <=? 90)) eqn:E; [|now rewrite E].
  apply andb_prop in E as [E1 E2]. apply Nat.leb_le in E1, E2.
  rewrite nat_ascii_embedding by lia.
  replace ((65 <=? nat_of_ascii c + 32) && (nat_of_ascii c + 32 <=? 90)) with false;
    [reflexivity|].
  symmetry. apply andb_false_iff. right. apply Nat.leb_gt. lia.
Qed.

Lemma lowercase_idem s : lowercase (lowercase s) = lowercase s.
Proof.
  induction s as [|c s IH]; [reflexivity|]. cbn [lowercase].
  now rewrite ascii_lower_char_idem, IH.
Qed.

Lemma same_name_stored n k v : same_name n (lowercase k, v) = names_match n k.
Proof. reflexivity. Qed.

Lemma same_name_match n k e : names_match n k = true -> same_name n e = same_name k e.
Proof.
  unfold names_match, same_name. intros Hm. apply String.eqb_eq in Hm. now rewrite Hm.
Qed.

Lemma same_name_apart n k e :
  names_match n k = false -> same_name k e = true -> same_name n e = false.
Proof.
  unfold names_match, same_name. intros Hm Hk. apply String.eqb_eq in Hk.
  rewrite <- Hk. exact Hm.
Qed.

Lemma filter_no_match n (h : list (string * string)) :
  existsb (same_name n) h = false -> filter (fun e => same_name n e = true) h = [].
Proof.
  induction h as [|e h IH]; [reflexivity|]. cbn [existsb].
  intros Hex. apply orb_false_iff in Hex as [He Hh].
  rewrite filter_cons_False by (rewrite He; discriminate). now apply IH.
Qed.

Lemma filter_set_first_same n value (h : list (string * string)) :
  existsb (same_name n) h = true ->
  exists stored, filter (fun e => same_name n e = true) (set_first n value h)
                 = [(stored, value)].
Proof.
  induction h as [|e h IH]; [discriminate|]. cbn [existsb set_first].
  destruct (same_name n e) eqn:He.
  - intros _. exists (fst e).
    rewrite filter_cons_True by exact He. f_equal. clear IH.
    induction h as [|e' h IH']; [reflexivity|].
    destruct (same_name n e') eqn:He'.
    + rewrite filter_cons_False by (rewrite He'; discriminate). exact IH'.
    + rewrite filter_cons_True by exact He'.
      rewrite filter_cons_False by (rewrite He'; discriminate). exact IH'.
  - cbn [orb]. intros Hex. destruct (IH Hex) as [stored Hs]. exists stored.
    rewrite filter_cons_False by (rewrite He; discriminate). exact Hs.
Qed.

Lemma filter_set_first_other n k value (h : list (string * string)) :
  names_match n k = false ->
  filter (fun e => same_name n e = true) (set_first k value h)
  = filter (fun e => same_name n e = true) h.
Proof.
  intros Hm. induction h as [|e h IH]; [reflexivity|]. cbn [set_first].
  destruct (same_name k e) eqn:He.
  - pose proof (same_name_apart n k e Hm He) as Hn.
    rewrite filter_cons_False by (unfold same_name in *; cbn [fst]; rewrite Hn; discriminate).
    rewrite filter_cons_False by (rewrite Hn; discriminate).
    clear IH He Hn e. induction h as [|e h IH]; [reflexivity|].
    destruct (same_name k e) eqn:He.
    + rewrite filter_cons_False by (rewrite He; discriminate).
      rewrite filter_cons_False
        by (rewrite (same_name_apart n k e Hm He); discriminate).
      exact IH.
    + rewrite filter_cons_True by exact He.
      destruct (same_name n e) eqn:Hn.
      * rewrite !filter_cons_True by exact Hn. now rewrite IH.
      * rewrite !filter_cons_False by (rewrite Hn; discriminate). exact IH.
  - destruct (same_name n e) eqn:Hn.
    + rewrite !filter_cons_True by exact Hn. now rewrite IH.
    + rewrite !filter_cons_False by (rewrite Hn; discriminate). exact IH.
Qed.

Lemma set_inv k v h h' :
  set k v h = Ret h' ->
  is_header_name k = true /\ is_header_value (normalize v) = true /\
  h' = (if existsb (same_name k) h
        then set_first k (normalize v) h
        else h ++ [(lowercase k, normalize v)]).
Proof.
  unfold set. cbv zeta.
  destruct (is_header_name k); [|discriminate].
  destruct (is_header_value (normalize v)); [|discriminate].
  cbn [negb]. intros [= <-]. auto.
Qed.

(** [set] decides the value of its name and leaves the other names alone. *)
Lemma lookup_set k v h h' n :
  set k v h = Ret h' ->
  lookup h' n = if names_match n k then Some (normalize v) else lookup h n.
Proof.
  intros Hs. apply set_inv in Hs as (_ & _ & ->). unfold lookup.
  destruct (names_match n k) eqn:Hm.
  - assert (forall l : Headers,
              filter (fun e => same_name n e = true) l
              = filter (fun e => same_name k e = true) l) as Hf.
    { intros l. apply list_filter_iff. intros e. now rewrite (same_name_match n k e Hm). }
    rewrite Hf. destruct (existsb (same_name k) h) eqn:Hex.
    + destruct (filter_set_first_same k (normalize v) h Hex) as [stored ->]. reflexivity.
    + rewrite filter_app, (filter_no_match k h Hex).
      rewrite filter_cons_True by (cbn; apply String.eqb_refl). reflexivity.
  - destruct (existsb (same_name k) h) eqn:Hex.
    + now rewrite filter_set_first_other.
    + rewrite filter_app.
      rewrite (filter_cons_False _ (lowercase k, normalize v))
        by (rewrite same_name_stored, Hm; discriminate).
      now rewrite app_nil_r.
Qed.

(** The entries of a record that go by a name *)
Definition entries_named (n : string) (es : list (string * string))
  : list (string * string) :=
  filter (fun e => names_match n (fst e) = true) es.

(** After one [set] for each entry, a name carries the value of the last
    entry that goes by it, and what it carried before when there is none. *)
Lemma lookup_set_all es h h' n :
  set_all es h = Ret h' ->
  lookup h' n =
  match last (entries_named n es) with
  | Some e => Some (normalize (snd e))
  | None => lookup h n
  end.
Proof.
  revert h. induction es as [|[k v] es IH]; intros h; cbn [set_all].
  - intros [= <-]. reflexivity.
  - destruct (set k v h) as [h1|] eqn:Hs; [|discriminate]. intros Hall.
    rewrite (IH h1 Hall), (lookup_set k v h h1 n Hs). unfold entries_named.
    destruct (names_match n k) eqn:Hm.
    + rewrite filter_cons_True by exact Hm. rewrite last_cons.
      destruct (last _); reflexivity.
    + rewrite filter_cons_False by (cbn [fst]; rewrite Hm; discriminate). reflexivity.
Qed.

Lemma set_all_names es h h' e :
  set_all es h = Ret h' -> e ∈ es -> is_header_name (fst e) = true.
Proof.
  revert h. induction es as [|[k v] es IH]; intros h; cbn [set_all].
  - intros _ Hin. now apply elem_of_nil in Hin.
  - destruct (set k v h) as [h1|] eqn:Hs; [|discriminate]. intros Hall Hin.
    apply elem_of_cons in Hin as [->|Hin]; [|now apply (IH h1)].
    now apply set_inv in Hs as (Hn & _).
Qed.

Lemma lookup_append_all es h h' n :
  append_all es h = Ret h' ->
  (forall e, e ∈ es -> names_match n (fst e) = false) ->
  lookup h' n = lookup h n.
Proof.
  revert h. induction es as [|[k v] es IH]; intros h; cbn [append_all].
  - intros [= <-] _. reflexivity.
  - unfold append at 1. cbv zeta.
    destruct (is_header_name k); [|discriminate].
    destruct (is_header_value (normalize v)); [|discriminate]. cbn [negb].
    intros Hall Hno. rewrite (IH _ Hall) by (intros e He; apply Hno; now right).
    unfold lookup. rewrite filter_app.
    rewrite (filter_cons_False _ (lowercase k, normalize v)).
    + now rewrite app_nil_r.
    + rewrite same_name_stored. pose proof (Hno (k, v) ltac:(left)) as Hm.
      cbn [fst] in Hm. rewrite Hm. discriminate.
Qed.

(** A name that is alone among the keys has one entry. *)
Lemma entries_named_alone n v es :
  NoDup es.*1 -> (n, v) ∈ es ->
  (forall k, k ∈ es.*1 -> names_match n k = true -> k = n) ->
  entries_named n es = [(n, v)].
Proof.
  unfold entries_named.
  induction es as [|[k x] es IH]; [intros _ Hin; now apply elem_of_nil in Hin|].
  cbn [fmap list_fmap fst]. intros Hnd Hin Halone.
  apply NoDup_cons in Hnd as [Hk Hnd].
  assert (forall k', k' ∈ es.*1 -> names_match n k' = true -> k' = n) as Halone'
    by (intros k' Hk'; apply Halone; now right).
  apply elem_of_cons in Hin as [[= <- <-]|Hin].
  - rewrite filter_cons_True by (cbn [fst]; unfold names_match; apply String.eqb_refl).
    f_equal. apply elem_of_nil_inv. intros [k' x'] Hf.
    apply list_elem_of_filter in Hf as [Hm Hin]. cbn [fst] in Hm.
    assert (k' ∈ es.*1) as Hk' by (eapply list_elem_of_fmap_2'; [eassumption|reflexivity]).
    rewrite (Halone' k' Hk' Hm) in Hk'. contradiction.
  - assert (k <> n) as Hne.
    { intros ->. apply Hk. eapply list_elem_of_fmap_2'; [eassumption|reflexivity]. }
    rewrite filter_cons_False.
    + now apply IH.
    + cbn [fst]. intros Hm. apply Hne. apply Halone; [left|exact Hm].
Qed.

Lemma entries_named_none n es :
  (forall k, k ∈ es.*1 -> names_match n k = false) -> entries_named n es = [].
Proof.
  intros Hno. apply elem_of_nil_inv. intros [k v] Hf.
  apply list_elem_of_filter in Hf as [Hm Hin]. cbn [fst] in Hm.
  rewrite Hno in Hm; [discriminate|].
  eapply list_elem_of_fmap_2'; [eassumption|reflexivity].
Qed.

End HeaderListFacts.

(** ** One-time payment headers (C2) *)

Section PendingHeaders.
Context `{Externals}.

Import AuthRefreshTransportWrapper.

(** A name is alone among some names when none of them differs from it in
    the case of its letters only. *)
Definition alone_among (k : string) (names : list string) : Prop :=
  forall k', k' ∈ names -> Fetch.names_match k k' = true -> k' = k.

(** No name among some names is the header name [k]. *)
Definition unused_among (k : string) (names : list string) : Prop :=
  forall k', k' ∈ names -> Fetch.names_match k k' = false.

Lemma alone_among_check k names :
  forallb (fun k' => implb (Fetch.names_match k k') (String.eqb k' k)) names = true ->
  alone_among k names.
Proof.
  intros Hall k' Hin Hm. rewrite forallb_forall in Hall.
  apply list_elem_of_In in Hin. specialize (Hall k' Hin). rewrite Hm in Hall.
  now apply String.eqb_eq.
Qed.

Lemma unused_among_check k names :
  forallb (fun k' => negb (Fetch.names_match k k')) names = true -> unused_among k names.
Proof.
  intros Hall k' Hin. rewrite forallb_forall in Hall.
  apply list_elem_of_In in Hin. specialize (Hall k' Hin). now apply negb_true_iff.
Qed.

Lemma fresh_keys token now fresh :
  generateFreshAuthHeaders token now = Ret fresh ->
  StringRecord.keys fresh
  = ["X-AgentAuth-Address"; "X-AgentAuth-Signature"; "X-AgentAuth-Payload"].
Proof.
  unfold generateFreshAuthHeaders, mbind, completion_bind, bind.
  destruct (deriveAddress token); [|discriminate].
  destruct (signPayload now token); [|discriminate].
  intros [= <-]. reflexivity.
Qed.

Lemma interceptFetch_post w now input i :
  method i = Some "POST" ->
  interceptFetch w now input (Some i) =
  match generateFreshAuthHeaders (token w) now with
  | Throw e => (w, Throw e)
  | Ret freshHeaders =>
      (snd (merge freshHeaders w), rebuild (fst (merge freshHeaders w)) input i)
  end.
Proof.
  intros Hm. unfold interceptFetch. rewrite Hm.
  rewrite bool_decide_eq_true_2 by reflexivity.
  destruct (generateFreshAuthHeaders (token w) now); [|reflexivity].
  destruct (merge a w). reflexivity.
Qed.

(** Requests other than POST leave the wrapper, and the slot, as they are. *)
Lemma interceptFetch_other w now input init :
  (init ≫= method) <> Some "POST" ->
  interceptFetch w now input init = (w, Ret (passthrough input init)).
Proof.
  intros Hm. unfold interceptFetch. destruct init as [i|]; [|reflexivity].
  rewrite bool_decide_eq_false_2 by exact Hm. reflexivity.
Qed.

(** A POST that is handed on: the fresh headers were made, the [Headers]
    object was built from the headers of the request and took one [set] for
    each entry of [finalHeaders]. *)
Lemma interceptFetch_sent w now input i call :
  method i = Some "POST" ->
  snd (interceptFetch w now input (Some i)) = Ret call ->
  exists fresh own sent,
    generateFreshAuthHeaders (token w) now = Ret fresh /\
    fst (interceptFetch w now input (Some i)) = snd (merge fresh w) /\
    Fetch.create (headers i) = Ret own /\
    Fetch.set_all (StringRecord.entries (fst (merge fresh w))) own = Ret sent /\
    call = {| input := input; init_method := method i; init_body := body i;
              init_headers := Rebuilt sent |}.
Proof.
  intros Hm. rewrite (interceptFetch_post _ _ _ _ Hm).
  destruct (generateFreshAuthHeaders (token w) now) as [fresh|]; [|discriminate].
  cbn [fst snd]. unfold rebuild, mbind, completion_bind, bind.
  destruct (Fetch.create (headers i)) as [own|]; [|discriminate].
  destruct (Fetch.set_all _ own) as [sent|] eqn:Hs; [|discriminate].
  intros [= <-]. exists fresh, own, sent. repeat split; auto.
Qed.

(** What one POST sets on the request *)
Definition merged (fresh : StringRecord.t) (w : AuthRefreshTransportWrapper.t)
  : StringRecord.t :=
  fst (merge fresh w).

Definition merged_names (fresh : StringRecord.t) (w : AuthRefreshTransportWrapper.t)
  : list string :=
  StringRecord.keys fresh ++ StringRecord.keys (baseCustomHeaders w) ++
  from_option StringRecord.keys [] (pendingPaymentHeaders w).

Lemma NoDup_merged fresh w : NoDup (StringRecord.keys (merged fresh w)).
Proof.
  unfold merged, merge. cbv zeta.
  destruct (pendingPaymentHeaders w); cbn [fst]; apply NoDup_keys_spread.
Qed.

Lemma elem_of_merged fresh w k :
  k ∈ StringRecord.keys (merged fresh w) -> k ∈ merged_names fresh w.
Proof.
  unfold merged, merge, merged_names. cbv zeta.
  destruct (pendingPaymentHeaders w) as [pending|]; cbn [fst from_option];
    rewrite ?elem_of_keys_spread, !elem_of_app; [tauto|].
  rewrite elem_of_nil. tauto.
Qed.

(** A key that is alone among the names of a POST is carried by the request
    with the value the merged record has for it. *)
Lemma merged_alone_is_carried fresh w own sent k v :
  Fetch.set_all (StringRecord.entries (merged fresh w)) own = Ret sent ->
  merged fresh w !! k = Some v ->
  alone_among k (merged_names fresh w) ->
  Fetch.get sent k = Ret (Some (Fetch.normalize v)).
Proof.
  intros Hset Hl Halone.
  pose proof (lookup_elem_of_entries _ _ _ Hl) as Hin.
  unfold Fetch.get.
  pose proof (set_all_names _ _ _ (k, v) Hset Hin) as Hname. cbn [fst] in Hname.
  rewrite Hname. f_equal.
  rewrite (lookup_set_all _ _ _ k Hset).
  rewrite (entries_named_alone k v); [reflexivity | apply NoDup_merged | exact Hin |].
  intros k' Hk' Hm. apply Halone; [|exact Hm]. now apply elem_of_merged.
Qed.

Lemma merged_staged fresh w staged k v :
  NoDup (StringRecord.keys staged) ->
  staged !! k = Some v ->
  merged fresh (setPaymentHeadersForNextRequest staged w) !! k = Some v.
Proof.
  intros Hnd Hl. unfold merged, merge, setPaymentHeadersForNextRequest. cbv zeta.
  cbn [pendingPaymentHeaders baseCustomHeaders fst].
  rewrite lookup_spread, Hl; [reflexivity | apply NoDup_keys_spread | exact Hnd].
Qed.

(** C2 (amended). Stage a one-time header set, then send two POST requests
    that are both handed on.  The first send empties the slot before the
    request is built, and its request carries every staged header whose name
    is alone among the fresh, static and staged names, with the value
    stripped of surrounding whitespace.  The second send is the one of a
    wrapper on which nothing was staged, and its request has no header of a
    staged name that the fresh headers, the static headers and the request
    itself do not use. *)
Theorem staged_headers_are_sent_once
  (w : AuthRefreshTransportWrapper.t) (staged : StringRecord.t)
  (now1 now2 input1 input2 : string) (init1 init2 : RequestInit)
  (call1 call2 : FetchCall) :
  method init1 = Some "POST" -> method init2 = Some "POST" ->
  NoDup (StringRecord.keys staged) ->
  let first :=
    interceptFetch (setPaymentHeadersForNextRequest staged w) now1 input1 (Some init1) in
  let second := interceptFetch (fst first) now2 input2 (Some init2) in
  snd first = Ret call1 -> snd second = Ret call2 ->
  pendingPaymentHeaders (fst first) = None /\
  second = interceptFetch (clear w) now2 input2 (Some init2) /\
  exists fresh1 fresh2 sent1 sent2,
    generateFreshAuthHeaders (token w) now1 = Ret fresh1 /\
    generateFreshAuthHeaders (token w) now2 = Ret fresh2 /\
    init_headers call1 = Rebuilt sent1 /\
    init_headers call2 = Rebuilt sent2 /\
    (forall k v,
       staged !! k = Some v ->
       alone_among k (merged_names fresh1 (setPaymentHeadersForNextRequest staged w)) ->
       Fetch.get sent1 k = Ret (Some (Fetch.normalize v))) /\
    (forall k,
       k ∈ StringRecord.keys staged ->
       unused_among k (merged_names fresh2 (clear w) ++
                       from_option (fmap fst) [] (headers init2)) ->
       Fetch.get sent2 k = Ret None).
Proof.
  intros Hm1 Hm2 Hnd first second Hfirst Hsecond.
  destruct (interceptFetch_sent _ _ _ _ _ Hm1 Hfirst)
    as (fresh1 & own1 & sent1 & Hf1 & Hw1 & Hown1 & Hset1 & Hc1).
  assert (fst first = clear w) as Hclear by (subst first; rewrite Hw1; reflexivity).
  assert (second = interceptFetch (clear w) now2 input2 (Some init2)) as Heq
    by (subst second; now rewrite Hclear).
  rewrite Heq in Hsecond.
  destruct (interceptFetch_sent _ _ _ _ _ Hm2 Hsecond)
    as (fresh2 & own2 & sent2 & Hf2 & Hw2 & Hown2 & Hset2 & Hc2).
  split; [now rewrite Hclear|]. split; [exact Heq|].
  exists fresh1, fresh2, sent1, sent2.
  split; [exact Hf1|]. split; [exact Hf2|].
  split; [now rewrite Hc1|]. split; [now rewrite Hc2|]. split.
  - intros k v Hl Halone.
    apply (merged_alone_is_carried fresh1 _ own1 sent1 k v Hset1); [|exact Halone].
    now apply merged_staged.
  - intros k Hk Hunused.
    destruct (proj1 (list_elem_of_fmap _ _ _) Hk) as ([k0 v] & -> & Hin). cbn [fst].
    assert (Fetch.is_header_name k0 = true) as Hname.
    { change k0 with (fst (k0, v)). apply (set_all_names _ _ _ (k0, v) Hset1).
      apply lookup_elem_of_entries, merged_staged; [exact Hnd|].
      now apply elem_of_lookup_entry. }
    unfold Fetch.get. rewrite Hname. f_equal.
    rewrite (lookup_set_all _ _ _ k0 Hset2).
    rewrite entries_named_none.
    + cbn [last]. destruct (headers init2) as [entries|]; cbn [Fetch.create] in Hown2.
      * rewrite (lookup_append_all _ _ _ k0 Hown2); [reflexivity|].
        intros e He. apply Hunused. apply elem_of_app. right. cbn [from_option].
        now apply list_elem_of_fmap_2.
      * now injection Hown2 as <-.
    + intros k' Hk'. apply Hunused. apply elem_of_app. left.
      now apply elem_of_merged.
Qed.

End PendingHeaders.

(** ** Transport negotiation (C3) *)

Section Negotiation.

Import Negotiator.

(** The kind a strategy tries first, and the other one *)
Definition primary (strategy : TransportStrategy) : TransportKind :=
  match strategy with
  | SseOnly | SseFirst => SSE
  | HttpOnly | HttpFirst => HTTP
  end.


(** The kinds started, in order *)
Definition started (tr : list event) : list TransportKind :=
  omap (fun e => match e with Start k => Some k | _ => None end) tr.

#[local] Instance kind_eq_dec : EqDecision TransportKind.
Proof. solve_decision. Defined.

#[local] Instance event_eq_dec : EqDecision event.
Proof. solve_decision. Defined.

(** How often the fallback was recorded *)
Definition fallbacks (tr : list event) : nat :=
  length (filter (fun e => e = Fallback) tr).



Lemma connect_unfold ep token customHeaders strategy st :
  connectToRemoteServer ep token customHeaders strategy st =
  match attempt ep token customHeaders strategy st with
  | (Settled r, st') => (r, st')
  | (Recurse strategy', st') => connectToRemoteServer ep token customHeaders strategy' st'
  end.
Proof.
  funelim (connectToRemoteServer ep token customHeaders strategy st);
    match goal with E : attempt _ _ _ _ _ = _ |- _ => rewrite E end; reflexivity.
Qed.

Lemma started_snoc tr e :
  started (tr ++ [e]) = started tr ++ match e with Start k => [k] | _ => [] end.
Proof. unfold started. rewrite omap_app. destruct e; reflexivity. Qed.

Lemma fallbacks_snoc tr e :
  fallbacks (tr ++ [e]) = fallbacks tr + (if decide (e = Fallback) then 1 else 0).
Proof.
  unfold fallbacks. rewrite filter_app, length_app. f_equal.
  rewrite filter_cons. destruct (decide (e = Fallback)); reflexivity.
Qed.



End Negotiation.

Section NegotiationInvariant.
Import Negotiator.

(** What one activation does to the ledger: it leaves the record count as it
    is, or it records the fallback, which it only does when none was
    recorded before. *)
Lemma on_connect_error_fallbacks strategy st error o st' :
  on_connect_error strategy st error = (o, st') ->
  (fallbacks (trace st') = fallbacks (trace st) /\
   fallback_recorded st' = fallback_recorded st) \/
  (fallback_recorded st = false /\ fallback_recorded st' = true /\
   fallbacks (trace st') = S (fallbacks (trace st))).
Proof.
  unfold on_connect_error, shouldAttemptFallback.
  destruct (read_message error); [|intros [= <- <-]; now left].
  destruct (is_first strategy && negb (fallback_recorded st) && isProtocolLikeError error)
    eqn:Hc; [|intros [= <- <-]; now left].
  intros [= <- <-]. right.
  apply andb_prop in Hc as [Hc _]. apply andb_prop in Hc as [_ Hc].
  apply negb_true_iff in Hc. split; [exact Hc|]. split; [apply fallback_recorded_record|].
  cbn [record_fallback trace]. rewrite fallbacks_snoc, decide_True by reflexivity. lia.
Qed.

Lemma fallbacks_log e st :
  e <> Fallback -> fallbacks (trace (log_event e st)) = fallbacks (trace st).
Proof.
  intros Hne. cbn [log_event trace]. rewrite fallbacks_snoc, decide_False by exact Hne. lia.
Qed.

Lemma attempt_fallbacks ep token customHeaders strategy st o st' :
  attempt ep token customHeaders strategy st = (o, st') ->
  (fallbacks (trace st') = fallbacks (trace st) /\
   fallback_recorded st' = fallback_recorded st) \/
  (fallback_recorded st = false /\ fallback_recorded st' = true /\
   fallbacks (trace st') = S (fallbacks (trace st))).
Proof.
  unfold attempt.
  set (sse := match strategy with SseOnly => true | SseFirst => negb (fallback_recorded st)
                                  | _ => false end).
  set (http := match strategy with HttpOnly => true | HttpFirst => negb (fallback_recorded st)
                                   | _ => false end).
  destruct sse.
  { destruct (start ep (trace st) SSE).
    - intros Hc. apply on_connect_error_fallbacks in Hc.
      rewrite fallbacks_log, fallback_recorded_log in Hc by discriminate. exact Hc.
    - intros [= <- <-]. left.
      rewrite fallbacks_log, fallback_recorded_log by discriminate. auto. }
  destruct http; [|intros [= <- <-]; now left].
  destruct (start ep (trace st) HTTP).
  { intros Hc. apply on_connect_error_fallbacks in Hc.
    rewrite fallbacks_log, fallback_recorded_log in Hc by discriminate. exact Hc. }
  destruct (probe ep (trace (log_event (Start HTTP) st))) as [probeError|].
  2:{ intros [= <- <-]. left.
      rewrite !fallbacks_log, !fallback_recorded_log by discriminate. auto. }
  assert (forall e, on_connect_error strategy (log_event Probe (log_event (Start HTTP) st)) e
                    = (o, st') ->
            (fallbacks (trace st') = fallbacks (trace st) /\
             fallback_recorded st' = fallback_recorded st) \/
            (fallback_recorded st = false /\ fallback_recorded st' = true /\
             fallbacks (trace st') = S (fallbacks (trace st)))) as Herr.
  { intros e Hc. apply on_connect_error_fallbacks in Hc.
    rewrite !fallbacks_log, !fallback_recorded_log in Hc by discriminate. exact Hc. }
  destruct (read_message probeError); [|apply Herr].
  destruct (shouldAttemptFallback strategy _ && isProtocolLikeError probeError) eqn:Hc;
    [|apply Herr].
  intros [= <- <-]. right.
  apply andb_prop in Hc as [Hc _]. unfold shouldAttemptFallback in Hc.
  apply andb_prop in Hc as [_ Hc]. apply negb_true_iff in Hc.
  rewrite !fallback_recorded_log in Hc.
  split; [exact Hc|]. split; [apply fallback_recorded_record|].
  cbn [record_fallback trace]. rewrite fallbacks_snoc, decide_True by reflexivity.
  rewrite !fallbacks_log by discriminate. lia.
Qed.

(** At most one fallback per logical connection, whatever the endpoint
    does: a connection that starts with a fresh ledger records the fallback
    at most once, one that starts with the fallback recorded never again. *)
Lemma at_most_one_fallback ep token customHeaders strategy st :
  let st' := snd (connectToRemoteServer ep token customHeaders strategy st) in
  fallbacks (trace st') <=
    fallbacks (trace st) + (if fallback_recorded st then 0 else 1) /\
  (fallback_recorded st = true -> fallback_recorded st' = true).
Proof.
  cbv zeta.
  funelim (connectToRemoteServer ep token customHeaders strategy st).
  - match goal with E : attempt _ _ _ _ _ = (Settled _, _) |- _ =>
      destruct (attempt_fallbacks _ _ _ _ _ _ _ E) as [[E1 E2]|(E1 & E2 & E3)] end;
      cbn [snd].
    + rewrite E1, E2. split; [destruct (fallback_recorded st); lia | auto].
    + rewrite E1, E2, E3. split; [lia | auto].
  - match goal with IH : _ /\ _ |- _ => destruct IH as [IH1 IH2] end.
    match goal with E : attempt _ _ _ _ _ = (Recurse _, _) |- _ =>
      destruct (attempt_fallbacks _ _ _ _ _ _ _ E) as [[E1 E2]|(E1 & E2 & E3)] end.
    + rewrite E1, E2 in *. split; [exact IH1 | exact IH2].
    + rewrite E2, E3 in IH1. rewrite E1. split; [lia | discriminate].
Qed.

End NegotiationInvariant.

(** ** Pass-through of the proxy (C1) *)

Section PassThrough.
Context `{Externals}.
Variable processPaymentRequired :
  PaymentHandler.t -> value -> option value -> completion value.

Import McpProxy.

(** A message from the local side carries no payment indicators for the
    proxy when there is no payment handler or [hasPaymentAuthorization]
    answers [false]. *)
Definition no_authorization (st : McpProxy.t) (message : value) : Prop :=
  paymentHandler st = None \/
  PaymentHandler.hasPaymentAuthorization message = Ret false.

(** A message from the remote side carries none when there is no payment
    handler or no protocol detects a payment requirement. *)
Definition no_challenge (st : McpProxy.t) (message : value) : Prop :=
  paymentHandler st = None \/
  exists handler, paymentHandler st = Some handler /\
                  PaymentHandler.isPaymentRequired handler message = Ret false.

Lemma has_in_get k v b k' : has_in k v = Ret b -> exists x, get v k' = Ret x.
Proof.
  destruct v; try discriminate; intros _; cbn [get].
  - destruct (String.eqb k' "length"); eauto. destruct (index_of_key k'); eauto.
  - destruct (lookup_field k' fields); eauto.
Qed.

Lemma onServerMessage_passthrough st message b :
  has_in "method" message = Ret b ->
  no_challenge st message ->
  onServerMessage processPaymentRequired st message = Ret (st, [SendToClient message]).
Proof.
  intros Hin Hno. unfold onServerMessage, mbind, completion_bind, bind. rewrite Hin.
  destruct (has_in_get _ _ _ "method" Hin) as [x Hx].
  destruct (has_in_get _ _ _ "id" Hin) as [y Hy].
  rewrite Hx, Hy.
  assert (forall A (k : completion A),
            match (if b then Ret x else Ret y) with Ret _ => k | Throw e => Throw e end = k)
    as -> by (intros; destruct b; reflexivity).
  destruct Hno as [->|(handler & -> & ->)]; reflexivity.
Qed.

Lemma onClientMessage_rest_forward st message :
  no_authorization st message ->
  (match paymentHandler st with
   | None => Ret (st, [SendToServer message])
   | Some handler =>
       authorized ← PaymentHandler.hasPaymentAuthorization message;
       if negb (authorized : bool) then Ret (st, [SendToServer message]) else
       result ← PaymentHandler.processPaymentAuthorization handler message;
       match result with
       | PaymentHandler.AuthError error =>
           if truthy (VStr error) then
             errorResponse ← authorization_error_response message error;
             Ret (st, [SendToClient errorResponse])
           else Ret (st, [SendToServer message])
       | PaymentHandler.AuthHeaders headers =>
           match transportToServer st with
           | Staging w =>
               Ret (set_transportToServer
                      (Staging (AuthRefreshTransportWrapper.setPaymentHeadersForNextRequest headers w))
                      st,
                    [SendToServer message])
           | Plain => Ret (st, [SendToServer message])
           end
       end
   end) = Ret (st, [SendToServer message]).
Proof.
  intros [Hn|Hn].
  - rewrite Hn. reflexivity.
  - destruct (paymentHandler st); [|reflexivity].
    unfold mbind, completion_bind, bind. rewrite Hn. reflexivity.
Qed.

(** The rewrite of [clientInfo.name] does not touch what
    [hasPaymentAuthorization] reads. *)
Lemma hasPaymentAuthorization_renamed mfs pfs clientInfo :
  lookup_field "params" mfs = Some (VObj pfs) ->
  PaymentHandler.hasPaymentAuthorization
    (VObj (set_field "params" (VObj (set_field "clientInfo" clientInfo pfs)) mfs))
  = PaymentHandler.hasPaymentAuthorization (VObj mfs).
Proof.
  intros Hp. unfold PaymentHandler.hasPaymentAuthorization.
  cbn [truthy negb typeof String.eqb Ascii.eqb Bool.eqb has_in get].
  rewrite lookup_set_field_eq, Hp.
  rewrite !bool_decide_eq_true_2 by eauto.
  unfold mbind, completion_bind, bind. cbn [negb truthy get].
  rewrite lookup_set_field_ne by discriminate. reflexivity.
Qed.

Lemma no_authorization_renamed st mfs pfs clientInfo :
  lookup_field "params" mfs = Some (VObj pfs) ->
  no_authorization st (VObj mfs) ->
  no_authorization st
    (VObj (set_field "params" (VObj (set_field "clientInfo" clientInfo pfs)) mfs)).
Proof.
  intros Hp [Hn|Hn]; [now left|right].
  now rewrite hasPaymentAuthorization_renamed.
Qed.

Lemma onClientMessage_initialize_forward st message method forwarded :
  has_in "method" message = Ret true ->
  get message "method" = Ret method ->
  is_str method "initialize" = true ->
  rename_client message = Ret forwarded ->
  no_authorization st forwarded ->
  snd (onClientMessage st message) = Ret [SendToServer forwarded].
Proof.
  intros Hin Hm Hinit Hren Hna.
  unfold onClientMessage. rewrite Hin.
  unfold onClientMessage_rest. unfold mbind at 1, completion_bind, bind.
  rewrite Hm. cbn [andb]. rewrite Hinit, Hren.
  unfold mbind at 1. cbv zeta.
  rewrite onClientMessage_rest_forward; [reflexivity|].
  destruct Hna as [Hna|Hna]; [left; exact Hna|right; exact Hna].
Qed.

Lemma onClientMessage_initialize_throw st message method e :
  has_in "method" message = Ret true ->
  get message "method" = Ret method ->
  is_str method "initialize" = true ->
  rename_client message = Throw e ->
  snd (onClientMessage st message) = Throw e.
Proof.
  intros Hin Hm Hinit Hren.
  unfold onClientMessage. rewrite Hin.
  unfold onClientMessage_rest. unfold mbind at 1, completion_bind, bind.
  rewrite Hm. cbn [andb]. rewrite Hinit, Hren. reflexivity.
Qed.

(** C1 (amended). A message without payment indicators is forwarded as it
    was received, in both directions, except for a request of the local
    side whose method is [initialize].  Such a request is forwarded as it
    was received when its [params.clientInfo] is falsy or an array; it is
    forwarded with [clientInfo.name] extended by
    [" (via agentauth-mcp 0.1.0)"], and nothing else changed, when
    [params.clientInfo] is an object; and it is not forwarded at all, the
    handler ending in a [TypeError], when [params] is missing or [null] or
    [params.clientInfo] is a truthy primitive. *)
Theorem passthrough_except_initialize (st : McpProxy.t) (message : value) (hasMethod : bool) :
  has_in "method" message = Ret hasMethod ->
  (no_challenge st message ->
   onServerMessage processPaymentRequired st message = Ret (st, [SendToClient message])) /\
  (forall method,
     get message "method" = Ret method ->
     hasMethod && is_str method "initialize" = false ->
     no_authorization st message ->
     snd (onClientMessage st message) = Ret [SendToServer message]) /\
  (forall method,
     get message "method" = Ret method ->
     hasMethod && is_str method "initialize" = true ->
     no_authorization st message ->
     exists params,
       get message "params" = Ret params /\
       (nullish params = true -> snd (onClientMessage st message) = Throw TypeError) /\
       (nullish params = false ->
        exists clientInfo,
          get params "clientInfo" = Ret clientInfo /\
          (truthy clientInfo = false ->
           snd (onClientMessage st message) = Ret [SendToServer message]) /\
          (forall items, clientInfo = VArr items ->
           snd (onClientMessage st message) = Ret [SendToServer message]) /\
          (forall cfs, clientInfo = VObj cfs ->
           exists mfs pfs name,
             message = VObj mfs /\
             lookup_field "params" mfs = Some (VObj pfs) /\
             lookup_field "clientInfo" pfs = Some (VObj cfs) /\
             get (VObj cfs) "name" = Ret name /\
             snd (onClientMessage st message) =
               Ret [SendToServer
                      (VObj (set_field "params"
                               (VObj (set_field "clientInfo"
                                        (VObj (set_field "name"
                                                 (VStr (ToString name +:+
                                                        " (via agentauth-mcp 0.1.0)")) cfs))
                                        pfs)) mfs))]) /\
          (truthy clientInfo = true -> typeof clientInfo <> "object" ->
           snd (onClientMessage st message) = Throw TypeError))).
Proof.
  intros Hin. split; [now apply onServerMessage_passthrough with (b := hasMethod)|].
  split.
  - intros method Hm Hno Hna.
    unfold onClientMessage. rewrite Hin.
    unfold onClientMessage_rest. unfold mbind at 1, completion_bind, bind.
    assert ((if hasMethod then get message "method" else Ret VUndefined)
            = Ret (if hasMethod then method else VUndefined)) as ->
      by (destruct hasMethod; [exact Hm | reflexivity]).
    assert (hasMethod && is_str (if hasMethod then method else VUndefined) "initialize" = false)
      as -> by (destruct hasMethod; [exact Hno | reflexivity]).
    unfold mbind at 1. cbv zeta.
    rewrite onClientMessage_rest_forward; [reflexivity|].
    destruct Hna as [Hna|Hna]; [left|right; exact Hna].
    destruct hasMethod; exact Hna.
  - intros method Hm Hinit Hna.
    apply andb_prop in Hinit as [-> Hinit].
    destruct (has_in_get _ _ _ "params" Hin) as [params Hp].
    exists params. split; [exact Hp|]. split.
    + intros Hnull.
      apply (onClientMessage_initialize_throw st message method TypeError Hin Hm Hinit).
      unfold rename_client, mbind, completion_bind, bind. rewrite Hp.
      destruct params; try discriminate; reflexivity.
    + intros Hnn.
      assert (exists clientInfo, get params "clientInfo" = Ret clientInfo) as [clientInfo Hc].
      { destruct params; try discriminate; cbn [get]; eauto.
        - destruct (lookup_field "clientInfo" fields); eauto. }
      exists clientInfo. split; [exact Hc|].
      split; [|split; [|split]].
      * intros Hfalsy.
        apply (onClientMessage_initialize_forward st message method message Hin Hm Hinit);
          [|exact Hna].
        unfold rename_client, mbind, completion_bind, bind. rewrite Hp, Hc, Hfalsy.
        reflexivity.
      * intros items ->.
        apply (onClientMessage_initialize_forward st message method message Hin Hm Hinit);
          [|exact Hna].
        unfold rename_client, mbind, completion_bind, bind. rewrite Hp, Hc.
        cbn [truthy negb get].
        destruct (String.eqb "name" "length"); reflexivity.
      * intros cfs ->.
        destruct message as [| | | | | |mfs]; try discriminate.
        destruct params as [| | | | | |pfs]; try discriminate.
        cbn [get] in Hp, Hc.
        destruct (lookup_field "params" mfs) as [p|] eqn:E1; [|discriminate].
        injection Hp as ->.
        destruct (lookup_field "clientInfo" pfs) as [c|] eqn:E2; [|discriminate].
        injection Hc as ->.
        exists mfs, pfs,
          (match lookup_field "name" cfs with Some x => x | None => VUndefined end).
        split; [reflexivity|]. split; [exact E1|]. split; [exact E2|].
        split; [cbn [get]; destruct (lookup_field "name" cfs); reflexivity|].
        apply (onClientMessage_initialize_forward st (VObj mfs) method _ Hin Hm Hinit).
        -- unfold rename_client, mbind, completion_bind, bind. cbn [get].
           rewrite E1. cbn [get]. rewrite E2. cbn [truthy negb get].
           destruct (lookup_field "name" cfs); reflexivity.
        -- now apply no_authorization_renamed.
      * intros Htruthy Hty.
        apply (onClientMessage_initialize_throw st message method TypeError Hin Hm Hinit).
        unfold rename_client, mbind, completion_bind, bind. rewrite Hp, Hc, Htruthy.
        cbn [negb].
        destruct clientInfo; try discriminate; cbn [get typeof] in *;
          try reflexivity; try congruence.
Qed.

End PassThrough.

(** * Further properties of the code *)

(** ** Property reads *)

Section ObjectFacts.
(** A property read that succeeds on a value succeeds for every key. *)
Lemma has_in_get_any v k x k' : get v k = Ret x -> exists y, get v k' = Ret y.
Proof.
  destruct v; try discriminate; intros _; cbn [get]; eauto.
  - destruct (String.eqb k' "length"); eauto.
    destruct (index_of_key k'); eauto. destruct (String.get n s); eauto.
  - destruct (String.eqb k' "length"); eauto. destruct (index_of_key k'); eauto.
  - destruct (lookup_field k' fields); eauto.
Qed.
End ObjectFacts.

(** ** The payload of a response (lib/mcpUtils.ts) *)

Section ResponseData.
Context `{Externals}.

(** A tool result in MCP content format whose first item is the text [t],
    in a message without a truthy [error] *)
Definition text_content_result (message : value) (t : string) : Prop :=
  exists mfs rfs ifs rest,
    message = VObj mfs /\
    (forall e, lookup_field "error" mfs = Some e -> truthy e = false) /\
    lookup_field "result" mfs = Some (VObj rfs) /\
    lookup_field "content" rfs = Some (VArr (VObj ifs :: rest)) /\
    lookup_field "type" ifs = Some (VStr "text") /\
    lookup_field "text" ifs = Some (VStr t).

Lemma extract_unfold_error fs :
  extractMCPResponseData (VObj fs) =
  match lookup_field "error" fs with
  | Some error =>
      if truthy error then
        match get error "data" with
        | Ret data => if truthy data then data else error
        | Throw _ => VNull
        end
      else
        match lookup_field "result" fs with
        | Some result =>
            if truthy result then
              if isMCPContentFormat result
              then try_or VNull (extractFromMCPContent result) else result
            else VNull
        | None => VNull
        end
  | None =>
      match lookup_field "result" fs with
      | Some result =>
          if truthy result then
            if isMCPContentFormat result
            then try_or VNull (extractFromMCPContent result) else result
          else VNull
      | None => VNull
      end
  end.
Proof.
  unfold extractMCPResponseData, extractMCPResponseData_body.
  unfold mbind, completion_bind, bind, fmap, completion_fmap, bind.
  cbn [has_in Object_keys nullish get].
  destruct (lookup_field "error" fs) as [error|] eqn:He;
    destruct (lookup_field "result" fs) as [result|] eqn:Hr;
    rewrite ?bool_decide_eq_true_2 by eauto;
    rewrite ?bool_decide_eq_false_2 by (intros [? ?]; discriminate);
    cbn [try_or];
    repeat match goal with
    | |- context [truthy ?v] => destruct (truthy v) eqn:?; cbn [try_or]
    | |- context [get ?v ?k] => destruct (get v k) eqn:?; cbn [try_or]
    | |- context [isMCPContentFormat ?v] => destruct (isMCPContentFormat v) eqn:?; cbn [try_or]
    end; try reflexivity.
Qed.

(** X1. [extractMCPResponseData] looks at [error] first: when the message
    has a truthy [error], the payload is [error.data] if that is truthy and
    [error] itself otherwise, whatever [result] holds. *)
Theorem error_field_takes_precedence (fs : list (string * value)) (error data : value) :
  lookup_field "error" fs = Some error -> truthy error = true ->
  get error "data" = Ret data ->
  extractMCPResponseData (VObj fs) = if truthy data then data else error.
Proof.
  intros He Ht Hd. rewrite extract_unfold_error, He, Ht, Hd. reflexivity.
Qed.

Lemma text_item_is_content_format rfs ifs rest t :
  lookup_field "content" rfs = Some (VArr (VObj ifs :: rest)) ->
  lookup_field "type" ifs = Some (VStr "text") ->
  lookup_field "text" ifs = Some (VStr t) ->
  isMCPContentFormat (VObj rfs) = true.
Proof.
  intros Hc Hty Ht. unfold isMCPContentFormat, isMCPContentFormat_body.
  unfold mbind, completion_bind, bind. cbn [truthy negb typeof String.eqb get].
  rewrite Hc. cbn. rewrite Hty, Ht. reflexivity.
Qed.

(** The Python-style rewrite of [extractFromMCPContent] *)
Definition pythonified (s : string) : string :=
  replace_all "None" "null"
    (replace_all "False" "false"
       (replace_all "True" "true" (replace_all "'" double_quote s))).

Lemma extractFromMCPContent_text rfs ifs rest t :
  lookup_field "content" rfs = Some (VArr (VObj ifs :: rest)) ->
  lookup_field "text" ifs = Some (VStr t) ->
  extractFromMCPContent (VObj rfs) =
  match parse_tolerant (VStr t) with
  | Ret parsed =>
      match (_ ← Object_keys parsed;
             _ ← has_in "error" parsed;
             err ← get parsed "error";
             data ← get_opt err "data";
             if truthy data then Ret data else Ret parsed) with
      | Ret v => Ret v
      | Throw _ => Ret (VStr t)
      end
  | Throw _ => Ret (VStr t)
  end.
Proof.
  intros Hc Ht. unfold extractFromMCPContent, extractFromMCPContent_body.
  unfold mbind, completion_bind, bind, catch. cbn [get]. rewrite Hc. cbn. rewrite Ht.
  cbn. destruct (parse_tolerant (VStr t)) as [parsed|]; [|reflexivity].
  destruct (Object_keys parsed); [|reflexivity].
  destruct (has_in "error" parsed); [|reflexivity].
  destruct (get parsed "error") as [err|]; [|reflexivity].
  destruct (get_opt err "data") as [data|]; [|reflexivity].
  destruct (truthy data); reflexivity.
Qed.

Lemma extract_text_result message t :
  text_content_result message t ->
  extractMCPResponseData message =
  match parse_tolerant (VStr t) with
  | Ret parsed =>
      match (_ ← Object_keys parsed;
             _ ← has_in "error" parsed;
             err ← get parsed "error";
             data ← get_opt err "data";
             if truthy data then Ret data else Ret parsed) with
      | Ret v => v
      | Throw _ => VStr t
      end
  | Throw _ => VStr t
  end.
Proof.
  intros (mfs & rfs & ifs & rest & -> & Herr & Hres & Hc & Hty & Ht).
  rewrite extract_unfold_error, Hres.
  rewrite (text_item_is_content_format _ _ _ _ Hc Hty Ht).
  rewrite (extractFromMCPContent_text _ _ _ _ Hc Ht).
  cbn [truthy].
  destruct (lookup_field "error" mfs) as [e|] eqn:E.
  - rewrite (Herr e eq_refl).
    destruct (parse_tolerant (VStr t)) as [parsed|]; [|reflexivity].
    destruct (_ ← Object_keys parsed; _); reflexivity.
  - destruct (parse_tolerant (VStr t)) as [parsed|]; [|reflexivity].
    destruct (_ ← Object_keys parsed; _); reflexivity.
Qed.

(** X2. A tool result in MCP content format carries its payload as JSON
    text: when the text of the first item parses to an object, the payload
    is that object, or its [error.data] when the object has a truthy one. *)
Theorem text_content_is_parsed (message : value) (t : string) (pfs : list (string * value)) :
  text_content_result message t ->
  JSON_parse (VStr t) = Ret (VObj pfs) ->
  (lookup_field "error" pfs = None -> extractMCPResponseData message = VObj pfs) /\
  (forall err data,
     lookup_field "error" pfs = Some err -> get_opt err "data" = Ret data ->
     extractMCPResponseData message = if truthy data then data else VObj pfs).
Proof.
  intros Hm Hp. rewrite (extract_text_result _ _ Hm).
  unfold parse_tolerant, catch. rewrite Hp.
  unfold mbind, completion_bind, bind. cbn [Object_keys nullish has_in get].
  split.
  - intros ->. reflexivity.
  - intros err data -> ->. destruct (truthy data); reflexivity.
Qed.

(** X3. When the text of the first content item is neither JSON nor
    Python-style text that the rewrite turns into JSON, the payload is the
    raw text; and no detector, whatever is registered, detects a payment
    requirement in such a message. *)
Theorem unparsable_text_is_returned_raw (message : value) (t : string) (e1 e2 : exn) :
  text_content_result message t ->
  JSON_parse (VStr t) = Throw e1 ->
  JSON_parse (VStr (pythonified t)) = Throw e2 ->
  extractMCPResponseData message = VStr t /\
  forall d, ProtocolDetector.detectProtocol d message = Ret None.
Proof.
  intros Hm H1 H2.
  assert (extractMCPResponseData message = VStr t) as Hex.
  { rewrite (extract_text_result _ _ Hm).
    unfold parse_tolerant, catch, mbind, completion_bind, bind. rewrite H1.
    cbn [as_string]. fold (pythonified t). rewrite H2. reflexivity. }
  split; [exact Hex|].
  intros d. unfold ProtocolDetector.detectProtocol, catch.
  destruct (ProtocolDetector.detectProtocol_body d message) as [r|] eqn:Hb; [|reflexivity].
  revert Hb. unfold ProtocolDetector.detectProtocol_body, mbind, completion_bind, bind.
  destruct (has_in "error" message); [|discriminate].
  destruct (has_in "result" message); [|discriminate].
  destruct (Object_keys message); [|discriminate].
  rewrite Hex. destruct (negb (truthy (VStr t))); [congruence|].
  cbn [has_in]. discriminate.
Qed.

End ResponseData.

(** ** The detector's registry and its order (payments/protocolDetector.ts) *)

Section Registry.
Context `{Externals}.
Import ProtocolDetector.

(** X4. [registerProtocol] binds the name, leaves the other bindings alone,
    keeps the priority order of the names already there (a new name goes
    last), keeps the priority list free of duplicates, and registering
    twice is the same as registering once. *)
Theorem registerProtocol_keeps_priority (name : string) (p : PaymentProtocol) (d : ProtocolDetector.t) :
  protocols (registerProtocol name p d) !! name = Some p /\
  (forall other, other <> name ->
     protocols (registerProtocol name p d) !! other = protocols d !! other) /\
  (exists added, protocolPriority (registerProtocol name p d) = protocolPriority d ++ added /\
                 (added = [] \/ added = [name])) /\
  name ∈ protocolPriority (registerProtocol name p d) /\
  (NoDup (protocolPriority d) -> NoDup (protocolPriority (registerProtocol name p d))) /\
  registerProtocol name p (registerProtocol name p d) = registerProtocol name p d.
Proof.
  unfold registerProtocol; cbn [protocols protocolPriority].
  split; [apply lookup_insert_eq|].
  split; [intros other Hne; apply lookup_insert_ne; congruence|].
  destruct (bool_decide (name ∈ protocolPriority d)) eqn:Hin.
  - apply bool_decide_eq_true in Hin.
    split; [exists []; rewrite app_nil_r; auto|].
    split; [exact Hin|]. split; [auto|].
    rewrite insert_insert_eq. rewrite bool_decide_eq_true_2 by exact Hin. reflexivity.
  - apply bool_decide_eq_false in Hin.
    split; [exists [name]; auto|].
    split; [set_solver|].
    split.
    + intros Hnd. apply NoDup_app. split; [exact Hnd|].
      split; [|apply NoDup_singleton].
      intros x Hx Hx'. apply list_elem_of_singleton in Hx'. subst. contradiction.
    + rewrite insert_insert_eq. rewrite bool_decide_eq_true_2 by set_solver. reflexivity.
Qed.

Lemma try_protocols_first ps names data d :
  try_protocols ps names data = Some d ->
  exists before after,
    names = before ++ name d :: after /\
    forall n q, n ∈ before -> ps !! n = Some q ->
                Protocol.isPaymentRequired q data <> Ret true.
Proof.
  induction names as [|n names IH]; simpl; [discriminate|].
  assert (try_protocols ps names data = Some d ->
          (forall q, ps !! n = Some q -> Protocol.isPaymentRequired q data <> Ret true) ->
          exists before after,
            n :: names = before ++ name d :: after /\
            forall n0 q, n0 ∈ before -> ps !! n0 = Some q ->
                         Protocol.isPaymentRequired q data <> Ret true) as Hstep.
  { intros Hd Hn. destruct (IH Hd) as (before & after & -> & Hall).
    exists (n :: before), after. split; [reflexivity|].
    intros n0 q Hin. apply elem_of_cons in Hin as [->|Hin]; [apply Hn | now apply Hall]. }
  destruct (ps !! n) as [p|] eqn:Hp.
  - destruct (Protocol.isPaymentRequired p data) as [[|]|] eqn:Hq.
    + intros [= <-]. exists [], names. split; [reflexivity|]. intros n0 q Hin. inversion Hin.
    + intros Hd. apply Hstep; [exact Hd|]. intros q [= <-]. congruence.
    + intros Hd. apply Hstep; [exact Hd|]. intros q [= <-]. congruence.
  - intros Hd. apply Hstep; [exact Hd|]. intros q [=].
Qed.

(** X5. A detection is the first match in priority order: the names before
    the detected one are unregistered, or their predicates declined the
    payload or threw. *)
Theorem detection_is_first_match (d : ProtocolDetector.t) (message : value)
  (det : ProtocolDetection) :
  detectProtocol d message = Ret (Some det) ->
  exists before after,
    protocolPriority d = before ++ name det :: after /\
    protocols d !! name det = Some (protocol det) /\
    forall n q, n ∈ before -> protocols d !! n = Some q ->
                Protocol.isPaymentRequired q (extractedData det) <> Ret true.
Proof.
  unfold detectProtocol, catch.
  destruct (detectProtocol_body d message) as [r|] eqn:Hb; [|discriminate].
  apply detectProtocol_body_inv in Hb as [->| ->]; [discriminate|].
  intros [= Hd].
  destruct (try_protocols_sound _ _ _ _ Hd) as (_ & Hreg & _ & Hdata).
  destruct (try_protocols_first _ _ _ _ Hd) as (before & after & Hsplit & Hall).
  exists before, after. rewrite Hdata. auto.
Qed.

(** X6. A payment requirement is only ever detected in a message that is an
    object, on a payload that is an object or an array: a payload that is
    text, a number or a boolean is never handed to a predicate that could
    accept it. *)
Theorem detection_payload_is_structured (d : ProtocolDetector.t) (message : value)
  (det : ProtocolDetection) :
  detectProtocol d message = Ret (Some det) ->
  (exists fs, message = VObj fs) /\
  ((exists fs, extractedData det = VObj fs) \/ (exists items, extractedData det = VArr items)).
Proof.
  unfold detectProtocol, catch.
  destruct (detectProtocol_body d message) as [r|] eqn:Hb; [|discriminate].
  intros [= ->]. revert Hb.
  unfold detectProtocol_body, mbind, completion_bind, bind.
  destruct (has_in "error" message) eqn:Hin; [|discriminate].
  destruct (has_in "result" message); [|discriminate].
  destruct (Object_keys message); [|discriminate].
  destruct (negb (truthy (extractMCPResponseData message))) eqn:Ht; [discriminate|].
  destruct (has_in "x402Version" (extractMCPResponseData message)) eqn:Hx; [|discriminate].
  destruct (has_in "error" (extractMCPResponseData message)); [|discriminate].
  destruct (get (extractMCPResponseData message) "error"); [|discriminate].
  destruct (Object_keys (extractMCPResponseData message)); [|discriminate].
  intros [= Hd]. apply try_protocols_sound in Hd as (_ & _ & _ & ->).
  split.
  - destruct message; try discriminate; eauto.
  - destruct (extractMCPResponseData message); try discriminate; eauto.
Qed.

End Registry.

(** ** What the AgentPay validation accepts (protocols/agentpay-v002.ts) *)

Section Validation.
Context `{Externals}.

Lemma push_if_nil c msg errs : push_if c msg errs = [] -> c = false /\ errs = [].
Proof.
  destruct c; simpl; [|auto]. intros Heq. apply app_eq_nil in Heq as [_ Heq]. discriminate.
Qed.

Lemma usdc_checks_nil data errs :
  AgentPay.usdc_checks data errs = Ret [] ->
  errs = [] /\ (exists len, get data "length" = Ret len /\ is_num len 138 = true) /\
  parseTransaction data = Ret tt.
Proof.
  unfold AgentPay.usdc_checks, mbind, completion_bind, bind.
  destruct (get data "length") as [len|]; [|discriminate].
  destruct (parseTransaction data) as [[]|].
  - intros [= Heq]. apply push_if_nil in Heq as [Hc ->].
    apply negb_false_iff in Hc. eauto.
  - intros [= Heq]. apply app_eq_nil in Heq as [_ Heq]. discriminate.
Qed.

(** X7. What the AgentPay validation accepts: the recipient is an address,
    data and value are hex text, the chain id is 8453, a gas limit is
    given; and a transfer to the USDC contract of Base (in any letter case)
    has data of length 138 that parse as a transfer. *)
Theorem agentpay_validation_sound (template : value) (validation : ValidationResult) :
  AgentPay.validateTransactionTemplate template = Ret validation ->
  Protocol.valid validation = true ->
  Protocol.errors validation = [] /\
  exists to data val chainId gasLimit,
    get template "to" = Ret to /\ truthy to = true /\ isAddress to = true /\
    get template "data" = Ret data /\ truthy data = true /\
    is_0x_hex (ToString data) = true /\
    get template "value" = Ret val /\ truthy val = true /\
    is_0x_hex (ToString val) = true /\
    get template "chainId" = Ret chainId /\ is_num chainId 8453 = true /\
    get template "gasLimit" = Ret gasLimit /\ truthy gasLimit = true /\
    (forall l, to = VStr l -> toLowerCase l = AgentPay.USDC_BASE_LOWER ->
       (exists len, get data "length" = Ret len /\ is_num len 138 = true) /\
       parseTransaction data = Ret tt).
Proof.
  unfold AgentPay.validateTransactionTemplate, mbind, completion_bind, bind.
  destruct (get template "to") as [to|]; [|discriminate].
  destruct (get template "data") as [data|]; [|discriminate].
  destruct (if truthy data && truthy to then _ else _) as [isUsdc|] eqn:Husdc; [|discriminate].
  destruct (if isUsdc then _ else _) as [errs|] eqn:Hchecks; [|discriminate].
  destruct (get template "value") as [val|]; [|discriminate].
  destruct (get template "chainId") as [chainId|]; [|discriminate].
  destruct (get template "gasLimit") as [gasLimit|]; [|discriminate].
  intros [= <-]. cbn [Protocol.valid Protocol.errors]. intros Hv.
  apply bool_decide_eq_true in Hv. split; [exact Hv|].
  apply push_if_nil in Hv as [Hchain Hv]. apply negb_false_iff in Hchain.
  apply push_if_nil in Hv as [Hgas Hv]. apply negb_false_iff in Hgas.
  apply push_if_nil in Hv as [_ Hv].
  apply push_if_nil in Hv as [Hval ->].
  apply orb_false_iff in Hval as [Hval1 Hval2].
  apply negb_false_iff in Hval1, Hval2.
  assert (push_if (negb (truthy data) || negb (is_0x_hex (ToString data)))
            "Invalid transaction data"
            (push_if (negb (truthy to) || negb (isAddress to)) "Invalid recipient address" [])
          = [] /\
          (isUsdc = true ->
           (exists len, get data "length" = Ret len /\ is_num len 138 = true) /\
           parseTransaction data = Ret tt)) as [Hpre Hu].
  { destruct isUsdc.
    - apply usdc_checks_nil in Hchecks as (Hpre & Hlen & Hparse). auto.
    - injection Hchecks as Hpre. split; [exact Hpre | discriminate]. }
  apply push_if_nil in Hpre as [Hdata Hpre].
  apply orb_false_iff in Hdata as [Hd1 Hd2]. apply negb_false_iff in Hd1, Hd2.
  apply push_if_nil in Hpre as [Hto _].
  apply orb_false_iff in Hto as [Ht1 Ht2]. apply negb_false_iff in Ht1, Ht2.
  exists to, data, val, chainId, gasLimit.
  repeat (split; [solve [auto]|]).
  intros l -> Hl. apply Hu.
  rewrite Hd1, Ht1 in Husdc. cbn in Husdc. injection Husdc as <-.
  rewrite Hl. apply String.eqb_refl.
Qed.

End Validation.

(** ** The amount of a repaired transfer *)

Section RepairAmount.
Context `{Externals}.

Lemma drop_str_app a b : drop_str (String.length a) (a +:+ b) = b.
Proof. induction a as [|c a IH]; [reflexivity|]. exact IH. Qed.

Lemma take_str_app a b : take_str (String.length a) (a +:+ b) = a.
Proof.
  unfold take_str. induction a as [|c a IH]; [destruct b; reflexivity|].
  change (String c (substring 0 (String.length a) (a +:+ b)) = String c a). now rewrite IH.
Qed.

Lemma prefix_take p s n x :
  String.prefix p s = true -> String.length p <= n ->
  String.prefix p (take_str n s +:+ x) = true.
Proof.
  unfold take_str. revert s n; induction p as [|a p IH]; intros s n Hp Hn.
  { destruct (substring 0 n s +:+ x); reflexivity. }
  destruct s as [|b s]; [discriminate|].
  destruct n as [|n]; [cbv in Hn; lia|].
  cbn [String.prefix] in Hp.
  change (String.prefix (String a p) (String b (substring 0 n s +:+ x)) = true).
  cbn [String.prefix]. destruct (ascii_dec a b); [|discriminate].
  apply IH; [exact Hp|]. change (S (String.length p) <= S n) in Hn. lia.
Qed.

Definition not_space (c : ascii) : bool := negb (is_js_space c).

Lemma trim_left_not_space s : all_chars not_space s = true -> trim_left s = s.
Proof.
  destruct s as [|c s]; [reflexivity|]. cbn [all_chars trim_left].
  intros Hd. apply andb_prop in Hd as [Hc _]. apply negb_true_iff in Hc. now rewrite Hc.
Qed.

Lemma trim_not_space s : all_chars not_space s = true -> trim s = s.
Proof.
  intros Hd. unfold trim. rewrite (trim_left_not_space s Hd).
  rewrite trim_left_not_space.
  - rewrite rev_str_rev_str. cbn [rev_str]. apply append_empty_r.
  - rewrite all_chars_rev_str, Hd. reflexivity.
Qed.

Lemma digit_of_not_space c d : digit_of c = Some d -> not_space c = true.
Proof.
  unfold digit_of, not_space, is_js_space. cbv zeta.
  destruct ((48 <=? nat_of_ascii c) && (nat_of_ascii c <=? 57)) eqn:E1.
  { intros _. apply andb_prop in E1 as [A B]. apply Nat.leb_le in A, B.
    rewrite negb_true_iff, !orb_false_iff, andb_false_iff, !Nat.leb_gt, !Nat.eqb_neq. lia. }
  destruct ((65 <=? nat_of_ascii c) && (nat_of_ascii c <=? 70)) eqn:E2.
  { intros _. apply andb_prop in E2 as [A B]. apply Nat.leb_le in A, B.
    rewrite negb_true_iff, !orb_false_iff, andb_false_iff, !Nat.leb_gt, !Nat.eqb_neq. lia. }
  destruct ((97 <=? nat_of_ascii c) && (nat_of_ascii c <=? 102)) eqn:E3; [|discriminate].
  intros _. apply andb_prop in E3 as [A B]. apply Nat.leb_le in A, B.
  rewrite negb_true_iff, !orb_false_iff, andb_false_iff, !Nat.leb_gt, !Nat.eqb_neq. lia.
Qed.

Lemma parse_digits_not_space base acc s n :
  parse_digits base acc s = Some n -> all_chars not_space s = true.
Proof.
  revert acc; induction s as [|c s IH]; intros acc; [reflexivity|].
  cbn [parse_digits all_chars].
  destruct (digit_of c) as [d|] eqn:Hd; [|discriminate].
  destruct (d <? base)%Z; [|discriminate].
  intros Hp. rewrite (digit_of_not_space c d Hd). exact (IH _ Hp).
Qed.

Lemma parse_digits_leading_zeros k s :
  parse_digits 16 0 (repeat_str "0" k +:+ s) = parse_digits 16 0 s.
Proof. induction k as [|k IH]; [reflexivity|]. exact IH. Qed.

(** [BigInt] on a hexadecimal literal *)
Lemma StringToBigInt_hex h n :
  h <> "" -> parse_digits 16 0 h = Some n -> StringToBigInt ("0x" +:+ h) = Some n.
Proof.
  intros Hne Hp. unfold StringToBigInt.
  rewrite trim_not_space.
  - change ("0x" +:+ h) with (String "0" (String "x" h)). cbv zeta. cbn.
    destruct h; [congruence | exact Hp].
  - change ("0x" +:+ h) with (String "0" (String "x" h)). cbn [all_chars].
    rewrite (parse_digits_not_space _ _ _ _ Hp). reflexivity.
Qed.

(** X8. The repair keeps the amount: for a truncated transfer whose amount
    digits denote [n], the repaired data have 138 characters, the same
    selector and recipient, and the amount the handler reads back from them
    is [n] in USDC units. *)
Theorem repair_preserves_amount (template : value) (s : string) (n : Z) :
  get template "data" = Ret (VStr s) ->
  startsWith s ERC20_TRANSFER_SELECTOR = true ->
  74 <= String.length s < 138 ->
  parse_digits 16 0 (drop_str 74 s) = Some n ->
  exists fixed fixedData,
    AgentPay.fixTruncatedTransactionData template = Ret fixed /\
    get fixed "data" = Ret (VStr fixedData) /\
    String.length fixedData = 138 /\
    take_str 74 fixedData = take_str 74 s /\
    PaymentHandler.extractAmountFromTransaction_body fixed =
      (units ← formatUnits n 6; Ret (parseFloat units)).
Proof.
  intros Hd Hs Hl Hp.
  pose proof Hd as Hd'.
  apply get_VStr_inv in Hd' as (fs & -> & Hlk); [|discriminate|reflexivity].
  set (tail := drop_str 74 s) in *.
  set (fixedData := take_str 74 s +:+ padStart 64 "0" tail).
  assert (String.length (take_str 74 s) = 74) as Hlt
    by (rewrite length_take_str; lia).
  assert (String.length (padStart 64 "0" tail) = 64) as Hlp
    by (unfold tail; rewrite length_padStart, length_drop_str; lia).
  assert (String.length fixedData = 138) as Hlen
    by (unfold fixedData; rewrite length_append, Hlt, Hlp; reflexivity).
  exists (VObj (set_field "data" (VStr fixedData) fs)), fixedData.
  split.
  { rewrite fix_unfold, Hd. cbn [truthy].
    assert (String.eqb s "" = false) as ->.
    { destruct s; [cbv in Hl; lia | reflexivity]. }
    cbn [negb]. rewrite (proj2 (window_cond s)) by auto. reflexivity. }
  split; [cbn [get]; now rewrite lookup_set_field_eq|].
  split; [exact Hlen|].
  split.
  { unfold fixedData. rewrite <- Hlt at 1. apply take_str_app. }
  unfold PaymentHandler.extractAmountFromTransaction_body.
  unfold mbind at 1, completion_bind, bind. cbn [get]. rewrite lookup_set_field_eq.
  cbn [truthy].
  assert (String.eqb fixedData "" = false) as ->.
  { destruct fixedData; [discriminate Hlen | reflexivity]. }
  cbn [negb as_string]. unfold mbind at 1.
  assert (startsWith fixedData ERC20_TRANSFER_SELECTOR = true) as ->.
  { unfold startsWith, fixedData. apply prefix_take; [exact Hs|]. cbv. lia. }
  assert (slice_last 64 fixedData = padStart 64 "0" tail) as ->.
  { unfold slice_last. rewrite Hlen. change (138 - 64) with 74.
    unfold fixedData. rewrite <- Hlt at 1. apply drop_str_app. }
  unfold BigInt. rewrite (StringToBigInt_hex _ n).
  - reflexivity.
  - intros Heq. rewrite Heq in Hlp. discriminate Hlp.
  - unfold padStart. rewrite parse_digits_leading_zeros. exact Hp.
Qed.

End RepairAmount.

(** ** Detection and extraction of an AgentPay request *)

Section AgentPayDetails.
Context `{Externals}.

(** What makes a value a payment request for AgentPay *)
Definition is_payment_request (v : value) : Prop :=
  exists e c, get v "error" = Ret e /\ get v "code" = Ret c /\
              is_str e "payment_required" || is_num c 402 = true.

Lemma verdicts_agree item :
  match AgentPay.content_item_verdict item with
  | Ret (Some true) =>
      exists parsed, AgentPay.details_item_verdict item = Ret (Some parsed) /\
                     is_payment_request parsed
  | Ret None => AgentPay.details_item_verdict item = Ret None
  | _ => True
  end.
Proof.
  unfold AgentPay.content_item_verdict, AgentPay.details_item_verdict.
  unfold mbind, completion_bind, bind, catch.
  destruct (get item "type") as [ty|]; [|exact I].
  destruct (get item "text") as [text|]; [|exact I].
  destruct (is_str ty "text" && truthy text); [|reflexivity].
  destruct (JSON_parse text) as [parsed|]; [|reflexivity].
  destruct (get parsed "x402Version") as [v|] eqn:Hv.
  - destruct (has_in_get_any parsed "x402Version" v "error" Hv) as [e He].
    destruct (has_in_get_any parsed "x402Version" v "code" Hv) as [c Hc].
    rewrite He, Hc.
    destruct (negb (nullish v)); [exact I|].
    destruct (is_str e "payment_required" || is_num c 402) eqn:Hp; [|reflexivity].
    exists parsed. split; [reflexivity|]. exists e, c. auto.
  - assert (get parsed "error" = Throw e) as ->.
    { destruct parsed; cbn [get] in *; try discriminate; try congruence;
        repeat match goal with
        | H : context [match ?x with _ => _ end] |- _ => destruct x
        end; discriminate. }
    reflexivity.
Qed.

Lemma loops_agree items :
  AgentPay.content_loop items = Ret true ->
  exists parsed, AgentPay.details_loop items = Ret (Some parsed) /\
                 is_payment_request parsed.
Proof.
  induction items as [|item items IH]; [discriminate|].
  cbn [AgentPay.content_loop AgentPay.details_loop].
  unfold mbind, completion_bind, bind.
  pose proof (verdicts_agree item) as Hv.
  destruct (AgentPay.content_item_verdict item) as [[[|]|]|]; try discriminate.
  - intros _. destruct Hv as (parsed & -> & Hp). eauto.
  - rewrite Hv. exact IH.
Qed.

(** X9. What AgentPay detects, it can extract: when [isPaymentRequired]
    holds for a response that is not merely marked with code 402 (without
    the [payment_required] error), [extractPaymentDetails] returns a payment
    request, one with the error [payment_required] or the code 402. *)
Theorem detected_request_has_details (response : value) :
  AgentPay.isPaymentRequired response = Ret true ->
  (forall e c, get response "error" = Ret e -> get response "code" = Ret c ->
               is_num c 402 = true -> is_str e "payment_required" = true) ->
  exists details,
    AgentPay.extractPaymentDetails response = Ret details /\
    is_payment_request details.
Proof.
  unfold AgentPay.isPaymentRequired, AgentPay.extractPaymentDetails.
  unfold mbind, completion_bind, bind.
  destruct (negb (truthy response)); [discriminate|].
  destruct (get response "x402Version") as [v|]; [|discriminate].
  destruct (negb (nullish v)); [discriminate|].
  destruct (get response "error") as [e|] eqn:He; [|discriminate].
  destruct (is_str e "payment_required") eqn:Hpr.
  { intros _ _. exists response. split; [reflexivity|].
    destruct (has_in_get_any response "error" e "code" He) as [c Hc].
    exists e, c. rewrite Hpr. auto. }
  destruct (get response "code") as [c|] eqn:Hc; [|discriminate].
  destruct (is_num c 402) eqn:H402.
  { intros _ Hbare. specialize (Hbare e c eq_refl eq_refl H402). congruence. }
  destruct (get response "content") as [content|]; [|discriminate].
  destruct content; try discriminate.
  intros Hloop _. destruct (loops_agree _ Hloop) as (parsed & -> & Hp). eauto.
Qed.

End AgentPayDetails.

(** ** The x402 descriptor: chains and transactions (protocols/x402.ts) *)

Section X402Transactions.
Context `{Externals}.

(** X10. The two chain tables of the x402 descriptor agree: the chain id
    [getChainConfig] gives for a network name is mapped back to that name
    by [getNetworkFromChainId]; only [base] and [base-sepolia] have one. *)
Theorem chain_config_round_trip (networkName : string) (chainId : value) :
  X402.getChainConfig networkName = Ret chainId ->
  truthy chainId = true ->
  X402.getNetworkFromChainId {| X402.currentChainId := chainId |} = Ret networkName /\
  (networkName = "base" \/ networkName = "base-sepolia").
Proof.
  unfold X402.getChainConfig, X402.getNetworkFromChainId. cbn [X402.currentChainId].
  destruct (String.eqb networkName "base") eqn:E1.
  { apply String.eqb_eq in E1 as ->. intros [= <-] _. split; [reflexivity | now left]. }
  destruct (String.eqb networkName "base-sepolia") eqn:E2.
  { apply String.eqb_eq in E2 as ->. intros [= <-] _. split; [reflexivity | now right]. }
  destruct (bool_decide _); [|discriminate].
  intros [= <-]. discriminate.
Qed.

Lemma buildTransaction_inv requirement chainId transaction :
  X402.buildTransactionFromRequirement requirement chainId = Ret transaction ->
  exists payTo asset amount data,
    get requirement "payTo" = Ret payTo /\ isAddress payTo = true /\
    get requirement "asset" = Ret asset /\ isAddress asset = true /\
    get requirement "maxAmountRequired" = Ret amount /\
    encodeTransfer payTo (ToString amount) = Ret data /\
    transaction =
      VObj [("to", asset); ("data", VStr data); ("value", VStr "0x0");
            ("chainId", chainId); ("gasLimit", VStr "50000");
            ("x402Requirement", requirement)].
Proof.
  unfold X402.buildTransactionFromRequirement, catch.
  destruct (_ ← get requirement "payTo"; _) as [t|] eqn:Hbody; [|discriminate].
  intros [= <-]. revert Hbody. unfold mbind, completion_bind, bind.
  destruct (get requirement "payTo") as [payTo|] eqn:Hp; [|discriminate].
  destruct (get requirement "asset") as [asset|] eqn:Ha; [|discriminate].
  destruct (isAddress payTo) eqn:Hpa; cbn [negb]; [|discriminate].
  destruct (isAddress asset) eqn:Haa; cbn [negb]; [|discriminate].
  destruct (get requirement "maxAmountRequired") as [amount|] eqn:Hm; [|discriminate].
  destruct (X402.check_atomic_amount (ToString amount)); [|discriminate].
  destruct (encodeTransfer payTo (ToString amount)) as [data|] eqn:He; [|discriminate].
  intros [= <-]. exists payTo, asset, amount, data. repeat split; auto.
Qed.

Lemma extract_requirement_chain response requirement chainId :
  X402.extract_requirement response = Ret (requirement, chainId) ->
  is_num chainId 8453 = true \/ is_num chainId 84532 = true \/ chainId = VUndefined.
Proof.
  unfold X402.extract_requirement, mbind, completion_bind, bind, fmap, completion_fmap, bind.
  destruct (get response "x402Version") as [version|]; [|discriminate].
  destruct (negb (is_num version 1)); [discriminate|].
  destruct (get response "accepts") as [accepts|]; [|discriminate].
  destruct (if isArray accepts then _ else _) as [[|]|]; try discriminate.
  destruct (get accepts "0") as [req|]; [|discriminate].
  destruct (X402.isValidPaymentRequirement req) as [[|]|]; try discriminate. cbn [negb].
  destruct (get req "network") as [network|]; [|discriminate].
  unfold X402.getChainConfig.
  destruct (String.eqb _ "base"); [intros [= _ <-]; now left|].
  destruct (String.eqb _ "base-sepolia"); [intros [= _ <-]; right; now left|].
  destruct (bool_decide _); [|discriminate].
  intros [= _ <-]. right. now right.
Qed.

(** X11. Every payment request extracted from an x402 challenge pays the
    asset contract of the first requirement: the transaction goes to
    [asset], its data are the encoded transfer of [maxAmountRequired] to
    [payTo], both checked to be addresses, its value is [0x0], its gas limit
    50000, its chain id the one stored in the descriptor, and it carries the
    requirement itself. *)
Theorem x402_details_shape (st st' : X402.state) (response details : value) :
  X402.extractPaymentDetails st response = (st', details) ->
  details <> VNull ->
  exists requirement payTo asset amount data description formatted,
    get response "accepts" ≫= (fun accepts => get accepts "0") = Ret requirement /\
    get requirement "payTo" = Ret payTo /\ isAddress payTo = true /\
    get requirement "asset" = Ret asset /\ isAddress asset = true /\
    get requirement "maxAmountRequired" = Ret amount /\
    encodeTransfer payTo (ToString amount) = Ret data /\
    (is_num (X402.currentChainId st') 8453 = true \/
     is_num (X402.currentChainId st') 84532 = true \/
     X402.currentChainId st' = VUndefined) /\
    details =
      VObj [("error", VStr "payment_required"); ("code", VNum (num_of_Z 402));
            ("message", description); ("amount", VStr formatted);
            ("currency", VStr "USDC"); ("description", description);
            ("transaction",
             VObj [("to", asset); ("data", VStr data); ("value", VStr "0x0");
                   ("chainId", X402.currentChainId st'); ("gasLimit", VStr "50000");
                   ("x402Requirement", requirement)])].
Proof.
  unfold X402.extractPaymentDetails.
  destruct (X402.extract_requirement response) as [[requirement chainId]|] eqn:Hreq.
  2:{ intros [= _ <-] Hne. congruence. }
  intros [= <- <-] Hne. cbn [X402.currentChainId].
  pose proof (extract_requirement_chain _ _ _ Hreq) as Hchain.
  assert (get response "accepts" ≫= (fun accepts => get accepts "0") = Ret requirement) as Hfirst.
  { revert Hreq.
    unfold X402.extract_requirement, mbind, completion_bind, bind, fmap, completion_fmap, bind.
    destruct (get response "x402Version") as [version|]; [|discriminate].
    destruct (negb (is_num version 1)); [discriminate|].
    destruct (get response "accepts") as [accepts|]; [|discriminate].
    destruct (if isArray accepts then _ else _) as [[|]|]; try discriminate.
    destruct (get accepts "0") as [req|]; [|discriminate].
    destruct (X402.isValidPaymentRequirement req) as [[|]|]; try discriminate. cbn [negb].
    destruct (get req "network") as [network|]; [|discriminate].
    destruct (X402.getChainConfig _); [|discriminate].
    now intros [= -> _]. }
  destruct (X402.extract_details requirement chainId) as [d|] eqn:Hd; [|cbn in Hne; congruence].
  cbn [try_or] in *. revert Hd.
  unfold X402.extract_details, mbind, completion_bind, bind.
  destruct (get requirement "maxAmountRequired") as [amount|] eqn:Hm; [|discriminate].
  destruct (X402.check_atomic_amount (ToString amount)) as [atomic|]; [|discriminate].
  destruct (formatUnits atomic 6) as [formatted|]; [|discriminate].
  destruct (get requirement "description") as [description|]; [|discriminate].
  destruct (X402.buildTransactionFromRequirement requirement chainId) as [transaction|] eqn:Hb;
    [|discriminate].
  intros [= <-].
  apply buildTransaction_inv in Hb
    as (payTo & asset & amount' & data & Hp & Hpa & Ha & Haa & Hm' & He & ->).
  rewrite Hm in Hm'. injection Hm' as <-.
  exists requirement, payTo, asset, amount, data, description, formatted.
  repeat split; auto.
Qed.

End X402Transactions.

(** ** The approval gate (payments/paymentHandler.ts) *)

Section AuthorizationGate.
Context `{Externals}.
Import PaymentHandler.

Lemma hasPaymentAuthorization_true_inv (message : value) :
  hasPaymentAuthorization message = Ret true ->
  has_in "params" message = Ret true /\
  exists params args approved transaction,
    get message "params" = Ret params /\ truthy params = true /\
    get params "arguments" = Ret args /\ truthy args = true /\
    get args "aa_payment_approved" = Ret approved /\
    (approved = VBool true \/ approved = VStr "true") /\
    get args "aa_payment_transaction" = Ret transaction /\
    truthy transaction = true.
Proof.
  unfold hasPaymentAuthorization, mbind, completion_bind, bind.
  destruct (negb (truthy message)); [discriminate|].
  destruct (negb (typeof message =? "object")%string); [discriminate|].
  destruct (has_in "params" message) as [[|]|]; try discriminate. cbn [negb].
  destruct (get message "params") as [params|] eqn:Hp; [|discriminate].
  destruct (negb (truthy params)) eqn:Htp; [discriminate|]. apply negb_false_iff in Htp.
  destruct (get params "arguments") as [args|] eqn:Ha; [|discriminate].
  destruct (negb (truthy args)) eqn:Hta; [discriminate|]. apply negb_false_iff in Hta.
  destruct (get args "aa_payment_approved") as [approved|] eqn:Hap; [|discriminate].
  destruct (negb (is_true approved || is_str approved "true")) eqn:Hok; [discriminate|].
  apply negb_false_iff in Hok.
  destruct (get args "aa_payment_transaction") as [transaction|] eqn:Htx; [|discriminate].
  intros [= Htt]. split; [reflexivity|].
  assert (approved = VBool true \/ approved = VStr "true") as Happ.
  { destruct approved as [| |[|]| |s| |]; try discriminate; [now left|].
    right. cbn in Hok. apply String.eqb_eq in Hok. now subst. }
  exists params, args, approved, transaction. repeat split; auto.
Qed.

(** X12. [hasPaymentAuthorization] never throws, whatever the message is;
    and it answers [true] only for an approval ([true] or ["true"]) that
    comes with a truthy transaction. *)
Theorem hasPaymentAuthorization_never_throws (message : value) :
  (exists b, hasPaymentAuthorization message = Ret b) /\
  (hasPaymentAuthorization message = Ret true ->
   exists params args approved transaction,
     get message "params" = Ret params /\
     get params "arguments" = Ret args /\
     get args "aa_payment_approved" = Ret approved /\
     (approved = VBool true \/ approved = VStr "true") /\
     get args "aa_payment_transaction" = Ret transaction /\
     truthy transaction = true).
Proof.
  split.
  - unfold hasPaymentAuthorization, mbind, completion_bind, bind.
    destruct (negb (truthy message)) eqn:Ht; [eauto|]. apply negb_false_iff in Ht.
    destruct (negb (typeof message =? "object")%string) eqn:Hty; [eauto|].
    assert (exists b, has_in "params" message = Ret b) as [hasParams ->]
      by (destruct message; try discriminate; cbn [has_in]; eauto).
    destruct (negb hasParams); [eauto|].
    destruct (get_truthy message "params" Ht) as [params ->].
    destruct (negb (truthy params)) eqn:Htp; [eauto|]. apply negb_false_iff in Htp.
    destruct (get_truthy params "arguments" Htp) as [args ->].
    destruct (negb (truthy args)) eqn:Hta; [eauto|]. apply negb_false_iff in Hta.
    destruct (get_truthy args "aa_payment_approved" Hta) as [approved ->].
    destruct (negb (is_true approved || is_str approved "true")); [eauto|].
    destruct (get_truthy args "aa_payment_transaction" Hta) as [transaction ->]. eauto.
  - intros Hhas. apply hasPaymentAuthorization_true_inv in Hhas
      as (_ & params & args & approved & transaction & ? & ? & ? & ? & ? & ? & ? & ?).
    exists params, args, approved, transaction. auto 10.
Qed.

(** X13. The two checks of an approval agree: a message that
    [hasPaymentAuthorization] accepts passes the parameter checks of
    [processPaymentAuthorization], which then answers for the submitted
    transaction, and answers with a result: it never throws. *)
Theorem approved_request_reaches_authorization (h : PaymentHandler.t) (message : value) :
  hasPaymentAuthorization message = Ret true ->
  processPaymentAuthorization h message =
  match submitted_transaction message with
  | Throw _ => Ret (AuthError "Invalid transaction format: unable to parse JSON")
  | Ret transaction =>
      catch (authorize h transaction)
        (fun error => Ret (AuthError (message_or "Payment processing failed" error)))
  end /\
  exists result, processPaymentAuthorization h message = Ret result.
Proof.
  intros Hhas.
  destruct (hasPaymentAuthorization_true_inv _ Hhas)
    as (Hin & params & args & approved & transaction
        & Hp & Htp & Ha & Hta & Hap & Happ & Htx & Htt).
  assert (processPaymentAuthorization h message =
          match submitted_transaction message with
          | Throw _ => Ret (AuthError "Invalid transaction format: unable to parse JSON")
          | Ret transaction =>
              catch (authorize h transaction)
                (fun error => Ret (AuthError (message_or "Payment processing failed" error)))
          end) as Heq.
  { unfold processPaymentAuthorization, submitted_transaction.
    unfold mbind, completion_bind, bind, fmap, completion_fmap, bind.
    rewrite Hin, Hp, Htp. cbn [negb]. rewrite Ha, Hta, Hap, Htx, Htt.
    assert (truthy approved = true) as -> by (destruct Happ as [->| ->]; reflexivity).
    cbn [andb negb].
    destruct (typeof transaction =? "string")%string; [|reflexivity].
    destruct (JSON_parse transaction); reflexivity. }
  split; [exact Heq|]. rewrite Heq.
  destruct (submitted_transaction message) as [tx|]; [|eauto].
  unfold catch. destruct (authorize h tx); eauto.
Qed.

Lemma authorize_funded_headers protocol w transaction availableEth headers :
  authorize_funded protocol w transaction availableEth = Ret (AuthHeaders headers) ->
  sufficient (estimateTransactionGas w transaction availableEth) = true /\
  exists signedTx from,
    Protocol.signPaymentTransaction protocol transaction w = Ret (signedTx, from) /\
    Protocol.createAuthorizationHeaders protocol signedTx from = Ret headers.
Proof.
  unfold authorize_funded, mbind, completion_bind, bind.
  destruct (sufficient (estimateTransactionGas w transaction availableEth));
    cbn [negb]; [|discriminate].
  destruct (Protocol.signPaymentTransaction protocol transaction w) as [[signedTx from]|];
    [|discriminate].
  cbn [fst snd].
  destruct (Protocol.createAuthorizationHeaders protocol signedTx from) as [hd|] eqn:Hh;
    [|discriminate].
  intros [= <-]. split; [reflexivity|]. eauto.
Qed.

Lemma agentpay_sign_from template w signedTx from :
  AgentPay.signPaymentTransaction template w = Ret (signedTx, from) -> from = getAddress w.
Proof.
  unfold AgentPay.signPaymentTransaction, mbind, completion_bind, bind.
  repeat match goal with
  | |- context [match ?c with Ret _ => _ | Throw _ => _ end] => destruct c; [|discriminate]
  end.
  now intros [= _ <-].
Qed.

(** X14. Payment headers are only issued for a checked transaction: the
    repaired transaction passed the AgentPay validation, the asset balance
    is not below the amount read from it, the ETH balance exceeds the gas
    estimate, and the headers are the two AgentPay headers, the wallet's
    signature and the wallet's address. *)
Theorem issued_headers_are_checked (w : WalletService) (message : value)
  (headers : StringRecord.t) :
  processPaymentAuthorization (create w) message = Ret (AuthHeaders headers) ->
  exists transaction fixed validation usdc eth signedTx,
    submitted_transaction message = Ret transaction /\
    AgentPay.fixTruncatedTransactionData transaction = Ret fixed /\
    AgentPay.validateTransactionTemplate fixed = Ret validation /\
    Protocol.valid validation = true /\
    getWalletBalances w = Ret (usdc, eth) /\
    num_ltb (parseFloat usdc) (extractAmountFromTransaction fixed) = false /\
    sufficient (estimateTransactionGas w fixed (parseFloat eth)) = true /\
    AgentPay.signPaymentTransaction fixed w = Ret (signedTx, getAddress w) /\
    headers = <["x-agentpay-from" := getAddress w]> {["x-agentpay-authorization" := signedTx]}.
Proof.
  unfold processPaymentAuthorization, submitted_transaction.
  unfold mbind at 1 2 3 4 5 6 7, completion_bind, bind, fmap, completion_fmap, bind.
  destruct (has_in "params" message) as [hasParams|]; [|discriminate].
  destruct (if hasParams then _ else _) as [paramsSet|]; [|discriminate].
  destruct (negb paramsSet); [discriminate|].
  destruct (get message "params") as [params|]; [|discriminate].
  destruct (get params "arguments") as [args|] eqn:Ha; [|discriminate].
  destruct (if truthy args then _ else _) as [argsSet|]; [|discriminate].
  destruct (negb argsSet); [discriminate|].
  destruct (get args "aa_payment_transaction") as [raw|] eqn:Hr; [|discriminate].
  destruct (if (typeof raw =? "string")%string then JSON_parse raw else Ret raw)
    as [transaction|] eqn:Htx; [|discriminate].
  unfold catch.
  destruct (authorize (create w) transaction) as [r|] eqn:Hauth; [|discriminate].
  intros [= ->]. revert Hauth.
  unfold authorize. rewrite create_agentpay.
  cbn [Protocol.fixTruncatedTransactionData Protocol.validateTransactionTemplate
       AgentPay.protocol].
  unfold mbind at 1 2 3, completion_bind, bind.
  destruct (AgentPay.fixTruncatedTransactionData transaction) as [fixed|] eqn:Hfix;
    [|discriminate].
  destruct (AgentPay.validateTransactionTemplate fixed) as [validation|] eqn:Hval;
    [|discriminate].
  destruct (Protocol.valid validation) eqn:Hvalid; cbn [negb]; [|discriminate].
  change (walletService (create w)) with w.
  destruct (getWalletBalances w) as [[usdc eth]|] eqn:Hbal; [|discriminate].
  cbn [fst snd].
  destruct (num_ltb (parseFloat usdc) (extractAmountFromTransaction fixed)) eqn:Hlt;
    [discriminate|].
  intros Hf. apply authorize_funded_headers in Hf as (Hgas & signedTx & from & Hsign & Hh).
  cbn [Protocol.signPaymentTransaction Protocol.createAuthorizationHeaders AgentPay.protocol]
    in Hsign, Hh.
  pose proof (agentpay_sign_from _ _ _ _ Hsign) as ->.
  injection Hh as <-.
  exists transaction, fixed, validation, usdc, eth, signedTx. repeat split; auto.
  unfold mbind, completion_bind, bind. rewrite Ha, Hr. exact Htx.
Qed.

End AuthorizationGate.

(** ** The enrichment of a payment requirement *)

Section Enrichment.
Context `{Externals}.
Variable JSON_stringify_indented : value -> string.
Variable presentation : string -> Protocol.Presentation.

Import PaymentHandler.

Abbreviation processPaymentRequired :=
  (PaymentHandler.processPaymentRequired JSON_stringify_indented presentation).
Abbreviation enrich := (PaymentHandler.enrich JSON_stringify_indented).

Lemma detected_message_is_object d message det :
  ProtocolDetector.detectProtocol d message = Ret (Some det) ->
  exists fs, message = VObj fs.
Proof.
  unfold ProtocolDetector.detectProtocol, catch.
  destruct (ProtocolDetector.detectProtocol_body d message) as [r|] eqn:Hb; [|discriminate].
  intros [= ->]. revert Hb.
  unfold ProtocolDetector.detectProtocol_body, mbind, completion_bind, bind.
  destruct (has_in "error" message) eqn:Hin; [|discriminate].
  destruct (has_in "result" message); [|discriminate].
  destruct (Object_keys message); [|discriminate].
  destruct (negb (truthy (extractMCPResponseData message))) eqn:Ht; [discriminate|].
  intros _. destruct message; try discriminate; eauto.
Qed.

(** The JSON-RPC error [createErrorResponse] builds *)
Definition configuration_error (id : value) (text : string) : value :=
  VObj [("jsonrpc", VStr "2.0"); ("id", id);
        ("error", VObj [("code", VNum (num_of_Z (-32001)));
                        ("message", VStr "Payment processing failed");
                        ("data", VObj [("error_type", VStr "payment_configuration_failed");
                                       ("message", VStr text);
                                       ("instructions",
                                        VStr "Please check your configuration and try again.")])])].

(** The [id] of the answer: the one of the message, ["error"] without one *)
Definition answer_id (fs : list (string * value)) : value :=
  match lookup_field "id" fs with
  | Some id => id
  | None => VStr "error"
  end.

Lemma createErrorResponse_object fs text :
  createErrorResponse (VObj fs) text = Ret (configuration_error (answer_id fs) text).
Proof.
  unfold createErrorResponse, answer_id, mbind, completion_bind, bind. cbn [has_in get].
  destruct (lookup_field "id" fs) as [id|].
  - rewrite bool_decide_eq_true_2 by eauto. reflexivity.
  - rewrite bool_decide_eq_false_2 by (intros [? ?]; discriminate). reflexivity.
Qed.

(** X15. When the wallet cannot be configured for the chain of the payment
    request, or its balances cannot be read, [processPaymentRequired]
    answers with a JSON-RPC error that carries the [id] of the message and
    names the failure. *)
Theorem enrichment_failures_are_answered
  (h : PaymentHandler.t) (message : value) (originalRequest : option value)
  (det : ProtocolDetector.ProtocolDetection) (paymentDetails transaction chainId : value) :
  ProtocolDetector.detectProtocol (protocolDetector h) message = Ret (Some det) ->
  Protocol.extractPaymentDetails (presentation (ProtocolDetector.name det))
    (ProtocolDetector.extractedData det) = Ret paymentDetails ->
  truthy paymentDetails = true ->
  get paymentDetails "transaction" = Ret transaction ->
  get_opt transaction "chainId" = Ret chainId ->
  exists fs,
    message = VObj fs /\
    (forall error,
       truthy chainId = true ->
       configureForChain (walletService h) chainId = Throw error ->
       processPaymentRequired h message originalRequest =
         Ret (configuration_error (answer_id fs)
                ("Chain configuration failed: " +:+ message_or "Unknown error" error))) /\
    (forall error,
       (truthy chainId = false \/ configureForChain (walletService h) chainId = Ret tt) ->
       getWalletBalances (walletService h) = Throw error ->
       processPaymentRequired h message originalRequest =
         Ret (configuration_error (answer_id fs)
                ("Unable to check wallet balances: " +:+ message_or "Unknown error" error))).
Proof.
  intros Hdet Hext Htruthy Htx Hchain.
  destruct (detected_message_is_object _ _ _ Hdet) as [fs ->].
  exists fs. split; [reflexivity|].
  assert (processPaymentRequired h (VObj fs) originalRequest =
          enrich h (presentation (ProtocolDetector.name det)) (VObj fs) paymentDetails
            originalRequest) as ->.
  { unfold PaymentHandler.processPaymentRequired, mbind, completion_bind, bind.
    rewrite Hdet, Hext, Htruthy. reflexivity. }
  unfold PaymentHandler.enrich, mbind, completion_bind, bind. rewrite Htx, Hchain.
  split.
  - intros error Ht Hc. rewrite Ht, Hc. apply createErrorResponse_object.
  - intros error Hok Hb.
    assert ((if truthy chainId then configureForChain (walletService h) chainId else Ret ())
            = Ret ()) as ->.
    { destruct Hok as [->| Hok]; [reflexivity|].
      destruct (truthy chainId); [|reflexivity]. rewrite Hok. reflexivity. }
    rewrite Hb. apply createErrorResponse_object.
Qed.

Abbreviation createEnhancedMessage' :=
  (PaymentHandler.createEnhancedMessage JSON_stringify_indented).

(** An enhancement as [processPaymentRequired] builds it: one key *)
Lemma enhancedResponse_shape pd tx amount currency ud ai bal ok gas enhancement :
  enhancedResponse pd tx amount currency ud ai bal ok gas = Ret enhancement ->
  exists inner, enhancement = VObj [("payment_authorization_required", inner)].
Proof.
  unfold enhancedResponse, mbind, completion_bind, bind.
  repeat match goal with
  | |- context [match ?c with Ret _ => _ | Throw _ => _ end] => destruct c; [|discriminate]
  end.
  intros [= <-]. eauto.
Qed.

Lemma no_protocol_detects_enhancement w message inner :
  extractMCPResponseData message = VObj [("payment_authorization_required", inner)] ->
  ProtocolDetector.detectProtocol (protocolDetector (create w)) message = Ret None.
Proof.
  intros Hex.
  destruct (extract_object_message _ _ Hex) as ([a Ha] & [b Hb] & Hk).
  unfold ProtocolDetector.detectProtocol, ProtocolDetector.detectProtocol_body.
  unfold mbind, completion_bind, bind, catch.
  rewrite Ha, Hb, Hk, Hex. cbn [truthy negb has_in get Object_keys nullish lookup_field].
  cbn [String.eqb Ascii.eqb Bool.eqb].
  rewrite create_priority. cbn [ProtocolDetector.try_protocols].
  change (ProtocolDetector.protocols (protocolDetector (create w))) with (protocols (create w)).
  rewrite create_x402, create_agentpay. reflexivity.
Qed.

Lemma get_set_field_ne k k' v fs :
  k <> k' -> get (VObj (set_field k v fs)) k' = get (VObj fs) k'.
Proof. intros Hne. cbn [get]. now rewrite lookup_set_field_ne. Qed.

(** X16. The enriched message [createEnhancedMessage] builds keeps every
    field of the original except [error] (or [result]), its payload, as
    [extractMCPResponseData] reads it back, is the enhancement, and the
    payment handler detects no payment requirement in it. *)
Theorem enriched_message_is_no_challenge
  (w : WalletService) (fs : list (string * value)) (enhancement : value)
  (pd tx amount currency : value) (ud ai : string) (bal : string * string) (ok : bool)
  (gas : GasEstimate) :
  enhancedResponse pd tx amount currency ud ai bal ok gas = Ret enhancement ->
  (lookup_field "error" fs = None ->
   JSON_parse (VStr (JSON_stringify_indented enhancement)) = Ret enhancement) ->
  exists enriched,
    createEnhancedMessage' (VObj fs) enhancement = Ret enriched /\
    extractMCPResponseData enriched = enhancement /\
    ProtocolDetector.detectProtocol (protocolDetector (create w)) enriched = Ret None /\
    (forall k, k <> "error" -> k <> "result" -> get enriched k = get (VObj fs) k).
Proof.
  intros Hshape Hjson.
  destruct (enhancedResponse_shape _ _ _ _ _ _ _ _ _ _ Hshape) as [inner ->].
  set (enhancement := VObj [("payment_authorization_required", inner)]) in *.
  unfold PaymentHandler.createEnhancedMessage, mbind, completion_bind, bind.
  cbn [has_in spread_fields].
  destruct (lookup_field "error" fs) as [e|] eqn:He.
  - rewrite bool_decide_eq_true_2 by eauto.
    eexists. split; [reflexivity|].
    assert (extractMCPResponseData
              (VObj (set_field "error"
                       (VObj [("code", VNum (num_of_Z (-32001)));
                              ("message", VStr "Payment authorization required");
                              ("data", enhancement)]) fs)) = enhancement) as Hex.
    { rewrite extract_unfold_error, lookup_set_field_eq. reflexivity. }
    split; [exact Hex|]. split; [now apply no_protocol_detects_enhancement with (inner := inner)|].
    intros k Hk _. apply get_set_field_ne. congruence.
  - rewrite bool_decide_eq_false_2 by (intros [? ?]; discriminate).
    eexists. split; [reflexivity|].
    set (text := JSON_stringify_indented enhancement) in *.
    assert (extractMCPResponseData
              (VObj (set_field "result"
                       (VObj [("content",
                               VArr [VObj [("type", VStr "text"); ("text", VStr text)]])])
                       fs)) = enhancement) as Hex.
    { rewrite extract_unfold_error.
      rewrite lookup_set_field_ne by discriminate. rewrite He, lookup_set_field_eq.
      cbn [truthy].
      rewrite (text_item_is_content_format _ [("type", VStr "text"); ("text", VStr text)] [] text)
        by reflexivity.
      rewrite (extractFromMCPContent_text _ [("type", VStr "text"); ("text", VStr text)] [] text)
        by reflexivity.
      unfold parse_tolerant, catch. rewrite (Hjson eq_refl). reflexivity. }
    split; [exact Hex|]. split; [now apply no_protocol_detects_enhancement with (inner := inner)|].
    intros k _ Hk. apply get_set_field_ne. congruence.
Qed.

(** An x402 challenge as the detector sees it, of a version the gateway
    does not support *)
Definition unsupported_x402 (message : value) : Prop :=
  exists fs version accepts,
    extractMCPResponseData message = VObj fs /\
    lookup_field "x402Version" fs = Some version /\
    nullish version = false /\ is_num version 1 = false /\
    lookup_field "accepts" fs = Some (VArr accepts).

Lemma detect_x402 w message fs version accepts :
  extractMCPResponseData message = VObj fs ->
  lookup_field "x402Version" fs = Some version -> nullish version = false ->
  lookup_field "accepts" fs = Some (VArr accepts) ->
  exists det,
    ProtocolDetector.detectProtocol (protocolDetector (create w)) message = Ret (Some det) /\
    ProtocolDetector.name det = "x402" /\ ProtocolDetector.extractedData det = VObj fs.
Proof.
  intros Hex Hv Hn Ha.
  destruct (extract_object_message _ _ Hex) as ([a Ha1] & [b Hb1] & Hk).
  unfold ProtocolDetector.detectProtocol, ProtocolDetector.detectProtocol_body.
  unfold mbind, completion_bind, bind, catch.
  rewrite Ha1, Hb1, Hk, Hex. cbn [truthy negb has_in get Object_keys nullish].
  assert (forall A (x : option value) (k : completion A),
            match (match x with Some y => Ret y | None => Ret VUndefined end) with
            | Ret _ => k | Throw e => Throw e end = k) as Hskip
    by (intros A [x|] k; reflexivity).
  rewrite Hskip, create_priority. cbn [ProtocolDetector.try_protocols].
  change (ProtocolDetector.protocols (protocolDetector (create w))) with (protocols (create w)).
  rewrite create_x402.
  change (Protocol.isPaymentRequired X402.protocol) with X402.isPaymentRequired.
  rewrite (x402_detects _ _ _ Hv Hn Ha).
  eexists; split; [reflexivity|]. split; reflexivity.
Qed.

(** X17. Detection accepts every x402 version, extraction only version 1:
    an x402 challenge of another version is detected as a payment
    requirement, and [processPaymentRequired] returns the message as it
    came. *)
Theorem unsupported_x402_version_is_forwarded_unchanged
  (w : WalletService) (st : X402.state) (message : value) (originalRequest : option value) :
  Protocol.extractPaymentDetails (presentation "x402")
    = (fun response => Ret (snd (X402.extractPaymentDetails st response))) ->
  unsupported_x402 message ->
  PaymentHandler.isPaymentRequired (create w) message = Ret true /\
  PaymentHandler.processPaymentRequired JSON_stringify_indented presentation
    (create w) message originalRequest = Ret message.
Proof.
  intros Hux (fs & version & accepts & Hex & Hv & Hn & H1 & Ha).
  destruct (detect_x402 w _ _ _ _ Hex Hv Hn Ha) as (det & Hdet & Hname & Hdata).
  split.
  - unfold PaymentHandler.isPaymentRequired, mbind, completion_bind, bind. rewrite Hdet.
    rewrite bool_decide_eq_true_2 by eauto. reflexivity.
  - unfold PaymentHandler.processPaymentRequired, mbind, completion_bind, bind.
    rewrite Hdet, Hname, Hux, Hdata.
    unfold X402.extractPaymentDetails, X402.extract_requirement.
    unfold mbind, completion_bind, bind. cbn [get]. rewrite Hv, H1. reflexivity.
Qed.

End Enrichment.

(** ** The proxy: closing and answering (lib/utils.ts) *)

Section ProxyFlow.
Context `{Externals}.
Import McpProxy.

(** The close events of the two transports *)
Inductive side := LocalSide | RemoteSide.

Definition on_close (st : McpProxy.t) (s : side) : McpProxy.t * list action :=
  match s with
  | LocalSide => onClientClose st
  | RemoteSide => onServerClose st
  end.

Fixpoint run_closes (st : McpProxy.t) (events : list side) : McpProxy.t * list action :=
  match events with
  | [] => (st, [])
  | s :: rest =>
      let '(st1, a1) := on_close st s in
      let '(st2, a2) := run_closes st1 rest in
      (st2, a1 ++ a2)
  end.

Lemma run_closes_client st events :
  transportToClientClosed st = true -> transportToServerClosed st = false ->
  transportToClientClosed (fst (run_closes st events)) = true /\
  transportToServerClosed (fst (run_closes st events)) = false /\
  Forall (fun a => a = CloseServer) (snd (run_closes st events)).
Proof.
  revert st; induction events as [|s events IH]; intros st Hc Hs; [cbn; auto|].
  cbn [run_closes]. destruct s; cbn [on_close].
  - unfold onClientClose. rewrite Hs.
    specialize (IH (set_closed true false st) eq_refl eq_refl).
    destruct (run_closes (set_closed true false st) events) as [st2 a2]. cbn [fst snd] in *.
    destruct IH as (? & ? & ?). repeat split; auto. constructor; auto.
  - unfold onServerClose. rewrite Hc.
    specialize (IH st Hc Hs). destruct (run_closes st events) as [st2 a2]. exact IH.
Qed.

Lemma run_closes_server st events :
  transportToClientClosed st = false -> transportToServerClosed st = true ->
  transportToClientClosed (fst (run_closes st events)) = false /\
  transportToServerClosed (fst (run_closes st events)) = true /\
  Forall (fun a => a = CloseClient) (snd (run_closes st events)).
Proof.
  revert st; induction events as [|s events IH]; intros st Hc Hs; [cbn; auto|].
  cbn [run_closes]. destruct s; cbn [on_close].
  - unfold onClientClose. rewrite Hs.
    specialize (IH st Hc Hs). destruct (run_closes st events) as [st2 a2]. exact IH.
  - unfold onServerClose. rewrite Hc.
    specialize (IH (set_closed false true st) eq_refl eq_refl).
    destruct (run_closes (set_closed false true st) events) as [st2 a2]. cbn [fst snd] in *.
    destruct IH as (? & ? & ?). repeat split; auto. constructor; auto.
Qed.

(** X18. Closing goes one way: whichever side closes first, the proxy only
    ever closes the other side, the close that this causes there is not
    passed back, and the two closed flags are never both set. *)
Theorem close_goes_one_way (remote : RemoteTransport) (walletService : option WalletService)
  (first : side) (events : list side) :
  let result := run_closes (create remote walletService) (first :: events) in
  (transportToClientClosed (fst result) && transportToServerClosed (fst result) = false) /\
  Forall (fun a => a = match first with LocalSide => CloseServer | RemoteSide => CloseClient end)
    (snd result) /\
  snd (on_close (fst (on_close (create remote walletService) first))
         (match first with LocalSide => RemoteSide | RemoteSide => LocalSide end))
  = [].
Proof.
  cbv zeta. cbn [run_closes].
  destruct first; cbn [on_close onClientClose onServerClose create
                       transportToServerClosed transportToClientClosed].
  - pose proof (run_closes_client
                  (set_closed true false (create remote walletService)) events eq_refl eq_refl)
      as (Hc & Hs & Ha).
    cbn [create transportToServerClosed] in *.
    destruct (run_closes _ events) as [st2 a2]. cbn [fst snd] in *.
    rewrite Hc, Hs. repeat split; auto. constructor; auto.
  - pose proof (run_closes_server
                  (set_closed false true (create remote walletService)) events eq_refl eq_refl)
      as (Hc & Hs & Ha).
    cbn [create transportToClientClosed] in *.
    destruct (run_closes _ events) as [st2 a2]. cbn [fst snd] in *.
    rewrite Hc, Hs. repeat split; auto. constructor; auto.
Qed.

End ProxyFlow.

Section ProxyMessages.
Context `{Externals}.
Variable processPaymentRequired :
  PaymentHandler.t -> value -> option value -> completion value.

Import McpProxy.

(** A request of the local side other than [initialize] that carries a
    payment approval, at a proxy with a payment handler *)
Record approved_request (st : McpProxy.t) (handler : PaymentHandler.t) (message : value)
  : Prop := {
  approved_handler : paymentHandler st = Some handler;
  approved_not_initialize :
    exists hasMethod method,
      has_in "method" message = Ret hasMethod /\
      get message "method" = Ret method /\
      hasMethod && is_str method "initialize" = false;
  approved_indicators : PaymentHandler.hasPaymentAuthorization message = Ret true
}.

Lemma onClientMessage_approved st handler message :
  approved_request st handler message ->
  onClientMessage st message =
  let st1 := match has_in "method" message with
             | Ret true => set_lastRequest message st
             | _ => st
             end in
  match PaymentHandler.processPaymentAuthorization handler message with
  | Throw e => (st1, Throw e)
  | Ret (PaymentHandler.AuthError error) =>
      if truthy (VStr error) then
        match authorization_error_response message error with
        | Ret errorResponse => (st1, Ret [SendToClient errorResponse])
        | Throw e => (st1, Throw e)
        end
      else (st1, Ret [SendToServer message])
  | Ret (PaymentHandler.AuthHeaders headers) =>
      match transportToServer st with
      | Staging w =>
          (set_transportToServer
             (Staging (AuthRefreshTransportWrapper.setPaymentHeadersForNextRequest headers w))
             st1,
           Ret [SendToServer message])
      | Plain => (st1, Ret [SendToServer message])
      end
  end.
Proof.
  intros [Hh (hasMethod & method & Hin & Hm & Hni) Hhas].
  unfold onClientMessage, onClientMessage_rest. rewrite Hin.
  unfold mbind at 1 2, completion_bind, bind.
  assert ((if hasMethod then get message "method" else Ret VUndefined)
          = Ret (if hasMethod then method else VUndefined)) as ->
    by (destruct hasMethod; [exact Hm | reflexivity]).
  assert (hasMethod && is_str (if hasMethod then method else VUndefined) "initialize" = false)
    as -> by (destruct hasMethod; [exact Hni | reflexivity]).
  cbv zeta.
  assert (paymentHandler (if hasMethod then set_lastRequest message st else st) = Some handler)
    as -> by (destruct hasMethod; exact Hh).
  assert (transportToServer (if hasMethod then set_lastRequest message st else st)
          = transportToServer st) as -> by (destruct hasMethod; reflexivity).
  unfold mbind, completion_bind, bind. rewrite Hhas. cbn [negb].
  destruct (PaymentHandler.processPaymentAuthorization handler message) as [[headers|error]|];
    destruct hasMethod; try reflexivity.
  - destruct (transportToServer st); reflexivity.
  - destruct (transportToServer st); reflexivity.
  - destruct (truthy (VStr error)); [|reflexivity].
    destruct (authorization_error_response message error); reflexivity.
  - destruct (truthy (VStr error)); [|reflexivity].
    destruct (authorization_error_response message error); reflexivity.
Qed.

(** X19. When the authorization of an approved request fails, the request
    is not forwarded: the local side gets a JSON-RPC error with the [id] of
    the request (["error"] without one) and the failure text, and nothing is
    staged on the remote transport. *)
Theorem failed_authorization_is_answered_locally
  (st : McpProxy.t) (handler : PaymentHandler.t) (message : value) (error : string) :
  approved_request st handler message ->
  PaymentHandler.processPaymentAuthorization handler message
    = Ret (PaymentHandler.AuthError error) ->
  error <> "" ->
  exists id,
    (has_in "id" message = Ret true /\ get message "id" = Ret id \/
     has_in "id" message = Ret false /\ id = VStr "error") /\
    snd (onClientMessage st message) =
      Ret [SendToClient
             (VObj [("jsonrpc", VStr "2.0"); ("id", id);
                    ("error",
                     VObj [("code", VNum (num_of_Z (-32001)));
                           ("message", VStr "Payment authorization failed");
                           ("data",
                            VObj [("error_type", VStr "payment_authorization_failed");
                                  ("message", VStr error);
                                  ("instructions",
                                   VStr "Please fix the issue and retry with the same parameters.")])])])] /\
    transportToServer (fst (onClientMessage st message)) = transportToServer st.
Proof.
  intros Happ Hres Hne.
  rewrite (onClientMessage_approved _ _ _ Happ), Hres. cbv zeta.
  assert (truthy (VStr error) = true) as ->.
  { cbn. apply negb_true_iff. now apply String.eqb_neq. }
  destruct Happ as [_ (hasMethod & method & Hin & Hm & _) _].
  unfold authorization_error_response, mbind, completion_bind, bind.
  assert (exists b, has_in "id" message = Ret b) as [hasId Hid]
    by (destruct message; try discriminate; cbn [has_in]; eauto).
  rewrite Hid.
  destruct (has_in_get _ _ _ "id" Hin) as [idv Hidv].
  destruct hasId.
  - rewrite Hidv. exists idv. split; [left; auto|]. split; [reflexivity|].
    rewrite Hin. destruct hasMethod; reflexivity.
  - exists (VStr "error"). split; [right; auto|]. split; [reflexivity|].
    rewrite Hin. destruct hasMethod; reflexivity.
Qed.

(** X20. When the authorization succeeds, the request is forwarded and the
    payment headers are staged: the next POST of the remote transport that
    is handed on empties the slot, and its request carries every payment
    header whose name is alone among the fresh, static and payment header
    names, with the value stripped of surrounding whitespace. *)
Theorem authorized_request_is_sent_with_payment_headers
  (st : McpProxy.t) (handler : PaymentHandler.t) (message : value)
  (w : AuthRefreshTransportWrapper.t) (headers : StringRecord.t) :
  approved_request st handler message ->
  transportToServer st = Staging w ->
  PaymentHandler.processPaymentAuthorization handler message
    = Ret (PaymentHandler.AuthHeaders headers) ->
  NoDup (StringRecord.keys headers) ->
  exists w',
    snd (onClientMessage st message) = Ret [SendToServer message] /\
    transportToServer (fst (onClientMessage st message)) = Staging w' /\
    forall now input init call,
      AuthRefreshTransportWrapper.method init = Some "POST" ->
      snd (AuthRefreshTransportWrapper.interceptFetch w' now input (Some init)) = Ret call ->
      AuthRefreshTransportWrapper.pendingPaymentHeaders
        (fst (AuthRefreshTransportWrapper.interceptFetch w' now input (Some init))) = None /\
      exists fresh sent,
        AuthRefreshTransportWrapper.generateFreshAuthHeaders
          (AuthRefreshTransportWrapper.token w) now = Ret fresh /\
        AuthRefreshTransportWrapper.init_headers call
          = AuthRefreshTransportWrapper.Rebuilt sent /\
        forall k v,
          headers !! k = Some v ->
          alone_among k
            (StringRecord.keys fresh ++
             StringRecord.keys (AuthRefreshTransportWrapper.baseCustomHeaders w) ++
             StringRecord.keys headers) ->
          Fetch.get sent k = Ret (Some (Fetch.normalize v)).
Proof.
  intros Happ Hw Hres Hnd.
  rewrite (onClientMessage_approved _ _ _ Happ), Hres, Hw. cbv zeta. cbn [fst snd].
  eexists. split; [reflexivity|]. split; [reflexivity|].
  intros now input init call Hm Hsent.
  destruct (interceptFetch_sent _ _ _ _ _ Hm Hsent)
    as (fresh & own & sent & Hf & Hw' & Hown & Hset & Hc).
  split; [rewrite Hw'; reflexivity|].
  exists fresh, sent. split; [exact Hf|]. split; [now rewrite Hc|].
  intros k v Hl Halone.
  apply (merged_alone_is_carried fresh _ own sent k v Hset); [|exact Halone].
  now apply merged_staged.
Qed.

(** X21. Every message of the remote side is delivered to the local side
    exactly once, and the state of the proxy stays as it is: it is the
    message itself, or, for a detected payment requirement, what
    [processPaymentRequired] returns (the message itself when that fails). *)
Theorem server_message_is_delivered_once (st : McpProxy.t) (message : value)
  (hasMethod : bool) :
  has_in "method" message = Ret hasMethod ->
  exists delivered,
    onServerMessage processPaymentRequired st message
      = Ret (st, [SendToClient delivered]) /\
    (delivered = message \/
     exists handler,
       paymentHandler st = Some handler /\
       PaymentHandler.isPaymentRequired handler message = Ret true /\
       processPaymentRequired handler message (lastRequest st) = Ret delivered).
Proof.
  intros Hin. unfold onServerMessage, mbind, completion_bind, bind. rewrite Hin.
  destruct (has_in_get _ _ _ "method" Hin) as [x Hx].
  destruct (has_in_get _ _ _ "id" Hin) as [y Hy].
  rewrite Hx, Hy.
  assert (forall A (k : completion A),
            match (if hasMethod then Ret x else Ret y) with Ret _ => k | Throw e => Throw e end = k)
    as -> by (intros; destruct hasMethod; reflexivity).
  destruct (paymentHandler st) as [handler|]; [|eauto].
  destruct (isPaymentRequired_total handler message) as [required Hreq]. rewrite Hreq.
  destruct required; cbn [negb]; [|eauto].
  destruct (processPaymentRequired handler message (lastRequest st)) as [enhanced|] eqn:Hp.
  - exists enhanced. split; [reflexivity|]. right. eauto.
  - eauto.
Qed.

End ProxyMessages.

Section HeaderPrecedence.
Context `{Externals}.
Import AuthRefreshTransportWrapper.

(** X22. What the request of a POST carries under a header name: the value
    of the last entry of the merged record that goes by the name in any
    letter case, stripped of surrounding whitespace, and the header of the
    request itself when there is none.  For a name that is alone among the
    fresh, static and staged names this is, by precedence, the staged
    payment header, the static custom header, the fresh AgentAuth header,
    the header of the request itself.  The body is handed on. *)
Theorem injected_header_precedence (w : AuthRefreshTransportWrapper.t) (now input : string)
  (init : RequestInit) (call : FetchCall) (n : string) :
  method init = Some "POST" ->
  snd (interceptFetch w now input (Some init)) = Ret call ->
  Fetch.is_header_name n = true ->
  exists fresh own sent,
    generateFreshAuthHeaders (token w) now = Ret fresh /\
    Fetch.create (headers init) = Ret own /\
    init_headers call = Rebuilt sent /\
    init_body call = body init /\
    Fetch.get sent n = Ret
      (match last (entries_named n (StringRecord.entries (merged fresh w))) with
       | Some e => Some (Fetch.normalize (snd e))
       | None => Fetch.lookup own n
       end) /\
    (alone_among n (merged_names fresh w) ->
     NoDup (StringRecord.keys (baseCustomHeaders w)) ->
     NoDup (from_option StringRecord.keys [] (pendingPaymentHeaders w)) ->
     Fetch.get sent n = Ret
       (match pendingPaymentHeaders w ≫= (.!! n) with
        | Some v => Some (Fetch.normalize v)
        | None =>
            match baseCustomHeaders w !! n with
            | Some v => Some (Fetch.normalize v)
            | None =>
                match fresh !! n with
                | Some v => Some (Fetch.normalize v)
                | None => Fetch.lookup own n
                end
            end
        end)).
Proof.
  intros Hm Hsent Hname.
  destruct (interceptFetch_sent _ _ _ _ _ Hm Hsent)
    as (fresh & own & sent & Hf & _ & Hown & Hset & Hc).
  exists fresh, own, sent.
  split; [exact Hf|]. split; [exact Hown|]. split; [now rewrite Hc|].
  split; [now rewrite Hc|].
  assert (Fetch.get sent n = Ret
            (match last (entries_named n (StringRecord.entries (merged fresh w))) with
             | Some e => Some (Fetch.normalize (snd e))
             | None => Fetch.lookup own n
             end)) as Hget.
  { unfold Fetch.get. rewrite Hname. f_equal. apply (lookup_set_all _ _ _ n Hset). }
  split; [exact Hget|].
  intros Halone Hbase Hpending. rewrite Hget. f_equal.
  assert (NoDup (StringRecord.keys fresh)) as Hfresh.
  { rewrite (fresh_keys _ _ _ Hf). apply (bool_decide_unpack _). vm_compute. exact I. }
  assert (merged fresh w !! n =
          match pendingPaymentHeaders w ≫= (.!! n) with
          | Some v => Some v
          | None =>
              match baseCustomHeaders w !! n with
              | Some v => Some v
              | None => fresh !! n
              end
          end) as Hl.
  { unfold merged, merge. cbv zeta.
    destruct (pendingPaymentHeaders w) as [pending|]; cbn [fst mbind option_bind from_option] in *.
    - rewrite lookup_spread by (exact Hpending || apply NoDup_keys_spread).
      destruct (pending !! n); [reflexivity|].
      now rewrite lookup_spread by assumption.
    - now rewrite lookup_spread by assumption. }
  destruct (merged fresh w !! n) as [v|] eqn:Hv.
  - rewrite (entries_named_alone n v).
    + cbn [last snd].
      destruct (pendingPaymentHeaders w ≫= (.!! n)); [congruence|].
      destruct (baseCustomHeaders w !! n); [congruence|].
      destruct (fresh !! n); [congruence|discriminate].
    + apply NoDup_merged.
    + now apply lookup_elem_of_entries.
    + intros k' Hk' Hmatch. apply Halone; [|exact Hmatch]. now apply elem_of_merged.
  - assert (entries_named n (StringRecord.entries (merged fresh w)) = []) as ->.
    { apply elem_of_nil_inv. intros [k' v'] Hin.
      apply list_elem_of_filter in Hin as [Hmatch Hin]. cbn [fst] in Hmatch.
      assert (k' ∈ StringRecord.keys (merged fresh w)) as Hk'
        by (eapply list_elem_of_fmap_2'; [eassumption|reflexivity]).
      pose proof (Halone k' (elem_of_merged _ _ _ Hk') Hmatch) as ->.
      apply (elem_of_lookup_entry _ _ _ (NoDup_merged fresh w)) in Hin.
      unfold lookup, StringRecord.t_lookup in Hv. congruence. }
    cbn [last].
    destruct (pendingPaymentHeaders w ≫= (.!! n)); [discriminate|].
    destruct (baseCustomHeaders w !! n); [discriminate|].
    destruct (fresh !! n); [discriminate|reflexivity].
Qed.

End HeaderPrecedence.

Section ProtectedHeaders.
Context `{Externals}.
Import AuthRefreshTransportWrapper.

(** X23. The names [generateFreshAuthHeaders] produces are the protected
    ones: [hasAgentAuthConflict] holds for each, and for every name that
    differs from one of them in letter case only. *)
Theorem fresh_header_names_are_protected (token now : string) (fresh : StringRecord.t)
  (name : string) :
  generateFreshAuthHeaders token now = Ret fresh ->
  is_Some (fresh !! name) ->
  hasAgentAuthConflict name = true /\
  forall other, toLowerCase other = toLowerCase name -> hasAgentAuthConflict other = true.
Proof.
  unfold generateFreshAuthHeaders, mbind, completion_bind, bind.
  destruct (deriveAddress token) as [address|]; [|discriminate].
  destruct (signPayload now token) as [signature|]; [|discriminate].
  intros [= <-] [x Hx].
  assert (hasAgentAuthConflict name = true) as Hn.
  { change (StringRecord.lookup_entry name
              [("X-AgentAuth-Address", address); ("X-AgentAuth-Signature", signature);
               ("X-AgentAuth-Payload", encodePayload now)] = Some x) in Hx.
    cbn [StringRecord.lookup_entry] in Hx.
    destruct (String.eqb name "X-AgentAuth-Address") eqn:E1;
      [apply String.eqb_eq in E1 as ->; reflexivity|].
    destruct (String.eqb name "X-AgentAuth-Signature") eqn:E2;
      [apply String.eqb_eq in E2 as ->; reflexivity|].
    destruct (String.eqb name "X-AgentAuth-Payload") eqn:E3;
      [apply String.eqb_eq in E3 as ->; reflexivity|discriminate]. }
  split; [exact Hn|].
  intros other Ho. unfold hasAgentAuthConflict in *. cbv zeta in *. now rewrite Ho.
Qed.

End ProtectedHeaders.

(** ** The negotiator: bounds and outcomes *)

Section NegotiationBounds.
Import Negotiator.

#[local] Existing Instance event_eq_dec.

(** How many transports a strategy may still start *)
Definition starts_left (strategy : TransportStrategy) (st : state) : nat :=
  if is_first strategy && negb (fallback_recorded st) then 2 else 1.

Definition probes (tr : list event) : nat :=
  length (filter (fun e => e = Probe) tr).

Lemma probes_snoc tr e :
  probes (tr ++ [e]) = probes tr + (if decide (e = Probe) then 1 else 0).
Proof.
  unfold probes. rewrite filter_app, length_app. f_equal.
  rewrite filter_cons. destruct (decide (e = Probe)); reflexivity.
Qed.

Ltac decide_events :=
  repeat match goal with
  | |- context [decide (?a = ?b)] =>
      first [rewrite (decide_True (P := a = b)) by reflexivity
            |rewrite (decide_False (P := a = b)) by discriminate]
  | H : context [decide (?a = ?b)] |- _ =>
      first [rewrite (decide_True (P := a = b)) in H by reflexivity
            |rewrite (decide_False (P := a = b)) in H by discriminate]
  end.

Lemma on_connect_error_trace strategy st error o st' :
  on_connect_error strategy st error = (o, st') ->
  started (trace st') = started (trace st) /\
  probes (trace st') = probes (trace st) /\
  match o with
  | Settled r => st' = st /\ exists e, r = Throw e
  | Recurse strategy' =>
      strategy' = strategy /\ is_first strategy = true /\
      fallback_recorded st = false /\ st' = record_fallback st /\
      isProtocolLikeError error = true
  end.
Proof.
  unfold on_connect_error, shouldAttemptFallback.
  destruct (read_message error); [|intros [= <- <-]; eauto 6].
  destruct (is_first strategy) eqn:Hf; cbn [andb].
  2:{ intros [= <- <-]; eauto 6. }
  destruct (fallback_recorded st) eqn:Hr; cbn [negb andb].
  { intros [= <- <-]; eauto 6. }
  destruct (isProtocolLikeError error) eqn:Hp; intros [= <- <-]; [|eauto 6].
  cbn [record_fallback trace]. rewrite started_snoc, probes_snoc, app_nil_r.
  decide_events. repeat split; auto; lia.
Qed.

(** One activation: what it appends to the trace, and what is left for the
    recursive call *)
Lemma attempt_trace ep token customHeaders strategy st o st' :
  attempt ep token customHeaders strategy st = (o, st') ->
  exists ks,
    started (trace st') = started (trace st) ++ ks /\
    probes (trace st') <= probes (trace st) + length ks /\
    match o with
    | Settled _ => length ks = 1
    | Recurse strategy' => length ks + starts_left strategy' st' <= starts_left strategy st
    end.
Proof.
  unfold attempt, starts_left.
  destruct strategy; cbn [is_first andb].
  - (* sse-only *)
    destruct (start ep (trace st) SSE) as [error|].
    + intros Hc. apply on_connect_error_trace in Hc as (Hs & Hp & Ho).
      exists [SSE]. cbn [log_event trace] in Hs, Hp.
      rewrite started_snoc in Hs. rewrite probes_snoc in Hp. decide_events.
      split; [exact Hs|]. split; [cbn [length]; lia|].
      destruct o; [reflexivity|]. destruct Ho as (_ & Hf & _). discriminate.
    + intros [= <- <-]. exists [SSE]. cbn [log_event trace].
      rewrite started_snoc, probes_snoc. decide_events.
      split; [reflexivity|]. split; [cbn [length]; lia | reflexivity].
  - (* http-only *)
    destruct (start ep (trace st) HTTP) as [error|].
    + intros Hc. apply on_connect_error_trace in Hc as (Hs & Hp & Ho).
      exists [HTTP]. cbn [log_event trace] in Hs, Hp.
      rewrite started_snoc in Hs. rewrite probes_snoc in Hp. decide_events.
      split; [exact Hs|]. split; [cbn [length]; lia|].
      destruct o; [reflexivity|]. destruct Ho as (_ & Hf & _). discriminate.
    + destruct (probe ep _) as [probeError|].
      2:{ intros [= <- <-]. exists [HTTP]. cbn [log_event trace].
          rewrite !started_snoc, !probes_snoc, app_nil_r. decide_events.
          split; [reflexivity|]. split; [cbn [length]; lia | reflexivity]. }
      assert (forall e, on_connect_error HttpOnly (log_event Probe (log_event (Start HTTP) st)) e
                        = (o, st') ->
              exists ks, started (trace st') = started (trace st) ++ ks /\
                         probes (trace st') <= probes (trace st) + length ks /\
                         match o with
                         | Settled _ => length ks = 1
                         | Recurse strategy' =>
                             length ks + (if is_first strategy' && negb (fallback_recorded st')
                                          then 2 else 1) <= 1
                         end) as Herr.
      { intros e Hc. apply on_connect_error_trace in Hc as (Hs & Hp & Ho).
        exists [HTTP]. cbn [log_event trace] in Hs, Hp.
        rewrite !started_snoc, app_nil_r in Hs.
        rewrite !probes_snoc in Hp. decide_events.
        split; [exact Hs|]. split; [cbn [length]; lia|].
        destruct o; [reflexivity|]. destruct Ho as (_ & Hf & _). discriminate. }
      destruct (read_message probeError); [|apply Herr].
      cbn [shouldAttemptFallback is_first andb]. apply Herr.
  - (* sse-first *)
    destruct (fallback_recorded st) eqn:Hr; cbn [negb].
    { intros [= <- <-]. exists []. rewrite app_nil_r. cbn [is_first andb length].
      split; [reflexivity|]. split; lia. }
    destruct (start ep (trace st) SSE) as [error|].
    + intros Hc. apply on_connect_error_trace in Hc as (Hs & Hp & Ho).
      exists [SSE]. cbn [log_event trace] in Hs, Hp.
      rewrite started_snoc in Hs. rewrite probes_snoc in Hp. decide_events.
      split; [exact Hs|]. split; [cbn [length]; lia|].
      destruct o; [reflexivity|]. destruct Ho as (-> & _ & _ & -> & _).
      rewrite fallback_recorded_record. cbn [is_first andb negb length]. lia.
    + intros [= <- <-]. exists [SSE]. cbn [log_event trace].
      rewrite started_snoc, probes_snoc. decide_events.
      split; [reflexivity|]. split; [cbn [length]; lia | reflexivity].
  - (* http-first *)
    destruct (fallback_recorded st) eqn:Hr; cbn [negb].
    { intros [= <- <-]. exists []. rewrite app_nil_r. cbn [is_first andb length].
      split; [reflexivity|]. split; lia. }
    destruct (start ep (trace st) HTTP) as [error|].
    + intros Hc. apply on_connect_error_trace in Hc as (Hs & Hp & Ho).
      exists [HTTP]. cbn [log_event trace] in Hs, Hp.
      rewrite started_snoc in Hs. rewrite probes_snoc in Hp. decide_events.
      split; [exact Hs|]. split; [cbn [length]; lia|].
      destruct o; [reflexivity|]. destruct Ho as (-> & _ & _ & -> & _).
      rewrite fallback_recorded_record. cbn [is_first andb negb length]. lia.
    + destruct (probe ep _) as [probeError|].
      2:{ intros [= <- <-]. exists [HTTP]. cbn [log_event trace].
          rewrite !started_snoc, !probes_snoc, app_nil_r. decide_events.
          split; [reflexivity|]. split; [cbn [length]; lia | reflexivity]. }
      assert (forall e, on_connect_error HttpFirst (log_event Probe (log_event (Start HTTP) st)) e
                        = (o, st') ->
              exists ks, started (trace st') = started (trace st) ++ ks /\
                         probes (trace st') <= probes (trace st) + length ks /\
                         match o with
                         | Settled _ => length ks = 1
                         | Recurse strategy' =>
                             length ks + (if is_first strategy' && negb (fallback_recorded st')
                                          then 2 else 1) <= 2
                         end) as Herr.
      { intros e Hc. apply on_connect_error_trace in Hc as (Hs & Hp & Ho).
        exists [HTTP]. cbn [log_event trace] in Hs, Hp.
        rewrite !started_snoc, app_nil_r in Hs.
        rewrite !probes_snoc in Hp. decide_events.
        split; [exact Hs|]. split; [cbn [length]; lia|].
        destruct o; [reflexivity|]. destruct Ho as (-> & _ & _ & -> & _).
        rewrite fallback_recorded_record. cbn [is_first andb negb length]. lia. }
      destruct (read_message probeError); [|apply Herr].
      destruct (shouldAttemptFallback HttpFirst _ && isProtocolLikeError probeError);
        [|apply Herr].
      intros [= <- <-]. exists [HTTP]. cbn [record_fallback log_event trace].
      rewrite !started_snoc, !probes_snoc, !app_nil_r. decide_events.
      split; [reflexivity|]. split; [cbn [length]; lia|]. rewrite fallback_recorded_record. cbn [is_first andb negb length]. lia.
Qed.

(** X24. Whatever the endpoint does, [connectToRemoteServer] starts at
    least one transport and at most two (one, unless the strategy allows a
    fallback and none was recorded), probes no more often than it starts,
    and records at most one fallback. *)
Theorem negotiation_is_bounded (ep : Endpoint) (token : option string)
  (customHeaders : StringRecord.t) (strategy : TransportStrategy) (st : state) :
  let st' := snd (connectToRemoteServer ep token customHeaders strategy st) in
  exists ks,
    started (trace st') = started (trace st) ++ ks /\
    1 <= length ks <= starts_left strategy st /\
    probes (trace st') <= probes (trace st) + length ks /\
    fallbacks (trace st') <= fallbacks (trace st) + 1.
Proof.
  cbv zeta.
  assert (exists ks,
    started (trace (snd (connectToRemoteServer ep token customHeaders strategy st)))
      = started (trace st) ++ ks /\
    1 <= length ks <= starts_left strategy st /\
    probes (trace (snd (connectToRemoteServer ep token customHeaders strategy st)))
      <= probes (trace st) + length ks) as (ks & H1 & H2 & H3).
  { funelim (connectToRemoteServer ep token customHeaders strategy st).
    - match goal with E : attempt _ _ _ _ _ = _ |- _ =>
        destruct (attempt_trace _ _ _ _ _ _ _ E) as (ks & Hs & Hp & Hl) end.
      exists ks. cbn [snd]. split; [exact Hs|]. split; [|exact Hp].
      rewrite Hl. unfold starts_left. destruct (_ && _); lia.
    - match goal with E : attempt _ _ _ _ _ = _ |- _ =>
        destruct (attempt_trace _ _ _ _ _ _ _ E) as (ks & Hs & Hp & Hl) end.
      match goal with IH : exists _, _ |- _ => destruct IH as (ks' & Hs' & Hl' & Hp') end.
      exists (ks ++ ks'). rewrite Hs', Hs, <- app_assoc, length_app.
      split; [reflexivity|]. split; lia. }
  exists ks. split; [exact H1|]. split; [exact H2|]. split; [exact H3|].
  pose proof (at_most_one_fallback ep token customHeaders strategy st) as [Hf _].
  cbv zeta in Hf. destruct (fallback_recorded st); lia.
Qed.

End NegotiationBounds.

Section PlainErrors.
Import Negotiator.

#[local] Existing Instance event_eq_dec.

(** An endpoint none of whose errors looks like a protocol mismatch *)
Record never_protocol_like (ep : Endpoint) : Prop := {
  start_errors_plain :
    forall tr kind e, start ep tr kind = Some e -> isProtocolLikeError e = false;
  probe_errors_plain :
    forall tr e, probe ep tr = Some e -> isProtocolLikeError e = false
}.

Lemma read_message_throws x e : read_message x = Throw e -> e = TypeError.
Proof.
  destruct x as [msg|v]; [discriminate|]. cbn [read_message].
  unfold mbind, completion_bind, bind.
  destruct v; cbn [get]; try discriminate; try (now intros [= <-]).
  destruct (lookup_field _ _); discriminate.
Qed.

Lemma on_connect_error_plain strategy st error :
  isProtocolLikeError error = false ->
  exists e, on_connect_error strategy st error = (Settled (Throw e), st) /\
            (read_message error = Ret tt -> e = error).
Proof.
  intros Hp. unfold on_connect_error.
  destruct (read_message error) as [[]|e].
  - rewrite Hp, andb_false_r. eauto.
  - exists e. split; [reflexivity | discriminate].
Qed.

(** X25. An error that does not look like a protocol mismatch is not
    retried: against an endpoint with only such errors, every strategy
    starts its primary transport once, records nothing, and either
    connects or throws; a start error is thrown as it is. *)
Theorem plain_errors_are_not_retried (ep : Endpoint) (token : option string)
  (customHeaders : StringRecord.t) (strategy : TransportStrategy) (st : state) :
  never_protocol_like ep ->
  fallback_recorded st = false ->
  let result := connectToRemoteServer ep token customHeaders strategy st in
  started (trace (snd result)) = started (trace st) ++ [primary strategy] /\
  fallbacks (trace (snd result)) = fallbacks (trace st) /\
  recursionReasons (snd result) = recursionReasons st /\
  (fst result = Ret (wrap (primary strategy) token customHeaders) \/
   exists e, fst result = Throw e) /\
  (forall e, start ep (trace st) (primary strategy) = Some e ->
             read_message e = Ret tt -> fst result = Throw e).
Proof.
  intros [Hstart Hprobe] Hfresh. cbv zeta. rewrite connect_unfold.
  assert (forall kind, primary strategy = kind ->
            forall error, start ep (trace st) kind = Some error ->
            let result :=
              match on_connect_error strategy (log_event (Start kind) st) error with
              | (Settled r, st') => (r, st')
              | (Recurse strategy', st') =>
                  connectToRemoteServer ep token customHeaders strategy' st'
              end in
            started (trace (snd result)) = started (trace st) ++ [primary strategy] /\
            fallbacks (trace (snd result)) = fallbacks (trace st) /\
            recursionReasons (snd result) = recursionReasons st /\
            (fst result = Ret (wrap (primary strategy) token customHeaders) \/
             exists e, fst result = Throw e) /\
            (forall e, Some error = Some e -> read_message e = Ret tt -> fst result = Throw e))
    as Hfail.
  { intros kind Hk error Hs. cbv zeta.
    destruct (on_connect_error_plain strategy (log_event (Start kind) st) error
                (Hstart _ _ _ Hs)) as (e & -> & He).
    cbn [fst snd log_event trace recursionReasons].
    rewrite started_snoc, fallbacks_snoc, decide_False by discriminate. rewrite Hk.
    split; [reflexivity|]. split; [lia|]. split; [reflexivity|]. split; [eauto|].
    intros e' [= <-] Hr. f_equal. auto. }
  assert (forall kind, primary strategy = kind ->
            let st1 := log_event (Start kind) st in
            started (trace st1) = started (trace st) ++ [primary strategy] /\
            fallbacks (trace st1) = fallbacks (trace st) /\
            recursionReasons st1 = recursionReasons st) as Hok.
  { intros kind Hk. cbn [log_event trace recursionReasons].
    rewrite started_snoc, fallbacks_snoc, decide_False by discriminate. rewrite Hk.
    split; [reflexivity|]. split; [lia | reflexivity]. }
  assert (forall probeError,
            probe ep (trace (log_event (Start HTTP) st)) = Some probeError ->
            primary strategy = HTTP ->
            let result :=
              match
                match read_message probeError with
                | Ret _ =>
                    if shouldAttemptFallback strategy
                         (log_event Probe (log_event (Start HTTP) st))
                       && isProtocolLikeError probeError
                    then (Recurse SseOnly,
                          record_fallback (log_event Probe (log_event (Start HTTP) st)))
                    else on_connect_error strategy
                           (log_event Probe (log_event (Start HTTP) st)) probeError
                | Throw e =>
                    on_connect_error strategy (log_event Probe (log_event (Start HTTP) st)) e
                end
              with
              | (Settled r, st') => (r, st')
              | (Recurse strategy', st') =>
                  connectToRemoteServer ep token customHeaders strategy' st'
              end in
            started (trace (snd result)) = started (trace st) ++ [primary strategy] /\
            fallbacks (trace (snd result)) = fallbacks (trace st) /\
            recursionReasons (snd result) = recursionReasons st /\
            (fst result = Ret (wrap (primary strategy) token customHeaders) \/
             exists e, fst result = Throw e)) as Hprobefail.
  { intros probeError Hp Hk. cbv zeta.
    assert (exists e,
              match read_message probeError with
              | Ret _ =>
                  if shouldAttemptFallback strategy
                       (log_event Probe (log_event (Start HTTP) st))
                     && isProtocolLikeError probeError
                  then (Recurse SseOnly,
                        record_fallback (log_event Probe (log_event (Start HTTP) st)))
                  else on_connect_error strategy
                         (log_event Probe (log_event (Start HTTP) st)) probeError
              | Throw e =>
                  on_connect_error strategy (log_event Probe (log_event (Start HTTP) st)) e
              end = (Settled (Throw e), log_event Probe (log_event (Start HTTP) st)))
      as [e ->].
    { destruct (read_message probeError) as [[]|e] eqn:Hr.
      - rewrite (Hprobe _ _ Hp), andb_false_r.
        destruct (on_connect_error_plain strategy
                    (log_event Probe (log_event (Start HTTP) st)) probeError
                    (Hprobe _ _ Hp)) as (e & -> & _). eauto.
      - apply read_message_throws in Hr as ->.
        destruct (on_connect_error_plain strategy
                    (log_event Probe (log_event (Start HTTP) st)) TypeError eq_refl)
          as (e & -> & _). eauto. }
    cbn [fst snd log_event trace recursionReasons].
    rewrite !started_snoc, !fallbacks_snoc, !decide_False by discriminate.
    rewrite Hk, app_nil_r.
    split; [reflexivity|]. split; [lia|]. split; [reflexivity | eauto]. }
  unfold attempt. rewrite Hfresh. cbn [negb].
  destruct strategy; cbn [primary] in *.
  - destruct (start ep (trace st) SSE) as [error|] eqn:Hs.
    + apply (Hfail SSE eq_refl error Hs).
    + cbn [fst snd]. destruct (Hok SSE eq_refl) as (? & ? & ?).
      split; [assumption|]. split; [assumption|]. split; [assumption|].
      split; [now left | discriminate].
  - destruct (start ep (trace st) HTTP) as [error|] eqn:Hs.
    + apply (Hfail HTTP eq_refl error Hs).
    + destruct (probe ep _) as [probeError|] eqn:Hp.
      * destruct (Hprobefail probeError eq_refl eq_refl) as (? & ? & ? & ?).
        split; [assumption|]. split; [assumption|]. split; [assumption|].
        split; [assumption | discriminate].
      * cbn [fst snd log_event trace recursionReasons].
        rewrite !started_snoc, !fallbacks_snoc, !decide_False by discriminate.
        rewrite app_nil_r.
        split; [reflexivity|]. split; [lia|]. split; [reflexivity|].
        split; [now left | discriminate].
  - destruct (start ep (trace st) SSE) as [error|] eqn:Hs.
    + apply (Hfail SSE eq_refl error Hs).
    + cbn [fst snd]. destruct (Hok SSE eq_refl) as (? & ? & ?).
      split; [assumption|]. split; [assumption|]. split; [assumption|].
      split; [now left | discriminate].
  - destruct (start ep (trace st) HTTP) as [error|] eqn:Hs.
    + apply (Hfail HTTP eq_refl error Hs).
    + destruct (probe ep _) as [probeError|] eqn:Hp.
      * destruct (Hprobefail probeError eq_refl eq_refl) as (? & ? & ? & ?).
        split; [assumption|]. split; [assumption|]. split; [assumption|].
        split; [assumption | discriminate].
      * cbn [fst snd log_event trace recursionReasons].
        rewrite !started_snoc, !fallbacks_snoc, !decide_False by discriminate.
        rewrite app_nil_r.
        split; [reflexivity|]. split; [lia|]. split; [reflexivity|].
        split; [now left | discriminate].
Qed.

End PlainErrors.

Section ConnectedTransport.
Import Negotiator.

Lemma on_connect_error_not_connected strategy st error t st' :
  on_connect_error strategy st error <> (Settled (Ret t), st').
Proof.
  unfold on_connect_error. destruct (read_message error); [|discriminate].
  destruct (_ && _); discriminate.
Qed.

Lemma attempt_connected ep token customHeaders strategy st t st' :
  attempt ep token customHeaders strategy st = (Settled (Ret t), st') ->
  exists kind, last (started (trace st')) = Some kind /\
               start ep (trace st) kind = None /\
               t = wrap kind token customHeaders.
Proof.
  unfold attempt.
  repeat match goal with
  | |- context [if ?b then _ else _] => destruct b
  | |- context [match start ?e ?tr ?k with _ => _ end] => destruct (start e tr k) eqn:?
  | |- context [match probe ?e ?tr with _ => _ end] => destruct (probe e tr) eqn:?
  | |- context [match read_message ?e with _ => _ end] => destruct (read_message e)
  | |- on_connect_error _ _ _ = _ -> _ =>
      let Hc := fresh in intros Hc; now apply on_connect_error_not_connected in Hc
  end; try discriminate.
  all: intros [= <- <-]; eexists; cbn [log_event trace];
    rewrite ?started_snoc, ?app_nil_r, last_snoc; eauto.
Qed.

Lemma wrap_cases kind token customHeaders :
  (token_set token = true ->
   exists tok, token = Some tok /\
     wrap kind token customHeaders
     = AuthRefresh kind (AuthRefreshTransportWrapper.create tok customHeaders)) /\
  (token_set token = false -> customHeaders <> ∅ ->
   wrap kind token customHeaders = CustomHeaders kind customHeaders) /\
  (token_set token = false -> customHeaders = ∅ ->
   wrap kind token customHeaders = Bare kind).
Proof.
  unfold wrap. destruct token as [tok|]; cbn [token_set].
  - destruct (negb (tok =? "")%string) eqn:Ht; cbn [andb].
    + split; [|split; discriminate]. intros _. exists tok. split; [reflexivity|].
      destruct (bool_decide (customHeaders = ∅)) eqn:Hc; cbn [negb]; [|reflexivity].
      apply bool_decide_eq_true in Hc. now subst.
    + split; [discriminate|]. split; intros _ Hc.
      * rewrite bool_decide_eq_false_2 by exact Hc. reflexivity.
      * rewrite bool_decide_eq_true_2 by exact Hc. reflexivity.
  - split; [discriminate|]. split; intros _ Hc.
    + rewrite bool_decide_eq_false_2 by exact Hc. reflexivity.
    + rewrite bool_decide_eq_true_2 by exact Hc. reflexivity.
Qed.

(** X26. The transport a connection resolves to is the one started last,
    wrapped by what was given: the header-staging wrapper with the custom
    headers when there is a non-empty token, the custom-header wrapper when
    there are only custom headers, the bare transport otherwise. *)
Theorem connected_transport_is_wrapped (ep : Endpoint) (token : option string)
  (customHeaders : StringRecord.t) (strategy : TransportStrategy) (st st' : state)
  (t : Transport) :
  connectToRemoteServer ep token customHeaders strategy st = (Ret t, st') ->
  exists kind,
    last (started (trace st')) = Some kind /\
    (token_set token = true ->
     exists tok, token = Some tok /\
       t = AuthRefresh kind (AuthRefreshTransportWrapper.create tok customHeaders)) /\
    (token_set token = false -> customHeaders <> ∅ -> t = CustomHeaders kind customHeaders) /\
    (token_set token = false -> customHeaders = ∅ -> t = Bare kind).
Proof.
  funelim (connectToRemoteServer ep token customHeaders strategy st).
  - match goal with E : attempt _ _ _ _ _ = _ |- _ => rename E into Hatt end.
    intros [= Hr Hst]. pose proof Hatt as Hatt'. rewrite Hr, Hst in Hatt'.
    apply attempt_connected in Hatt' as (kind & Hl & _ & ->).
    exists kind. split; [exact Hl|]. apply wrap_cases.
  - auto.
Qed.

End ConnectedTransport.

(** ** Custom headers of the command line (index.ts) *)

Section CustomHeaders.
Variable env : string -> string.
Import Cli.

Lemma parse_loop_app headers args more :
  parse_loop env headers (args ++ more) =
  match parse_loop env headers args with
  | Parsed m => parse_loop env m more
  | Exit message => Exit message
  end.
Proof.
  revert headers; induction args as [|header args IH]; intros headers; [reflexivity|].
  cbn [app parse_loop]. destruct (indexOf ":" header); [|reflexivity].
  destruct (String.eqb _ ""); [reflexivity|]. apply IH.
Qed.

Lemma indexOf_append c k rest :
  indexOf c k = None -> indexOf c (k +:+ String c rest) = Some (String.length k).
Proof.
  induction k as [|a k IH]; cbn [indexOf].
  - intros _. change ("" +:+ String c rest) with (String c rest). cbn [indexOf].
    now rewrite Ascii.eqb_refl.
  - change (String a k +:+ String c rest) with (String a (k +:+ String c rest)).
    cbn [indexOf]. destruct (Ascii.eqb a c); [discriminate|].
    destruct (indexOf c k); [discriminate|]. intros _. rewrite IH by reflexivity. reflexivity.
Qed.

(** X27. [parseCustomHeaders] splits an argument at its first colon: the
    trimmed text before it is the name, the trimmed text after it, later
    colons included, is the value, and a later argument replaces an earlier
    one of the same name.  An argument with an empty name or without a
    colon ends the program, whatever follows. *)
Theorem header_is_split_at_its_first_colon (args : list string)
  (headers : StringRecord.t) (k v : string) :
  parseCustomHeaders env args = Parsed headers ->
  indexOf ":" k = None ->
  (trim k <> "" -> trim k <> "__proto__" ->
   parseCustomHeaders env (args ++ [k +:+ ":" +:+ v])
   = Parsed (<[trim k := expand env (trim v)]> headers)) /\
  (trim k = "" ->
   forall more, parseCustomHeaders env (args ++ (k +:+ ":" +:+ v) :: more)
                = Exit ("Error: Empty header key in '" +:+ (k +:+ ":" +:+ v) +:+ "'.")) /\
  (forall more, parseCustomHeaders env (args ++ k :: more)
                = Exit ("Error: Invalid header format '" +:+ k +:+ "'. Use format " +:+
                        double_quote +:+ "Key:Value" +:+ double_quote +:+ ".")).
Proof.
  intros Hargs Hk. unfold parseCustomHeaders in *.
  assert (indexOf ":" (k +:+ ":" +:+ v) = Some (String.length k)) as Hi
    by (apply (indexOf_append ":" k v Hk)).
  assert (take_str (String.length k) (k +:+ ":" +:+ v) = k) as Ht by apply take_str_app.
  assert (drop_str (S (String.length k)) (k +:+ ":" +:+ v) = v) as Hd.
  { clear. induction k as [|a k IH]; [reflexivity|]. exact IH. }
  split; [|split].
  - intros Hne Hproto. rewrite parse_loop_app, Hargs. cbn [parse_loop].
    rewrite Hi, Ht, Hd.
    apply String.eqb_neq in Hne, Hproto. rewrite Hne. unfold assign. rewrite Hproto.
    reflexivity.
  - intros He more. rewrite parse_loop_app, Hargs. cbn [parse_loop].
    rewrite Hi, Ht, He. reflexivity.
  - intros more. rewrite parse_loop_app, Hargs. cbn [parse_loop]. rewrite Hk. reflexivity.
Qed.

End CustomHeaders.


Section Expansion.
Variable env : string -> string.
Import Cli.

Definition is_not (x : ascii) (c : ascii) : bool := negb (Ascii.eqb c x).

Lemma length_String c s : String.length (String c s) = S (String.length s).
Proof. reflexivity. Qed.

Lemma span_name_length s :
  String.length (fst (span_name s)) + String.length (snd (span_name s)) = String.length s.
Proof.
  induction s as [|c s IH]; [reflexivity|]. cbn [span_name].
  destruct (Ascii.eqb c "}"); [reflexivity|].
  destruct (span_name s) as [name after]. cbn [fst snd] in *.
  rewrite !length_String. lia.
Qed.

Lemma match_variable_shorter s name after :
  match_variable s = Some (name, after) -> String.length after < String.length s.
Proof.
  unfold match_variable.
  destruct s as [|c1 s]; [discriminate|].
  destruct (Ascii.eqb c1 "$") eqn:E1.
  2:{ destruct c1 as [[] [] [] [] [] [] [] []]; try discriminate. }
  apply Ascii.eqb_eq in E1 as ->.
  destruct s as [|c2 body]; [discriminate|].
  destruct (Ascii.eqb c2 "{") eqn:E2.
  2:{ destruct c2 as [[] [] [] [] [] [] [] []]; try discriminate. }
  apply Ascii.eqb_eq in E2 as ->.
  pose proof (span_name_length body) as Hl.
  destruct (span_name body) as [[|c n] [|x a]]; try discriminate.
  intros [= _ <-]. cbn [fst snd] in Hl. rewrite !length_String in *. lia.
Qed.

Lemma expand_fuel_enough n m s :
  String.length s <= n -> String.length s <= m -> expand_fuel env n s = expand_fuel env m s.
Proof.
  revert m s; induction n as [|n IH]; intros m s Hn Hm.
  - destruct s; [|rewrite length_String in Hn; lia]. destruct m; reflexivity.
  - destruct m as [|m].
    { destruct s; [reflexivity | rewrite length_String in Hm; lia]. }
    cbn [expand_fuel].
    destruct (match_variable s) as [[name after]|] eqn:Hv.
    + apply match_variable_shorter in Hv. f_equal. apply IH; lia.
    + destruct s as [|c s]; [reflexivity|]. rewrite length_String in *.
      f_equal. apply IH; lia.
Qed.

Lemma expand_fuel_S n s :
  expand_fuel env (S n) s =
  match match_variable s with
  | Some (name, after) => env name +:+ expand_fuel env n after
  | None =>
      match s with
      | EmptyString => EmptyString
      | String c rest => String c (expand_fuel env n rest)
      end
  end.
Proof. reflexivity. Qed.

Lemma expand_plain c s :
  Ascii.eqb c "$" = false -> expand env (String c s) = String c (expand env s).
Proof.
  intros Hc. unfold expand. rewrite length_String, expand_fuel_S.
  assert (match_variable (String c s) = None) as ->.
  { destruct c as [[] [] [] [] [] [] [] []]; try discriminate; reflexivity. }
  reflexivity.
Qed.

Lemma span_name_closed name rest :
  all_chars (is_not "}") name = true ->
  span_name (name +:+ String "}" rest) = (name, String "}" rest).
Proof.
  induction name as [|c name IH]; [reflexivity|].
  cbn [all_chars]. intros Hc. apply andb_prop in Hc as [Hc Hn].
  change (String c name +:+ String "}" rest) with (String c (name +:+ String "}" rest)).
  cbn [span_name]. unfold is_not in Hc. apply negb_true_iff in Hc. rewrite Hc.
  now rewrite (IH Hn).
Qed.

Lemma expand_variable name post :
  name <> "" -> all_chars (is_not "}") name = true ->
  expand env ("${" +:+ name +:+ "}" +:+ post) = env name +:+ expand env post.
Proof.
  intros Hne Hn. unfold expand at 1.
  change ("${" +:+ name +:+ "}" +:+ post)
    with (String "$" (String "{" (name +:+ String "}" post))).
  rewrite !length_String, expand_fuel_S.
  assert (match_variable (String "$" (String "{" (name +:+ String "}" post)))
          = Some (name, post)) as ->.
  { unfold match_variable. rewrite (span_name_closed name post Hn).
    destruct name; [congruence | reflexivity]. }
  f_equal. apply expand_fuel_enough; [|lia].
  rewrite length_append, length_String. lia.
Qed.

(** X28. A reference [${NAME}] in a header value is replaced by the
    environment's text for [NAME], the text before it is kept, and the text
    after it is expanded in turn; text without a dollar sign is kept as it
    is. *)
Theorem variable_is_expanded_from_the_environment (before name after : string) :
  all_chars (is_not "$") before = true ->
  name <> "" -> all_chars (is_not "}") name = true ->
  expand env (before +:+ "${" +:+ name +:+ "}" +:+ after)
    = before +:+ env name +:+ expand env after /\
  expand env before = before.
Proof.
  intros Hb Hne Hn. induction before as [|c before IH].
  - split; [apply (expand_variable name after Hne Hn) | reflexivity].
  - cbn [all_chars] in Hb. apply andb_prop in Hb as [Hc Hb].
    unfold is_not in Hc. apply negb_true_iff in Hc.
    destruct (IH Hb) as [IH1 IH2].
    change (String c before +:+ "${" +:+ name +:+ "}" +:+ after)
      with (String c (before +:+ "${" +:+ name +:+ "}" +:+ after)).
    rewrite !(expand_plain c _ Hc), IH1, IH2. split; reflexivity.
Qed.

End Expansion.

(** ** Private keys (wallet/walletService.ts) *)

Section PrivateKey.
Import Wallet.

Lemma hex_not_prefix3 (c1 c2 c3 : ascii) (x1 x2 x3 : ascii) (rest : string) :
  is_hex_digit x3 = false \/ is_hex_digit x2 = false ->
  all_chars is_hex_digit (String c1 (String c2 (String c3 rest))) = true ->
  String.prefix (String x1 (String x2 (String x3 "")))
                (String c1 (String c2 (String c3 rest))) = false.
Proof.
  intros Hx. cbn [all_chars String.prefix]. rewrite !andb_true_iff.
  intros (_ & H2 & H3 & _).
  destruct (ascii_dec x1 c1); [|reflexivity].
  destruct (ascii_dec x2 c2) as [->|]; [|reflexivity].
  destruct (ascii_dec x3 c3) as [->|]; [|reflexivity].
  destruct Hx; congruence.
Qed.

Lemma key_is_no_token h :
  String.length h = 64 -> all_chars is_hex_digit h = true ->
  startsWith h "aa-" = false /\ startsWith h "0x" = false.
Proof.
  intros Hl Hh. unfold startsWith.
  destruct h as [|c1 [|c2 [|c3 rest]]]; try discriminate Hl.
  split.
  - apply hex_not_prefix3; [left; reflexivity | exact Hh].
  - revert Hh. cbn [all_chars String.prefix]. rewrite !andb_true_iff. intros (_ & H2 & _).
    destruct (ascii_dec "0" c1); [|reflexivity].
    destruct (ascii_dec "x" c2) as [<-|]; [discriminate H2 | reflexivity].
Qed.

Lemma is_private_key_inv key :
  is_private_key key = true ->
  exists h, key = "0x" +:+ h /\ String.length h = 64 /\ all_chars is_hex_digit h = true.
Proof.
  unfold is_private_key.
  destruct key as [|[[] [] [] [] [] [] [] []] key]; try discriminate.
  destruct key as [|[[] [] [] [] [] [] [] []] h]; try discriminate.
  rewrite andb_true_iff, Nat.eqb_eq. intros [? ?]. exists h. auto.
Qed.

Lemma derivePrivateKey_forms h :
  String.length h = 64 -> all_chars is_hex_digit h = true ->
  derivePrivateKey h = Ret ("0x" +:+ h) /\
  derivePrivateKey ("0x" +:+ h) = Ret ("0x" +:+ h) /\
  derivePrivateKey ("aa-" +:+ h) = Ret ("0x" +:+ h) /\
  derivePrivateKey ("aa-0x" +:+ h) = Ret ("0x" +:+ h).
Proof.
  intros Hl Hh. destruct (key_is_no_token h Hl Hh) as [Haa H0x].
  assert (is_private_key ("0x" +:+ h) = true) as Hkey.
  { change ("0x" +:+ h) with (String "0" (String "x" h)). cbn [is_private_key].
    rewrite Hl, Hh. reflexivity. }
  assert (drop_str 3 ("aa-" +:+ h) = h) as Hd1 by apply (drop_str_app "aa-" h).
  assert (drop_str 3 ("aa-" +:+ ("0x" +:+ h)) = "0x" +:+ h) as Hd2
    by apply (drop_str_app "aa-" ("0x" +:+ h)).
  assert (forall s, startsWith ("0x" +:+ s) "aa-" = false) as Hn1 by reflexivity.
  assert (forall s, startsWith ("0x" +:+ s) "0x" = true) as Hn2.
  { intros s. unfold startsWith. change ("0x" +:+ s) with (String "0" (String "x" s)).
    cbn [String.prefix]. destruct (ascii_dec "0" "0"); [|congruence].
    destruct (ascii_dec "x" "x"); [|congruence]. destruct s; reflexivity. }
  assert (forall s, startsWith ("aa-" +:+ s) "aa-" = true) as Hn3.
  { intros s. unfold startsWith.
    change ("aa-" +:+ s) with (String "a" (String "a" (String "-" s))).
    cbn [String.prefix]. destruct (ascii_dec "a" "a"); [|congruence].
    destruct (ascii_dec "-" "-"); [|congruence]. destruct s; reflexivity. }
  unfold derivePrivateKey. cbv zeta. repeat split.
  - rewrite Haa, H0x. cbv iota. rewrite Hkey. reflexivity.
  - rewrite Hn1. cbv iota. rewrite Hn2. cbv iota. rewrite Hkey. reflexivity.
  - rewrite Hn3. cbv iota. rewrite Hd1, H0x. cbv iota. rewrite Hkey. reflexivity.
  - change ("aa-0x" +:+ h) with ("aa-" +:+ ("0x" +:+ h)).
    rewrite Hn3. cbv iota. rewrite Hd2, Hn2. cbv iota. rewrite Hkey. reflexivity.
Qed.

(** X29. The private key [derivePrivateKey] returns is [0x] followed by 64
    hexadecimal digits; the token was that key, with or without [0x] and
    with or without the prefix [aa-], and all four forms give the same
    key. *)
Theorem private_key_has_one_normal_form (token key : string) :
  derivePrivateKey token = Ret key ->
  exists h,
    key = "0x" +:+ h /\ String.length h = 64 /\ all_chars is_hex_digit h = true /\
    (token = h \/ token = "0x" +:+ h \/ token = "aa-" +:+ h \/ token = "aa-0x" +:+ h) /\
    derivePrivateKey h = Ret key /\
    derivePrivateKey ("0x" +:+ h) = Ret key /\
    derivePrivateKey ("aa-" +:+ h) = Ret key /\
    derivePrivateKey ("aa-0x" +:+ h) = Ret key.
Proof.
  unfold derivePrivateKey at 1.
  set (clean := if startsWith token "aa-" then drop_str 3 token else token).
  set (pk := if startsWith clean "0x" then clean else "0x" +:+ clean).
  destruct (is_private_key pk) eqn:Hpk; cbn [negb]; [|discriminate].
  intros [= <-].
  destruct (is_private_key_inv _ Hpk) as (h & Hkey & Hl & Hh).
  exists h. rewrite Hkey.
  destruct (derivePrivateKey_forms h Hl Hh) as (F1 & F2 & F3 & F4).
  repeat split; auto.
  assert (forall a b, String.prefix a b = true -> b = a +:+ drop_str (String.length a) b)
    as Hprefix.
  { induction a as [|x a IH]; intros b Hp; [reflexivity|].
    destruct b as [|y b]; [discriminate|]. cbn [String.prefix] in Hp.
    destruct (ascii_dec x y) as [->|]; [|discriminate].
    change (String y b = String y (a +:+ drop_str (String.length a) b)).
    f_equal. auto. }
  assert (clean = h \/ clean = "0x" +:+ h) as Hclean.
  { subst pk. destruct (startsWith clean "0x") eqn:E; [right; exact Hkey|left].
    change ("0x" +:+ clean) with (String "0" (String "x" clean)) in Hkey.
    change ("0x" +:+ h) with (String "0" (String "x" h)) in Hkey. congruence. }
  subst clean. destruct (startsWith token "aa-") eqn:E.
  - apply Hprefix in E. change (String.length "aa-") with 3 in E.
    destruct Hclean as [Hc|Hc]; rewrite Hc in E; auto.
  - destruct Hclean as [->| ->]; auto.
Qed.

End PrivateKey.

(** ** The model at work: concrete requests under the reference library *)

Module Examples.
Import Reference.

Definition usdc_base : string := "0x833589fcd6edb6e08f4c7c32d4f71b54bda02913".
Definition payee : string := "0x616f5ab2095ea299a3c819bf5b381ea342bafbc9".

(** A wallet with the given balances that answers every other call *)
Definition wallet (usdc eth : string) : WalletService := {|
  getWalletBalances := Ret (usdc, eth);
  getCurrentChainId := VNum (num_of_Z 8453);
  configureForChain := fun _ => Ret tt;
  estimateTxCost := fun _ => Ret "0.00001";
  getTransactionCount := Ret (VNum (num_of_Z 0));
  getGasPrice := Ret (VStr "1000000");
  signTransaction := fun _ => Ret "0xf86b";
  getAddress := "0x1111111111111111111111111111111111111111"
|}.

(** [transfer(payee, 1000000)]: one USDC *)
Definition transfer_one_usdc : string :=
  "0xa9059cbb000000000000000000000000616f5ab2095ea299a3c819bf5b381ea342bafbc900000000000000000000000000000000000000000000000000000000000f4240".

Definition template (to data : string) (chainId : Z) : value :=
  VObj [("to", VStr to); ("data", VStr data); ("value", VStr "0x0");
        ("chainId", VNum (num_of_Z chainId)); ("gasLimit", VStr "50000")].

(** A [tools/call] request replayed with the approval fields *)
Definition approval (transaction : value) : value :=
  VObj [("jsonrpc", VStr "2.0"); ("id", VNum (num_of_Z 7)); ("method", VStr "tools/call");
        ("params", VObj [("name", VStr "get_weather");
                         ("arguments", VObj [("city", VStr "Paris");
                                             ("aa_payment_approved", VBool true);
                                             ("aa_payment_transaction", transaction)])])].

Definition pay_one_usdc : value := approval (template usdc_base transfer_one_usdc 8453).

Example transfer_is_encoded :
  encodeTransfer (VStr payee) "1000000" = Ret transfer_one_usdc.
Proof. vm_compute. reflexivity. Qed.

Example funded_request_gets_headers :
  match PaymentHandler.processPaymentAuthorization
          (PaymentHandler.create (wallet "2.5" "0.01")) pay_one_usdc with
  | Ret (PaymentHandler.AuthHeaders headers) =>
      headers !! "x-agentpay-authorization" = Some "0xf86b" /\
      headers !! "x-agentpay-from" = Some "0x1111111111111111111111111111111111111111"
  | _ => False
  end.
Proof. vm_compute. split; reflexivity. Qed.

(** What the authorization returns for balance 0.5 (and 0.25) against a
    required amount of 1.0 *)
Example insufficient_half :
  PaymentHandler.processPaymentAuthorization
    (PaymentHandler.create (wallet "0.5" "0.01")) pay_one_usdc
  = Ret (PaymentHandler.AuthError "Insufficient USDC balance. Required: 1, Available: 0.5").
Proof. vm_compute. reflexivity. Qed.

Example insufficient_quarter :
  PaymentHandler.processPaymentAuthorization
    (PaymentHandler.create (wallet "0.25" "0.01")) pay_one_usdc
  = Ret (PaymentHandler.AuthError "Insufficient USDC balance. Required: 1, Available: 0.25").
Proof. vm_compute. reflexivity. Qed.

(** An authorization result names a shortfall when it is an error whose
    text contains the shortfall. *)
Definition names_shortfall (r : completion PaymentHandler.AuthorizationResult)
  (shortfall : string) : Prop :=
  exists error, r = Ret (PaymentHandler.AuthError error) /\ includes error shortfall = true.

(** C4, as stated, fails.  With balance 0.5 against a required amount of
    1.0 the error names the required amount and the balance; no shortfall is
    reported.  With balance 0.25 the shortfall is 0.75, and 0.75 occurs
    nowhere in the error. *)
Lemma insufficient_funds_error_omits_shortfall :
  PaymentHandler.processPaymentAuthorization
    (PaymentHandler.create (wallet "0.5" "0.01")) pay_one_usdc
  = Ret (PaymentHandler.AuthError "Insufficient USDC balance. Required: 1, Available: 0.5") /\
  ~ names_shortfall
      (PaymentHandler.processPaymentAuthorization
         (PaymentHandler.create (wallet "0.25" "0.01")) pay_one_usdc)
      "0.75".
Proof.
  split; [exact insufficient_half|].
  intros (error & Hr & Hin). rewrite insufficient_quarter in Hr.
  injection Hr as <-. vm_compute in Hin. discriminate.
Qed.

(** C4: the amended statement at the request above *)
Lemma insufficient_asset_witness :
  PaymentHandler.protocols (PaymentHandler.create (wallet "0.5" "0.01")) !! "agentpay-v002"
    = Some AgentPay.protocol /\
  AgentPay.fixTruncatedTransactionData (template usdc_base transfer_one_usdc 8453)
    = Ret (template usdc_base transfer_one_usdc 8453) /\
  AgentPay.validateTransactionTemplate (template usdc_base transfer_one_usdc 8453)
    = Ret {| Protocol.valid := true; Protocol.errors := [] |} /\
  num_ltb (parseFloat "0.5")
    (PaymentHandler.extractAmountFromTransaction (template usdc_base transfer_one_usdc 8453))
    = true /\
  PaymentHandler.authorize (PaymentHandler.create (wallet "0.5" "0.01"))
    (template usdc_base transfer_one_usdc 8453)
  = Ret (PaymentHandler.AuthError "Insufficient USDC balance. Required: 1, Available: 0.5").
Proof.
  assert (PaymentHandler.protocols (PaymentHandler.create (wallet "0.5" "0.01"))
            !! "agentpay-v002" = Some AgentPay.protocol) as Hp
    by apply create_agentpay.
  assert (AgentPay.fixTruncatedTransactionData (template usdc_base transfer_one_usdc 8453)
          = Ret (template usdc_base transfer_one_usdc 8453)) as Hf
    by (vm_compute; reflexivity).
  assert (AgentPay.validateTransactionTemplate (template usdc_base transfer_one_usdc 8453)
          = Ret {| Protocol.valid := true; Protocol.errors := [] |}) as Hv
    by (vm_compute; reflexivity).
  assert (num_ltb (parseFloat "0.5")
            (PaymentHandler.extractAmountFromTransaction
               (template usdc_base transfer_one_usdc 8453)) = true) as Hlt
    by (vm_compute; reflexivity).
  split; [exact Hp|]. split; [exact Hf|]. split; [exact Hv|]. split; [exact Hlt|].
  exact (insufficient_asset_reports_required_and_available
           (PaymentHandler.create (wallet "0.5" "0.01"))
           (template usdc_base transfer_one_usdc 8453)
           (template usdc_base transfer_one_usdc 8453)
           AgentPay.protocol {| Protocol.valid := true; Protocol.errors := [] |}
           "0.5" "0.01" Hp Hf Hv eq_refl eq_refl Hlt).
Defined.

(** C10 at a template whose data are the bare selector: nothing to decode *)
Definition bare_selector : value :=
  template "0x2222222222222222222222222222222222222222" "0xa9059cbb" 8453.

Lemma undecodable_amount_witness :
  no_decodable_amount bare_selector /\
  AgentPay.validateTransactionTemplate bare_selector
    = Ret {| Protocol.valid := true; Protocol.errors := [] |} /\
  num_ltb (parseFloat "0") (num_of_Z 0) = false /\
  PaymentHandler.extractAmountFromTransaction bare_selector = num_of_Z 0 /\
  PaymentHandler.authorize (PaymentHandler.create (wallet "0" "0.01")) bare_selector =
    PaymentHandler.authorize_funded AgentPay.protocol (wallet "0" "0.01") bare_selector
      (parseFloat "0.01").
Proof.
  assert (no_decodable_amount bare_selector) as Hno.
  { intros s Hs _. vm_compute in Hs. injection Hs as <-. vm_compute. reflexivity. }
  assert (AgentPay.validateTransactionTemplate bare_selector
          = Ret {| Protocol.valid := true; Protocol.errors := [] |}) as Hv
    by (vm_compute; reflexivity).
  assert (num_ltb (parseFloat "0") (num_of_Z 0) = false) as Hb by (vm_compute; reflexivity).
  split; [exact Hno|]. split; [exact Hv|]. split; [exact Hb|].
  exact (undecodable_amount_is_zero_and_passes
             (PaymentHandler.create (wallet "0" "0.01")) bare_selector bare_selector
             AgentPay.protocol {| Protocol.valid := true; Protocol.errors := [] |}
             "0" "0.01" Hno (create_agentpay _) eq_refl Hv eq_refl eq_refl Hb).
Defined.

(** C9 at a Base Sepolia template *)
Definition pay_on_sepolia : value :=
  approval (template "0x036cbd53842c5426634e7929541ec2318f3dcf7e" transfer_one_usdc 84532).

Lemma base_sepolia_witness :
  submitted_transaction pay_on_sepolia
    = Ret (template "0x036cbd53842c5426634e7929541ec2318f3dcf7e" transfer_one_usdc 84532) /\
  is_num (VNum (num_of_Z 84532)) 84532 = true /\
  exists error,
    PaymentHandler.processPaymentAuthorization
      (PaymentHandler.create (wallet "10" "0.01")) pay_on_sepolia
    = Ret (PaymentHandler.AuthError error).
Proof.
  split; [reflexivity|]. split; [reflexivity|].
  apply (base_sepolia_template_is_rejected (wallet "10" "0.01") pay_on_sepolia
           (template "0x036cbd53842c5426634e7929541ec2318f3dcf7e" transfer_one_usdc 84532)
           (VNum (num_of_Z 84532)) eq_refl eq_refl eq_refl).
Defined.

Example base_sepolia_error_text :
  PaymentHandler.processPaymentAuthorization
    (PaymentHandler.create (wallet "10" "0.01")) pay_on_sepolia
  = Ret (PaymentHandler.AuthError
           "Invalid transaction: Unexpected chain ID: 84532 (expected Base mainnet: 8453)").
Proof. vm_compute. reflexivity. Qed.

(** C7 at a truncated transfer: the amount word lost its leading zeros *)
Definition truncated : value :=
  template usdc_base
    "0xa9059cbb000000000000000000000000616f5ab2095ea299a3c819bf5b381ea342bafbc9f4240" 8453.

Example truncated_is_repaired :
  AgentPay.fixTruncatedTransactionData truncated
  = Ret (template usdc_base transfer_one_usdc 8453).
Proof. vm_compute. reflexivity. Qed.

Lemma repair_witness :
  ~ in_repair_window (template usdc_base transfer_one_usdc 8453) /\
  AgentPay.fixTruncatedTransactionData (template usdc_base transfer_one_usdc 8453)
    = Ret (template usdc_base transfer_one_usdc 8453) /\
  (AgentPay.fixTruncatedTransactionData truncated ≫= AgentPay.fixTruncatedTransactionData
   = AgentPay.fixTruncatedTransactionData truncated).
Proof.
  assert (~ in_repair_window (template usdc_base transfer_one_usdc 8453)) as Hout.
  { intros (s & Hs & _ & Hl). vm_compute in Hs. injection Hs as <-.
    vm_compute in Hl. destruct Hl as [_ Hl]. apply Nat.lt_irrefl in Hl. exact Hl. }
  split; [exact Hout|]. split; [reflexivity|].
  exact (proj1 (repair_idempotent_and_windowed truncated)).
Defined.

(** *** The proxy *)

(** No enrichment is needed by the examples: they stay on the pass-through
    path. *)
Definition no_enrichment (h : PaymentHandler.t) (m : value) (last : option value)
  : completion value := Ret m.

Definition proxy : McpProxy.t :=
  McpProxy.create (McpProxy.Staging (AuthRefreshTransportWrapper.create "aa-token" ∅))
    (Some (wallet "2.5" "0.01")).

Definition initialize_request (clientName : string) : value :=
  VObj [("jsonrpc", VStr "2.0"); ("id", VNum (num_of_Z 0)); ("method", VStr "initialize");
        ("params", VObj [("protocolVersion", VStr "2025-03-26");
                         ("capabilities", VObj []);
                         ("clientInfo", VObj [("name", VStr clientName);
                                              ("version", VStr "1.0.0")])])].

Definition tools_list : value :=
  VObj [("jsonrpc", VStr "2.0"); ("id", VNum (num_of_Z 1)); ("method", VStr "tools/list")].

Definition tools_result : value :=
  VObj [("jsonrpc", VStr "2.0"); ("id", VNum (num_of_Z 1));
        ("result", VObj [("tools", VArr [])])].

(** C1, as stated, fails: an [initialize] request has no payment indicators,
    and what reaches the remote side is not the message received: the
    client name has been extended. *)
Lemma initialize_is_rewritten :
  PaymentHandler.hasPaymentAuthorization (initialize_request "claude-ai") = Ret false /\
  snd (McpProxy.onClientMessage proxy (initialize_request "claude-ai"))
    = Ret [McpProxy.SendToServer (initialize_request "claude-ai (via agentauth-mcp 0.1.0)")] /\
  initialize_request "claude-ai (via agentauth-mcp 0.1.0)" <> initialize_request "claude-ai".
Proof.
  split; [vm_compute; reflexivity|]. split; [vm_compute; reflexivity|]. discriminate.
Qed.

(** C1 (amended) at a [tools/list] request and its answer *)
Lemma passthrough_witness :
  has_in "method" tools_list = Ret true /\
  no_authorization proxy tools_list /\
  snd (McpProxy.onClientMessage proxy tools_list) = Ret [McpProxy.SendToServer tools_list].
Proof.
  assert (has_in "method" tools_list = Ret true) as Hin by (vm_compute; reflexivity).
  assert (no_authorization proxy tools_list) as Hna by (right; vm_compute; reflexivity).
  split; [exact Hin|]. split; [exact Hna|].
  assert (get tools_list "method" = Ret (VStr "tools/list")) as Hm by (vm_compute; reflexivity).
  exact (proj1 (proj2 (passthrough_except_initialize no_enrichment proxy tools_list true Hin))
           (VStr "tools/list") Hm eq_refl Hna).
Defined.

(** An [initialize] request without [params] is not forwarded: the handler
    ends in a [TypeError]. *)
Example initialize_without_params :
  snd (McpProxy.onClientMessage proxy
         (VObj [("jsonrpc", VStr "2.0"); ("id", VNum (num_of_Z 0));
                ("method", VStr "initialize")]))
  = Throw TypeError.
Proof. vm_compute. reflexivity. Qed.

Example answer_passes_through :
  McpProxy.onServerMessage no_enrichment proxy tools_result
  = Ret (proxy, [McpProxy.SendToClient tools_result]).
Proof.
  apply (onServerMessage_passthrough no_enrichment proxy tools_result false).
  - vm_compute. reflexivity.
  - right. exists (PaymentHandler.create (wallet "2.5" "0.01")). split; [reflexivity|].
    vm_compute. reflexivity.
Qed.

(** *** The header slot *)

Definition wrapper : AuthRefreshTransportWrapper.t :=
  AuthRefreshTransportWrapper.create "aa-token" {["X-Tenant" := "acme"]}.

Definition payment_headers : StringRecord.t :=
  <["x-agentpay-from" := "0x1111111111111111111111111111111111111111"]>
    {["x-agentpay-authorization" := "0xf86b"]}.

Definition post : AuthRefreshTransportWrapper.RequestInit :=
  {| AuthRefreshTransportWrapper.method := Some "POST";
     AuthRefreshTransportWrapper.headers := Some [("Content-Type", "application/json")];
     AuthRefreshTransportWrapper.body := Some "{}" |}.

Definition fresh (now : string) : StringRecord.t :=
  <["X-AgentAuth-Payload" := "payload(" +:+ now +:+ ")"]>
    (<["X-AgentAuth-Signature" := "signature(" +:+ now +:+ ",aa-token)"]>
       {["X-AgentAuth-Address" := "address(aa-token)"]}).

(** The POST that reaches the original [fetch] with the given headers *)
Definition sent (headers : Fetch.Headers) : AuthRefreshTransportWrapper.FetchCall :=
  {| AuthRefreshTransportWrapper.input := "https://mcp.example/mcp";
     AuthRefreshTransportWrapper.init_method := Some "POST";
     AuthRefreshTransportWrapper.init_body := Some "{}";
     AuthRefreshTransportWrapper.init_headers := AuthRefreshTransportWrapper.Rebuilt headers |}.

Definition first_headers : Fetch.Headers :=
  [("content-type", "application/json");
   ("x-agentauth-address", "address(aa-token)");
   ("x-agentauth-signature", "signature(2025-06-01T10:00:00.000Z,aa-token)");
   ("x-agentauth-payload", "payload(2025-06-01T10:00:00.000Z)");
   ("x-tenant", "acme");
   ("x-agentpay-authorization", "0xf86b");
   ("x-agentpay-from", "0x1111111111111111111111111111111111111111")].

Definition second_headers : Fetch.Headers :=
  [("content-type", "application/json");
   ("x-agentauth-address", "address(aa-token)");
   ("x-agentauth-signature", "signature(2025-06-01T10:00:01.000Z,aa-token)");
   ("x-agentauth-payload", "payload(2025-06-01T10:00:01.000Z)");
   ("x-tenant", "acme")].

Example first_post :
  AuthRefreshTransportWrapper.interceptFetch
    (AuthRefreshTransportWrapper.setPaymentHeadersForNextRequest payment_headers wrapper)
    "2025-06-01T10:00:00.000Z" "https://mcp.example/mcp" (Some post)
  = (wrapper, Ret (sent first_headers)).
Proof. vm_compute. reflexivity. Qed.

Example second_post :
  AuthRefreshTransportWrapper.interceptFetch wrapper
    "2025-06-01T10:00:01.000Z" "https://mcp.example/mcp" (Some post)
  = (wrapper, Ret (sent second_headers)).
Proof. vm_compute. reflexivity. Qed.

(** C2, as stated, fails: with two static custom headers that differ from a
    staged name in letter case only, the first send carries the static
    value under the staged name. *)
Definition clashing : AuthRefreshTransportWrapper.t :=
  AuthRefreshTransportWrapper.create "aa-token"
    (<["X-Agentpay-From" := "b"]> {["x-agentpay-from" := "a"]}).

Lemma staged_header_is_overwritten :
  payment_headers !! "x-agentpay-from" = Some "0x1111111111111111111111111111111111111111" /\
  exists headers,
    snd (AuthRefreshTransportWrapper.interceptFetch
           (AuthRefreshTransportWrapper.setPaymentHeadersForNextRequest payment_headers clashing)
           "2025-06-01T10:00:00.000Z" "https://mcp.example/mcp" (Some post))
    = Ret (sent headers) /\
    Fetch.get headers "x-agentpay-from" = Ret (Some "b").
Proof.
  split; [reflexivity|].
  exists [("content-type", "application/json");
          ("x-agentauth-address", "address(aa-token)");
          ("x-agentauth-signature", "signature(2025-06-01T10:00:00.000Z,aa-token)");
          ("x-agentauth-payload", "payload(2025-06-01T10:00:00.000Z)");
          ("x-agentpay-from", "b");
          ("x-agentpay-authorization", "0xf86b")].
  split; vm_compute; reflexivity.
Qed.

(** C2 (amended) at the payment headers of AgentPay, with one static custom
    header *)
Lemma staged_headers_witness :
  AuthRefreshTransportWrapper.pendingPaymentHeaders wrapper = None /\
  Fetch.get first_headers "x-agentpay-authorization" = Ret (Some "0xf86b") /\
  Fetch.get first_headers "x-agentpay-from"
    = Ret (Some "0x1111111111111111111111111111111111111111") /\
  Fetch.get second_headers "x-agentpay-authorization" = Ret None /\
  Fetch.get second_headers "x-agentpay-from" = Ret None.
Proof.
  assert (NoDup (StringRecord.keys payment_headers)) as Hnd
    by (apply (bool_decide_unpack _); vm_compute; exact I).
  assert (snd (AuthRefreshTransportWrapper.interceptFetch
                 (AuthRefreshTransportWrapper.setPaymentHeadersForNextRequest
                    payment_headers wrapper)
                 "2025-06-01T10:00:00.000Z" "https://mcp.example/mcp" (Some post))
          = Ret (sent first_headers)) as H1 by (rewrite first_post; reflexivity).
  assert (snd (AuthRefreshTransportWrapper.interceptFetch
                 (fst (AuthRefreshTransportWrapper.interceptFetch
                         (AuthRefreshTransportWrapper.setPaymentHeadersForNextRequest
                            payment_headers wrapper)
                         "2025-06-01T10:00:00.000Z" "https://mcp.example/mcp" (Some post)))
                 "2025-06-01T10:00:01.000Z" "https://mcp.example/mcp" (Some post))
          = Ret (sent second_headers)) as H2 by (rewrite first_post; cbn [fst]; rewrite second_post; reflexivity).
  destruct (staged_headers_are_sent_once wrapper payment_headers
              "2025-06-01T10:00:00.000Z" "2025-06-01T10:00:01.000Z"
              "https://mcp.example/mcp" "https://mcp.example/mcp" post post
              (sent first_headers) (sent second_headers) eq_refl eq_refl Hnd H1 H2)
    as (Hnone & _ & fresh1 & fresh2 & sent1 & sent2 & Hf1 & Hf2 & Hs1 & Hs2 & Hcarried & Habsent).
  injection Hs1 as <-. injection Hs2 as <-.
  injection Hf1 as <-. injection Hf2 as <-.
  rewrite first_post in Hnone.
  split; [exact Hnone|].
  split; [apply (Hcarried "x-agentpay-authorization" "0xf86b" eq_refl);
          apply alone_among_check; vm_compute; reflexivity|].
  split; [apply (Hcarried "x-agentpay-from" "0x1111111111111111111111111111111111111111"
                   eq_refl);
          apply alone_among_check; vm_compute; reflexivity|].
  split; apply Habsent;
    try (apply unused_among_check; vm_compute; reflexivity);
    apply (bool_decide_unpack _); vm_compute; exact I.
Defined.

(** *** The negotiator *)

(** An endpoint that answers every start with 404 and every probe with 405 *)
Definition wrong_transport : Negotiator.Endpoint := {|
  Negotiator.start := fun _ _ => Some (JSError "Error POSTing to endpoint (HTTP 404): Not Found");
  Negotiator.probe := fun _ => Some (JSError "HTTP 405 Method Not Allowed")
|}.

Definition fresh_connection : Negotiator.state :=
  {| Negotiator.recursionReasons := ∅; Negotiator.trace := [] |}.


Example sse_first_trace :
  Negotiator.connectToRemoteServer wrong_transport None ∅ Negotiator.SseFirst fresh_connection
  = (Throw (JSError "Error POSTing to endpoint (HTTP 404): Not Found"),
     {| Negotiator.recursionReasons := {[Negotiator.REASON_TRANSPORT_FALLBACK]} ∪ ∅;
        Negotiator.trace := [Negotiator.Start Negotiator.SSE; Negotiator.Fallback;
                             Negotiator.Start Negotiator.HTTP] |}).
Proof. vm_compute. reflexivity. Qed.


(** *** Detection and extraction *)

Definition requirement (amount : string) : value :=
  VObj [("scheme", VStr "exact"); ("network", VStr "base");
        ("maxAmountRequired", VStr amount);
        ("resource", VStr "http://localhost:4021/weather");
        ("description", VStr "Weather report"); ("mimeType", VStr "");
        ("payTo", VStr payee); ("maxTimeoutSeconds", VNum (num_of_Z 60));
        ("asset", VStr usdc_base);
        ("extra", VObj [("name", VStr "USD Coin"); ("version", VStr "2")])].

(** A payload with the indicators of both protocols, in two key orders *)
Definition both_indicators : list (string * value) :=
  [("error", VStr "payment_required"); ("code", VNum (num_of_Z 402));
   ("amount", VStr "1.0"); ("currency", VStr "USDC");
   ("x402Version", VNum (num_of_Z 1)); ("accepts", VArr [requirement "1000000"])].

Definition challenge (payload : list (string * value)) : value :=
  VObj [("jsonrpc", VStr "2.0"); ("id", VNum (num_of_Z 3));
        ("error", VObj [("code", VNum (num_of_Z (-32001)));
                        ("message", VStr "Payment Required");
                        ("data", VObj payload)])].

Lemma x402_priority_witness :
  extractMCPResponseData (challenge (rev both_indicators)) = VObj (rev both_indicators) /\
  Permutation both_indicators (rev both_indicators) /\
  NoDup (map fst both_indicators) /\
  exists det,
    ProtocolDetector.detectProtocol
      (PaymentHandler.protocolDetector (PaymentHandler.create (wallet "2.5" "0.01")))
      (challenge (rev both_indicators)) = Ret (Some det) /\
    ProtocolDetector.name det = "x402" /\
    ProtocolDetector.extractedData det = VObj (rev both_indicators) /\
    AgentPay.isPaymentRequired (VObj (rev both_indicators)) = Ret false.
Proof.
  assert (extractMCPResponseData (challenge (rev both_indicators))
          = VObj (rev both_indicators)) as Hex by (vm_compute; reflexivity).
  assert (NoDup (map fst both_indicators)) as Hnd
    by (apply (bool_decide_unpack _); vm_compute; exact I).
  split; [exact Hex|]. split; [apply Permutation_rev|]. split; [exact Hnd|].
  exact (x402_has_priority (wallet "2.5" "0.01") (challenge (rev both_indicators))
           both_indicators (rev both_indicators) (VNum (num_of_Z 1)) [requirement "1000000"]
           Hex (Permutation_rev _) Hnd eq_refl eq_refl eq_refl).
Defined.

(** Detection on hostile input: a message that is no object, an empty
    payload, text that is not JSON *)
Example detection_survives :
  let detector := PaymentHandler.protocolDetector (PaymentHandler.create (wallet "2.5" "0.01")) in
  ProtocolDetector.detectProtocol detector VNull = Ret None /\
  ProtocolDetector.detectProtocol detector (VObj [("id", VNum (num_of_Z 1))]) = Ret None /\
  ProtocolDetector.detectProtocol detector
    (VObj [("id", VNum (num_of_Z 1));
           ("result", VObj [("content", VArr [VObj [("type", VStr "text");
                                                 ("text", VStr "{not json")]])])])
  = Ret None.
Proof. cbv zeta. repeat split; vm_compute; reflexivity. Qed.

(** A detector whose first predicate throws goes on to the next one. *)
Definition throwing : PaymentProtocol := {|
  Protocol.isPaymentRequired := fun _ => Throw (JSError "boom");
  Protocol.fixTruncatedTransactionData := fun t => Ret t;
  Protocol.validateTransactionTemplate :=
    fun _ => Ret {| Protocol.valid := true; Protocol.errors := [] |};
  Protocol.signPaymentTransaction := fun _ _ => Throw (JSError "boom");
  Protocol.createAuthorizationHeaders := fun _ _ => Throw (JSError "boom")
|}.

Lemma detection_witness :
  let detector :=
    ProtocolDetector.registerProtocol "agentpay-v002" AgentPay.protocol
      (ProtocolDetector.registerProtocol "x402" throwing (ProtocolDetector.create ∅)) in
  exists r, ProtocolDetector.detectProtocol detector (challenge both_indicators) = Ret r.
Proof.
  cbv zeta.
  exact (proj1 (detectProtocol_total
                  (ProtocolDetector.registerProtocol "agentpay-v002" AgentPay.protocol
                     (ProtocolDetector.registerProtocol "x402" throwing
                        (ProtocolDetector.create ∅)))
                  (challenge both_indicators))).
Defined.

(** C6 at the amounts ["1000000"] and ["1.5"] *)
Definition x402_response (amount : string) : value :=
  VObj [("x402Version", VNum (num_of_Z 1));
        ("error", VStr "X-PAYMENT header is required");
        ("accepts", VArr [requirement amount])].

Definition built_transaction : value :=
  VObj [("to", VStr usdc_base); ("data", VStr transfer_one_usdc); ("value", VStr "0x0");
        ("chainId", VNum (num_of_Z 8453)); ("gasLimit", VStr "50000");
        ("x402Requirement", requirement "1000000")].

Example one_usdc_is_presented_as_1_0 :
  X402.extractPaymentDetails {| X402.currentChainId := VUndefined |} (x402_response "1000000")
  = ({| X402.currentChainId := VNum (num_of_Z 8453) |},
     VObj [("error", VStr "payment_required"); ("code", VNum (num_of_Z 402));
           ("message", VStr "Weather report"); ("amount", VStr "1.0");
           ("currency", VStr "USDC"); ("description", VStr "Weather report");
           ("transaction", built_transaction)]).
Proof. vm_compute. reflexivity. Qed.

Example decimal_amount_is_refused :
  snd (X402.extractPaymentDetails {| X402.currentChainId := VUndefined |} (x402_response "1.5"))
  = VNull.
Proof. vm_compute. reflexivity. Qed.

(** C6, as stated, fails in both directions: text that is no pure positive
    integer string is accepted when [BigInt] reads it, and a pure positive
    integer string that does not fit a [uint256] gives [null]. *)
Definition two_to_the_256 : string :=
  "115792089237316195423570985008687907853269984665640564039457584007913129639936".

Lemma amount_text_is_read_by_BigInt :
  (forall n, ~ pure_positive_integer "0x10" n) /\
  get (snd (X402.extractPaymentDetails {| X402.currentChainId := VUndefined |}
              (x402_response "0x10"))) "amount" = Ret (VStr "0.000016") /\
  (forall n, ~ pure_positive_integer " 42 " n) /\
  get (snd (X402.extractPaymentDetails {| X402.currentChainId := VUndefined |}
              (x402_response " 42 "))) "amount" = Ret (VStr "0.000042") /\
  pure_positive_integer two_to_the_256 (2 ^ 256) /\
  snd (X402.extractPaymentDetails {| X402.currentChainId := VUndefined |}
         (x402_response two_to_the_256)) = VNull.
Proof.
  split; [intros n (_ & Hd & _); vm_compute in Hd; discriminate|].
  split; [vm_compute; reflexivity|].
  split; [intros n (_ & Hd & _); vm_compute in Hd; discriminate|].
  split; [vm_compute; reflexivity|].
  split; [|vm_compute; reflexivity].
  split; [discriminate|]. split; [vm_compute; reflexivity|].
  split; [vm_compute; reflexivity|]. vm_compute. reflexivity.
Qed.

(** C6 (amended) at the amount ["1000000"] *)
Lemma x402_amount_witness :
  X402.extract_requirement (x402_response "1000000")
    = Ret (requirement "1000000", VNum (num_of_Z 8453)) /\
  pure_positive_integer "1000000" 1000000 /\
  X402.extractPaymentDetails {| X402.currentChainId := VUndefined |} (x402_response "1000000")
  = ({| X402.currentChainId := VNum (num_of_Z 8453) |},
     x402_details (requirement "1000000") (VNum (num_of_Z 8453)) (VStr "Weather report")
       (VStr usdc_base) "1.0" transfer_one_usdc).
Proof.
  assert (X402.extract_requirement (x402_response "1000000")
          = Ret (requirement "1000000", VNum (num_of_Z 8453))) as Hreq
    by (vm_compute; reflexivity).
  assert (pure_positive_integer "1000000" 1000000) as Hpure.
  { split; [discriminate|]. split; [vm_compute; reflexivity|].
    split; [vm_compute; reflexivity|]. apply (Z.ltb_lt 0 1000000). vm_compute. reflexivity. }
  split; [exact Hreq|]. split; [exact Hpure|].
  destruct (x402_amount_normalized {| X402.currentChainId := VUndefined |}
              (x402_response "1000000") (requirement "1000000") (VNum (num_of_Z 8453)) Hreq)
    as (s & payTo & asset & description & Hs & Hp & Ha & Hd & Haccepted & Hdigits & _).
  injection Hs as <-. injection Hp as <-. injection Ha as <-. injection Hd as <-.
  destruct (Hdigits 1000000%Z Hpure) as (Hdot & Hbig & Hpos).
  rewrite (Haccepted 1000000%Z Hdot Hbig Hpos). vm_compute. reflexivity.
Defined.

(** *** The detector tests of the repository, replayed on the model *)

Definition detector : ProtocolDetector.t :=
  PaymentHandler.protocolDetector (PaymentHandler.create (wallet "2.5" "0.01")).

Definition detected (message : value) : completion (option string) :=
  match ProtocolDetector.detectProtocol detector message with
  | Ret (Some detection) => Ret (Some (ProtocolDetector.name detection))
  | Ret None => Ret None
  | Throw e => Throw e
  end.

(** A tool result whose first content item is the given text *)
Definition text_result (text : string) : value :=
  VObj [("jsonrpc", VStr "2.0"); ("id", VNum (num_of_Z 1));
        ("result", VObj [("content", VArr [VObj [("type", VStr "text");
                                                 ("text", VStr text)]])])].

Definition agentpay_payload : value :=
  VObj [("error", VStr "payment_required"); ("code", VNum (num_of_Z 402));
        ("message", VStr "Payment required for this operation");
        ("amount", VStr "1.00"); ("currency", VStr "USDC");
        ("description", VStr "Test AgentPay payment")].

Example json_text_round_trip :
  JSON_parse (VStr (JSON_stringify agentpay_payload)) = Ret agentpay_payload.
Proof. vm_compute. reflexivity. Qed.

Example detects_x402_in_content :
  detected (text_result (JSON_stringify (x402_response "1000000"))) = Ret (Some "x402").
Proof. vm_compute. reflexivity. Qed.

Example detects_agentpay_in_content :
  detected (text_result (JSON_stringify agentpay_payload)) = Ret (Some "agentpay-v002").
Proof. vm_compute. reflexivity. Qed.

Example detects_x402_in_error_data :
  detected (challenge both_indicators) = Ret (Some "x402").
Proof. vm_compute. reflexivity. Qed.

Example python_style_text_is_tolerated :
  detected (text_result "{'error': 'payment_required', 'code': 402, 'paid': False}")
  = Ret (Some "agentpay-v002").
Proof. vm_compute. reflexivity. Qed.

Example no_detection :
  detected (text_result "Article content goes here...") = Ret None /\
  detected (text_result "invalid json content {") = Ret None /\
  detected (VObj [("jsonrpc", VStr "2.0"); ("id", VNum (num_of_Z 1));
                  ("result", VObj [("content", VArr [])])]) = Ret None /\
  detected (VObj [("jsonrpc", VStr "2.0"); ("id", VNum (num_of_Z 1));
                  ("result", VObj [("content", VArr [VObj [("type", VStr "image");
                                                        ("data", VStr "base64encodeddata")]])])])
    = Ret None /\
  detected (VObj []) = Ret None /\
  detected (VObj [("jsonrpc", VStr "2.0"); ("id", VNum (num_of_Z 1))]) = Ret None /\
  detected (VObj [("jsonrpc", VStr "2.0"); ("id", VNum (num_of_Z 1));
                  ("error", VObj [("code", VNum (num_of_Z 404));
                                  ("message", VStr "Article not found")])]) = Ret None.
Proof. repeat split; vm_compute; reflexivity. Qed.


(** *** The authorization-detection tests of the repository *)

Example authorization_is_detected :
  PaymentHandler.hasPaymentAuthorization pay_one_usdc = Ret true /\
  PaymentHandler.hasPaymentAuthorization
    (VObj [("jsonrpc", VStr "2.0"); ("id", VStr "test"); ("method", VStr "tools/call");
           ("params", VObj [("name", VStr "test-tool");
                            ("arguments",
                             VObj [("query", VStr "test");
                                   ("aa_payment_approved", VStr "true");
                                   ("aa_payment_transaction",
                                    VStr (JSON_stringify
                                            (template usdc_base transfer_one_usdc 8453)))])])])
    = Ret true.
Proof. split; vm_compute; reflexivity. Qed.

Example authorization_is_not_detected :
  PaymentHandler.hasPaymentAuthorization VNull = Ret false /\
  PaymentHandler.hasPaymentAuthorization VUndefined = Ret false /\
  PaymentHandler.hasPaymentAuthorization (VObj []) = Ret false /\
  PaymentHandler.hasPaymentAuthorization tools_list = Ret false /\
  PaymentHandler.hasPaymentAuthorization
    (VObj [("method", VStr "tools/call");
           ("params", VObj [("name", VStr "test-tool");
                            ("arguments",
                             VObj [("query", VStr "test");
                                   ("aa_payment_transaction",
                                    template usdc_base transfer_one_usdc 8453)])])])
    = Ret false /\
  PaymentHandler.hasPaymentAuthorization
    (VObj [("method", VStr "tools/call");
           ("params", VObj [("name", VStr "test-tool");
                            ("arguments",
                             VObj [("query", VStr "test");
                                   ("aa_payment_approved", VBool true)])])])
    = Ret false.
Proof. repeat split; vm_compute; reflexivity. Qed.

(** A transaction sent as text is parsed before it is checked. *)
Example text_transaction_is_parsed :
  PaymentHandler.processPaymentAuthorization
    (PaymentHandler.create (wallet "0.5" "0.01"))
    (approval (VStr (JSON_stringify (template usdc_base transfer_one_usdc 8453))))
  = Ret (PaymentHandler.AuthError "Insufficient USDC balance. Required: 1, Available: 0.5") /\
  PaymentHandler.processPaymentAuthorization
    (PaymentHandler.create (wallet "0.5" "0.01")) (approval (VStr "{to: 0x"))
  = Ret (PaymentHandler.AuthError "Invalid transaction format: unable to parse JSON").
Proof. split; vm_compute; reflexivity. Qed.

(** A truncated amount word is repaired before validation, so the request
    goes through. *)
Example truncated_request_gets_headers :
  match PaymentHandler.processPaymentAuthorization
          (PaymentHandler.create (wallet "2.5" "0.01")) (approval truncated) with
  | Ret (PaymentHandler.AuthHeaders headers) =>
      headers !! "x-agentpay-authorization" = Some "0xf86b"
  | _ => False
  end.
Proof. vm_compute. reflexivity. Qed.

(** *** Further properties, at concrete messages *)

(** X1 at a challenge whose error carries data *)
Lemma error_data_witness :
  extractMCPResponseData (challenge both_indicators) = VObj both_indicators.
Proof.
  exact (error_field_takes_precedence
           [("jsonrpc", VStr "2.0"); ("id", VNum (num_of_Z 3));
            ("error", VObj [("code", VNum (num_of_Z (-32001)));
                            ("message", VStr "Payment Required");
                            ("data", VObj both_indicators)])]
           (VObj [("code", VNum (num_of_Z (-32001)));
                  ("message", VStr "Payment Required");
                  ("data", VObj both_indicators)])
           (VObj both_indicators) eq_refl eq_refl eq_refl).
Defined.

Lemma text_result_is_text_content (t : string) : text_content_result (text_result t) t.
Proof.
  exists [("jsonrpc", VStr "2.0"); ("id", VNum (num_of_Z 1));
          ("result", VObj [("content", VArr [VObj [("type", VStr "text");
                                                   ("text", VStr t)]])])],
         [("content", VArr [VObj [("type", VStr "text"); ("text", VStr t)]])],
         [("type", VStr "text"); ("text", VStr t)], [].
  split; [reflexivity|]. split; [intros e He; discriminate He|].
  repeat split; reflexivity.
Qed.

(** X2 at a tool result whose text is the AgentPay payload: its [error] is
    text and has no [data], so the payload is the parsed object. *)
Lemma parsed_text_witness :
  text_content_result (text_result (JSON_stringify agentpay_payload))
    (JSON_stringify agentpay_payload) /\
  extractMCPResponseData (text_result (JSON_stringify agentpay_payload)) = agentpay_payload.
Proof.
  split; [apply text_result_is_text_content|].
  exact (proj2 (text_content_is_parsed
                  (text_result (JSON_stringify agentpay_payload))
                  (JSON_stringify agentpay_payload)
                  [("error", VStr "payment_required"); ("code", VNum (num_of_Z 402));
                   ("message", VStr "Payment required for this operation");
                   ("amount", VStr "1.00"); ("currency", VStr "USDC");
                   ("description", VStr "Test AgentPay payment")]
                  (text_result_is_text_content _) json_text_round_trip)
           (VStr "payment_required") VUndefined eq_refl eq_refl).
Defined.

(** X3 at a tool result whose text is prose *)
Lemma raw_text_witness :
  extractMCPResponseData (text_result "Article content goes here...")
    = VStr "Article content goes here..." /\
  forall d, ProtocolDetector.detectProtocol d (text_result "Article content goes here...")
            = Ret None.
Proof.
  exact (unparsable_text_is_returned_raw
           (text_result "Article content goes here...") "Article content goes here..."
           (JSError "SyntaxError") (JSError "SyntaxError")
           (text_result_is_text_content _) eq_refl eq_refl).
Defined.

Lemma detector_detects_challenge :
  exists det,
    ProtocolDetector.detectProtocol detector (challenge both_indicators) = Ret (Some det) /\
    ProtocolDetector.name det = "x402" /\
    ProtocolDetector.extractedData det = VObj both_indicators.
Proof.
  exact (detect_x402 (wallet "2.5" "0.01") (challenge both_indicators) both_indicators
           (VNum (num_of_Z 1)) [requirement "1000000"] eq_refl eq_refl eq_refl eq_refl).
Qed.

(** X5 at a challenge with the indicators of both protocols *)
Lemma first_match_witness :
  exists det,
    ProtocolDetector.detectProtocol detector (challenge both_indicators) = Ret (Some det) /\
    exists before after,
      ProtocolDetector.protocolPriority detector
        = before ++ ProtocolDetector.name det :: after /\
      ProtocolDetector.protocols detector !! ProtocolDetector.name det
        = Some (ProtocolDetector.protocol det) /\
      forall n q, n ∈ before -> ProtocolDetector.protocols detector !! n = Some q ->
                  Protocol.isPaymentRequired q (ProtocolDetector.extractedData det) <> Ret true.
Proof.
  destruct detector_detects_challenge as (det & Hdet & _).
  exists det. split; [exact Hdet|].
  exact (detection_is_first_match detector (challenge both_indicators) det Hdet).
Defined.

(** X6 at the same challenge *)
Lemma structured_payload_witness :
  exists det,
    ProtocolDetector.detectProtocol detector (challenge both_indicators) = Ret (Some det) /\
    (exists fs, challenge both_indicators = VObj fs) /\
    ((exists fs, ProtocolDetector.extractedData det = VObj fs) \/
     (exists items, ProtocolDetector.extractedData det = VArr items)).
Proof.
  destruct detector_detects_challenge as (det & Hdet & _).
  exists det. split; [exact Hdet|].
  exact (detection_payload_is_structured detector (challenge both_indicators) det Hdet).
Defined.
(** X7 at the transfer of one USDC on Base *)
Lemma validation_witness :
  AgentPay.validateTransactionTemplate (template usdc_base transfer_one_usdc 8453)
    = Ret {| Protocol.valid := true; Protocol.errors := [] |} /\
  exists to data val chainId gasLimit,
    get (template usdc_base transfer_one_usdc 8453) "to" = Ret to /\
    truthy to = true /\ isAddress to = true /\
    get (template usdc_base transfer_one_usdc 8453) "data" = Ret data /\
    truthy data = true /\ is_0x_hex (ToString data) = true /\
    get (template usdc_base transfer_one_usdc 8453) "value" = Ret val /\
    truthy val = true /\ is_0x_hex (ToString val) = true /\
    get (template usdc_base transfer_one_usdc 8453) "chainId" = Ret chainId /\
    is_num chainId 8453 = true /\
    get (template usdc_base transfer_one_usdc 8453) "gasLimit" = Ret gasLimit /\
    truthy gasLimit = true /\
    (forall l, to = VStr l -> toLowerCase l = AgentPay.USDC_BASE_LOWER ->
       (exists len, get data "length" = Ret len /\ is_num len 138 = true) /\
       parseTransaction data = Ret tt).
Proof.
  assert (AgentPay.validateTransactionTemplate (template usdc_base transfer_one_usdc 8453)
          = Ret {| Protocol.valid := true; Protocol.errors := [] |}) as Hv
    by (vm_compute; reflexivity).
  split; [exact Hv|].
  exact (proj2 (agentpay_validation_sound (template usdc_base transfer_one_usdc 8453)
                  {| Protocol.valid := true; Protocol.errors := [] |} Hv eq_refl)).
Defined.

(** X8 at a transfer of one USDC cut off after the digits [f4240] *)
Lemma repaired_amount_witness :
  parse_digits 16 0 "f4240" = Some 1000000%Z /\
  exists fixed fixedData,
    AgentPay.fixTruncatedTransactionData truncated = Ret fixed /\
    get fixed "data" = Ret (VStr fixedData) /\
    String.length fixedData = 138 /\
    take_str 74 fixedData =
      "0xa9059cbb000000000000000000000000616f5ab2095ea299a3c819bf5b381ea342bafbc9" /\
    PaymentHandler.extractAmountFromTransaction_body fixed =
      (units ← formatUnits 1000000 6; Ret (parseFloat units)).
Proof.
  split; [vm_compute; reflexivity|].
  assert (74 <= String.length
            "0xa9059cbb000000000000000000000000616f5ab2095ea299a3c819bf5b381ea342bafbc9f4240"
          < 138) as Hl by (vm_compute; lia).
  exact (repair_preserves_amount truncated
           "0xa9059cbb000000000000000000000000616f5ab2095ea299a3c819bf5b381ea342bafbc9f4240"
           1000000%Z eq_refl eq_refl Hl eq_refl).
Defined.

(** X9 at the AgentPay payload *)
Lemma details_witness :
  AgentPay.isPaymentRequired agentpay_payload = Ret true /\
  exists details,
    AgentPay.extractPaymentDetails agentpay_payload = Ret details /\
    is_payment_request details.
Proof.
  assert (AgentPay.isPaymentRequired agentpay_payload = Ret true) as Hd
    by (vm_compute; reflexivity).
  split; [exact Hd|].
  refine (detected_request_has_details agentpay_payload Hd _).
  intros e c He _ _. injection He as <-. reflexivity.
Defined.

(** X10 at Base Sepolia *)
Lemma chain_witness :
  X402.getChainConfig "base-sepolia" = Ret (VNum (num_of_Z 84532)) /\
  X402.getNetworkFromChainId {| X402.currentChainId := VNum (num_of_Z 84532) |}
    = Ret "base-sepolia".
Proof.
  split; [reflexivity|].
  exact (proj1 (chain_config_round_trip "base-sepolia" (VNum (num_of_Z 84532))
                  eq_refl eq_refl)).
Defined.

(** X11 at a challenge for one USDC on Base *)
Lemma x402_shape_witness :
  exists requirement payTo asset amount data description formatted,
    get (x402_response "1000000") "accepts" ≫= (fun accepts => get accepts "0")
      = Ret requirement /\
    get requirement "payTo" = Ret payTo /\ isAddress payTo = true /\
    get requirement "asset" = Ret asset /\ isAddress asset = true /\
    get requirement "maxAmountRequired" = Ret amount /\
    encodeTransfer payTo (ToString amount) = Ret data /\
    (is_num (VNum (num_of_Z 8453)) 8453 = true \/
     is_num (VNum (num_of_Z 8453)) 84532 = true \/
     VNum (num_of_Z 8453) = VUndefined) /\
    VObj [("error", VStr "payment_required"); ("code", VNum (num_of_Z 402));
          ("message", VStr "Weather report"); ("amount", VStr "1.0");
          ("currency", VStr "USDC"); ("description", VStr "Weather report");
          ("transaction", built_transaction)] =
      VObj [("error", VStr "payment_required"); ("code", VNum (num_of_Z 402));
            ("message", description); ("amount", VStr formatted);
            ("currency", VStr "USDC"); ("description", description);
            ("transaction",
             VObj [("to", asset); ("data", VStr data); ("value", VStr "0x0");
                   ("chainId", VNum (num_of_Z 8453)); ("gasLimit", VStr "50000");
                   ("x402Requirement", requirement)])].
Proof.
  refine (x402_details_shape {| X402.currentChainId := VUndefined |}
            {| X402.currentChainId := VNum (num_of_Z 8453) |} (x402_response "1000000") _
            one_usdc_is_presented_as_1_0 _).
  discriminate.
Defined.
(** X13 at an approved transfer of one USDC *)
Lemma approved_request_witness :
  PaymentHandler.hasPaymentAuthorization pay_one_usdc = Ret true /\
  exists result,
    PaymentHandler.processPaymentAuthorization
      (PaymentHandler.create (wallet "2.5" "0.01")) pay_one_usdc = Ret result.
Proof.
  assert (PaymentHandler.hasPaymentAuthorization pay_one_usdc = Ret true) as Ha
    by (vm_compute; reflexivity).
  split; [exact Ha|].
  exact (proj2 (approved_request_reaches_authorization
                  (PaymentHandler.create (wallet "2.5" "0.01")) pay_one_usdc Ha)).
Defined.

Example funded_request_headers :
  PaymentHandler.processPaymentAuthorization
    (PaymentHandler.create (wallet "2.5" "0.01")) pay_one_usdc
  = Ret (PaymentHandler.AuthHeaders payment_headers).
Proof. vm_compute. reflexivity. Qed.

(** X14 at the same request, with a funded wallet *)
Lemma issued_headers_witness :
  exists transaction fixed validation usdc eth signedTx,
    submitted_transaction pay_one_usdc = Ret transaction /\
    AgentPay.fixTruncatedTransactionData transaction = Ret fixed /\
    AgentPay.validateTransactionTemplate fixed = Ret validation /\
    Protocol.valid validation = true /\
    getWalletBalances (wallet "2.5" "0.01") = Ret (usdc, eth) /\
    num_ltb (parseFloat usdc) (PaymentHandler.extractAmountFromTransaction fixed) = false /\
    PaymentHandler.sufficient
      (PaymentHandler.estimateTransactionGas (wallet "2.5" "0.01") fixed (parseFloat eth))
      = true /\
    AgentPay.signPaymentTransaction fixed (wallet "2.5" "0.01")
      = Ret (signedTx, getAddress (wallet "2.5" "0.01")) /\
    payment_headers = <["x-agentpay-from" := getAddress (wallet "2.5" "0.01")]>
                        {["x-agentpay-authorization" := signedTx]}.
Proof.
  exact (issued_headers_are_checked (wallet "2.5" "0.01") pay_one_usdc payment_headers
           funded_request_headers).
Defined.
(** *** Enrichment *)

(** The presentation of a payment: the extraction of each descriptor, and
    fixed texts for the user and the agent. *)
Definition presentations (name : string) : Protocol.Presentation := {|
  Protocol.extractPaymentDetails :=
    if String.eqb name "x402"
    then fun response =>
           Ret (snd (X402.extractPaymentDetails {| X402.currentChainId := VUndefined |}
                       response))
    else AgentPay.extractPaymentDetails;
  Protocol.formatForUser := fun _ _ _ => Ret "Payment required";
  Protocol.formatForAgent := fun _ _ => Ret "Ask the user for approval"
|}.

(** The examples print JSON compactly: [JSON.parse] does not read the
    layout. *)
Definition stringify_indented (v : value) : string := JSON_stringify v.

(** A wallet without an RPC endpoint for the chain *)
Definition offline_wallet : WalletService := {|
  getWalletBalances := Ret ("2.5", "0.01");
  getCurrentChainId := VNum (num_of_Z 8453);
  configureForChain := fun _ => Throw (JSError "No RPC URL configured for chain 8453");
  estimateTxCost := fun _ => Ret "0.00001";
  getTransactionCount := Ret (VNum (num_of_Z 0));
  getGasPrice := Ret (VStr "1000000");
  signTransaction := fun _ => Ret "0xf86b";
  getAddress := "0x1111111111111111111111111111111111111111"
|}.

(** X15 at a challenge for one USDC, with a wallet that cannot be
    configured *)
Lemma configuration_failure_witness :
  PaymentHandler.processPaymentRequired stringify_indented presentations
    (PaymentHandler.create offline_wallet) (challenge both_indicators) None
  = Ret (configuration_error (VNum (num_of_Z 3))
           "Chain configuration failed: No RPC URL configured for chain 8453").
Proof.
  destruct (detect_x402 offline_wallet (challenge both_indicators) both_indicators
              (VNum (num_of_Z 1)) [requirement "1000000"] eq_refl eq_refl eq_refl eq_refl)
    as (det & Hdet & Hname & Hdata).
  assert (Protocol.extractPaymentDetails (presentations (ProtocolDetector.name det))
            (ProtocolDetector.extractedData det)
          = Ret (VObj [("error", VStr "payment_required"); ("code", VNum (num_of_Z 402));
                       ("message", VStr "Weather report"); ("amount", VStr "1.0");
                       ("currency", VStr "USDC"); ("description", VStr "Weather report");
                       ("transaction", built_transaction)])) as Hex
    by (rewrite Hname, Hdata; vm_compute; reflexivity).
  destruct (enrichment_failures_are_answered stringify_indented presentations
              (PaymentHandler.create offline_wallet) (challenge both_indicators) None det
              _ built_transaction (VNum (num_of_Z 8453)) Hdet Hex eq_refl eq_refl eq_refl)
    as (fs & Hfs & Hconf & _).
  injection Hfs as <-.
  exact (Hconf (JSError "No RPC URL configured for chain 8453") eq_refl eq_refl).
Defined.

Definition enhancement : value :=
  VObj [("payment_authorization_required",
         VObj [("user_display", VStr "Payment required");
               ("agent_instructions", VStr "Ask the user for approval");
               ("wallet_balances",
                VObj [("usdc", VStr "2.5"); ("eth", VStr "0.01");
                      ("sufficient_funds", VBool true)]);
               ("payment_transaction", built_transaction);
               ("cost_breakdown",
                VObj [("payment_amount", VStr "1.0 USDC");
                      ("estimated_gas", VStr "~0.00001 ETH");
                      ("total_cost", VStr "1.0 USDC + ~0.00001 ETH gas");
                      ("gas_estimation_note", VStr "Real-time gas estimate")]);
               ("payment_details",
                VObj [("amount", VStr "1.0"); ("currency", VStr "USDC");
                      ("description", VStr "Weather report");
                      ("recipient", VStr usdc_base)])])].

Definition weather_details : value :=
  VObj [("error", VStr "payment_required"); ("code", VNum (num_of_Z 402));
        ("message", VStr "Weather report"); ("amount", VStr "1.0");
        ("currency", VStr "USDC"); ("description", VStr "Weather report");
        ("transaction", built_transaction)].

(** X16 at a tool result: the enhancement is read back from its text. *)
Lemma enriched_message_witness :
  JSON_parse (VStr (stringify_indented enhancement)) = Ret enhancement /\
  exists enriched,
    PaymentHandler.createEnhancedMessage stringify_indented
      (text_result (JSON_stringify (x402_response "1000000"))) enhancement = Ret enriched /\
    extractMCPResponseData enriched = enhancement /\
    ProtocolDetector.detectProtocol detector enriched = Ret None /\
    (forall k, k <> "error" -> k <> "result" ->
       get enriched k = get (text_result (JSON_stringify (x402_response "1000000"))) k).
Proof.
  assert (JSON_parse (VStr (stringify_indented enhancement)) = Ret enhancement) as Hrt
    by (vm_compute; reflexivity).
  split; [exact Hrt|].
  refine (enriched_message_is_no_challenge stringify_indented (wallet "2.5" "0.01")
            [("jsonrpc", VStr "2.0"); ("id", VNum (num_of_Z 1));
             ("result", VObj [("content",
                               VArr [VObj [("type", VStr "text");
                                           ("text",
                                            VStr (JSON_stringify (x402_response "1000000")))]])])]
            enhancement weather_details built_transaction (VStr "1.0") (VStr "USDC")
            "Payment required" "Ask the user for approval" ("2.5", "0.01") true
            {| PaymentHandler.costEth := "0.00001"; PaymentHandler.sufficient := true;
               PaymentHandler.errorMessage := None |}
            _ (fun _ => Hrt)).
  vm_compute. reflexivity.
Defined.

Definition version_two : list (string * value) :=
  [("x402Version", VNum (num_of_Z 2)); ("accepts", VArr [requirement "1000000"])].

(** X17 at a challenge of x402 version 2 *)
Lemma unsupported_version_witness :
  unsupported_x402 (challenge version_two) /\
  PaymentHandler.isPaymentRequired (PaymentHandler.create (wallet "2.5" "0.01"))
    (challenge version_two) = Ret true /\
  PaymentHandler.processPaymentRequired stringify_indented presentations
    (PaymentHandler.create (wallet "2.5" "0.01")) (challenge version_two) None
  = Ret (challenge version_two).
Proof.
  assert (unsupported_x402 (challenge version_two)) as Hu.
  { exists version_two, (VNum (num_of_Z 2)), [requirement "1000000"].
    repeat split; reflexivity. }
  split; [exact Hu|].
  exact (unsupported_x402_version_is_forwarded_unchanged stringify_indented presentations
           (wallet "2.5" "0.01") {| X402.currentChainId := VUndefined |}
           (challenge version_two) None eq_refl Hu).
Defined.
(** *** The proxy, with approvals *)

(** A proxy whose wallet holds half a USDC *)
Definition poor_proxy : McpProxy.t :=
  McpProxy.create (McpProxy.Staging (AuthRefreshTransportWrapper.create "aa-token" ∅))
    (Some (wallet "0.5" "0.01")).

Lemma pay_one_usdc_is_approved (w : WalletService) (remote : McpProxy.RemoteTransport) :
  approved_request (McpProxy.create remote (Some w)) (PaymentHandler.create w) pay_one_usdc.
Proof.
  split.
  - reflexivity.
  - exists true, (VStr "tools/call"). repeat split; reflexivity.
  - vm_compute. reflexivity.
Qed.

(** X19 at an approved transfer of one USDC from that wallet *)
Lemma refused_locally_witness :
  exists id,
    (has_in "id" pay_one_usdc = Ret true /\ get pay_one_usdc "id" = Ret id \/
     has_in "id" pay_one_usdc = Ret false /\ id = VStr "error") /\
    snd (McpProxy.onClientMessage poor_proxy pay_one_usdc) =
      Ret [McpProxy.SendToClient
             (VObj [("jsonrpc", VStr "2.0"); ("id", id);
                    ("error",
                     VObj [("code", VNum (num_of_Z (-32001)));
                           ("message", VStr "Payment authorization failed");
                           ("data",
                            VObj [("error_type", VStr "payment_authorization_failed");
                                  ("message",
                                   VStr "Insufficient USDC balance. Required: 1, Available: 0.5");
                                  ("instructions",
                                   VStr "Please fix the issue and retry with the same parameters.")])])])] /\
    McpProxy.transportToServer (fst (McpProxy.onClientMessage poor_proxy pay_one_usdc))
      = McpProxy.transportToServer poor_proxy.
Proof.
  refine (failed_authorization_is_answered_locally poor_proxy
            (PaymentHandler.create (wallet "0.5" "0.01")) pay_one_usdc
            "Insufficient USDC balance. Required: 1, Available: 0.5"
            (pay_one_usdc_is_approved _ _) insufficient_half _).
  discriminate.
Defined.

(** X20 at the same request from a funded wallet: the next POST carries
    the two AgentPay headers. *)
Lemma forwarded_with_headers_witness :
  exists w',
    snd (McpProxy.onClientMessage proxy pay_one_usdc)
      = Ret [McpProxy.SendToServer pay_one_usdc] /\
    McpProxy.transportToServer (fst (McpProxy.onClientMessage proxy pay_one_usdc))
      = McpProxy.Staging w' /\
    exists headers,
      snd (AuthRefreshTransportWrapper.interceptFetch w'
             "2025-06-01T10:00:00.000Z" "https://mcp.example/mcp" (Some post))
        = Ret (sent headers) /\
      Fetch.get headers "x-agentpay-authorization" = Ret (Some "0xf86b") /\
      Fetch.get headers "x-agentpay-from"
        = Ret (Some "0x1111111111111111111111111111111111111111").
Proof.
  assert (NoDup (StringRecord.keys payment_headers)) as Hnd
    by (apply (bool_decide_unpack _); vm_compute; exact I).
  destruct (authorized_request_is_sent_with_payment_headers proxy
              (PaymentHandler.create (wallet "2.5" "0.01")) pay_one_usdc
              (AuthRefreshTransportWrapper.create "aa-token" ∅) payment_headers
              (pay_one_usdc_is_approved _ _) eq_refl funded_request_headers Hnd)
    as (w' & Hsend & Hstaged & Hnext).
  exists w'. split; [exact Hsend|]. split; [exact Hstaged|].
  assert (w' = AuthRefreshTransportWrapper.setPaymentHeadersForNextRequest payment_headers
                 (AuthRefreshTransportWrapper.create "aa-token" ∅)) as ->.
  { assert (McpProxy.transportToServer (fst (McpProxy.onClientMessage proxy pay_one_usdc))
            = McpProxy.Staging
                (AuthRefreshTransportWrapper.setPaymentHeadersForNextRequest payment_headers
                   (AuthRefreshTransportWrapper.create "aa-token" ∅))) as Hw
      by (vm_compute; reflexivity).
    rewrite Hw in Hstaged. now injection Hstaged as <-. }
  exists [("content-type", "application/json");
          ("x-agentauth-address", "address(aa-token)");
          ("x-agentauth-signature", "signature(2025-06-01T10:00:00.000Z,aa-token)");
          ("x-agentauth-payload", "payload(2025-06-01T10:00:00.000Z)");
          ("x-agentpay-authorization", "0xf86b");
          ("x-agentpay-from", "0x1111111111111111111111111111111111111111")].
  assert (snd (AuthRefreshTransportWrapper.interceptFetch
                 (AuthRefreshTransportWrapper.setPaymentHeadersForNextRequest payment_headers
                    (AuthRefreshTransportWrapper.create "aa-token" ∅))
                 "2025-06-01T10:00:00.000Z" "https://mcp.example/mcp" (Some post))
          = Ret (sent
                   [("content-type", "application/json");
                    ("x-agentauth-address", "address(aa-token)");
                    ("x-agentauth-signature", "signature(2025-06-01T10:00:00.000Z,aa-token)");
                    ("x-agentauth-payload", "payload(2025-06-01T10:00:00.000Z)");
                    ("x-agentpay-authorization", "0xf86b");
                    ("x-agentpay-from", "0x1111111111111111111111111111111111111111")]))
    as Hcall by (vm_compute; reflexivity).
  split; [exact Hcall|].
  destruct (Hnext "2025-06-01T10:00:00.000Z" "https://mcp.example/mcp" post _ eq_refl Hcall)
    as (_ & fresh0 & sent0 & Hf & Hs & Hcarried).
  injection Hs as <-. injection Hf as <-.
  split.
  - apply (Hcarried "x-agentpay-authorization" "0xf86b" eq_refl).
    apply alone_among_check. vm_compute. reflexivity.
  - apply (Hcarried "x-agentpay-from" "0x1111111111111111111111111111111111111111" eq_refl).
    apply alone_among_check. vm_compute. reflexivity.
Defined.

(** X21 at the answer to [tools/list] *)
Lemma delivered_once_witness :
  exists delivered,
    McpProxy.onServerMessage no_enrichment proxy tools_result
      = Ret (proxy, [McpProxy.SendToClient delivered]) /\
    (delivered = tools_result \/
     exists handler,
       McpProxy.paymentHandler proxy = Some handler /\
       PaymentHandler.isPaymentRequired handler tools_result = Ret true /\
       no_enrichment handler tools_result (McpProxy.lastRequest proxy) = Ret delivered).
Proof.
  exact (server_message_is_delivered_once no_enrichment proxy tools_result false eq_refl).
Defined.

(** A wrapper whose static custom header is named like the fresh address
    header, in lower case *)
Definition overriding : AuthRefreshTransportWrapper.t :=
  AuthRefreshTransportWrapper.create "aa-token" {["x-agentauth-address" := "custom-lower"]}.

(** X22 at that wrapper: under the name of the fresh address header the
    request carries the custom value. *)
Lemma precedence_witness :
  exists headers,
    snd (AuthRefreshTransportWrapper.interceptFetch overriding
           "2025-06-01T10:00:00.000Z" "https://mcp.example/mcp" (Some post))
      = Ret (sent headers) /\
    Fetch.get headers "X-AgentAuth-Address" = Ret (Some "custom-lower").
Proof.
  assert (snd (AuthRefreshTransportWrapper.interceptFetch overriding
                 "2025-06-01T10:00:00.000Z" "https://mcp.example/mcp" (Some post))
          = Ret (sent
                   [("content-type", "application/json");
                    ("x-agentauth-address", "custom-lower");
                    ("x-agentauth-signature", "signature(2025-06-01T10:00:00.000Z,aa-token)");
                    ("x-agentauth-payload", "payload(2025-06-01T10:00:00.000Z)")]))
    as Hcall by (vm_compute; reflexivity).
  eexists. split; [exact Hcall|].
  destruct (injected_header_precedence overriding
              "2025-06-01T10:00:00.000Z" "https://mcp.example/mcp" post _
              "X-AgentAuth-Address" eq_refl Hcall eq_refl)
    as (fresh0 & own & sent0 & Hf & Hown & Hs & _ & Hget & _).
  injection Hs as <-. injection Hf as <-. injection Hown as <-.
  exact Hget.
Defined.

(** X23 at the signature header *)
Lemma protected_name_witness :
  AuthRefreshTransportWrapper.hasAgentAuthConflict "X-AgentAuth-Signature" = true /\
  forall other, toLowerCase other = toLowerCase "X-AgentAuth-Signature" ->
                AuthRefreshTransportWrapper.hasAgentAuthConflict other = true.
Proof.
  refine (fresh_header_names_are_protected "aa-token" "2025-06-01T10:00:00.000Z"
            (fresh "2025-06-01T10:00:00.000Z") "X-AgentAuth-Signature" eq_refl _).
  exists "signature(2025-06-01T10:00:00.000Z,aa-token)". vm_compute. reflexivity.
Defined.
(** *** The negotiator, on plain errors and on success *)

(** An endpoint that refuses every connection *)
Definition refusing : Negotiator.Endpoint := {|
  Negotiator.start := fun _ _ => Some (JSError "connect ECONNREFUSED 127.0.0.1:8080");
  Negotiator.probe := fun _ => None
|}.

(** An endpoint that accepts every start *)
Definition accepting : Negotiator.Endpoint := {|
  Negotiator.start := fun _ _ => None;
  Negotiator.probe := fun _ => None
|}.

Lemma refusing_is_plain : never_protocol_like refusing.
Proof.
  split.
  - intros tr kind e [= <-]. vm_compute. reflexivity.
  - intros tr e. discriminate.
Qed.

(** X25 at a refused connection, under the strategy [http-first] *)
Lemma refused_connection_witness :
  let result :=
    Negotiator.connectToRemoteServer refusing None ∅ Negotiator.HttpFirst fresh_connection in
  started (Negotiator.trace (snd result)) = [Negotiator.HTTP] /\
  fallbacks (Negotiator.trace (snd result)) = 0 /\
  Negotiator.recursionReasons (snd result) = ∅ /\
  fst result = Throw (JSError "connect ECONNREFUSED 127.0.0.1:8080").
Proof.
  destruct (plain_errors_are_not_retried refusing None ∅ Negotiator.HttpFirst fresh_connection
              refusing_is_plain eq_refl) as (Hs & Hf & Hr & _ & Ht).
  cbv zeta. split; [exact Hs|]. split; [exact Hf|]. split; [exact Hr|].
  exact (Ht (JSError "connect ECONNREFUSED 127.0.0.1:8080") eq_refl eq_refl).
Defined.

Example accepted_connection :
  Negotiator.connectToRemoteServer accepting (Some "aa-token") {["X-Tenant" := "acme"]}
    Negotiator.HttpFirst fresh_connection
  = (Ret (Negotiator.AuthRefresh Negotiator.HTTP wrapper),
     {| Negotiator.recursionReasons := ∅;
        Negotiator.trace := [Negotiator.Start Negotiator.HTTP; Negotiator.Probe] |}).
Proof. vm_compute. reflexivity. Qed.

(** X26 at an accepted connection with a token and a custom header *)
Lemma wrapped_transport_witness :
  exists kind,
    last (started [Negotiator.Start Negotiator.HTTP; Negotiator.Probe]) = Some kind /\
    Negotiator.AuthRefresh Negotiator.HTTP wrapper
    = Negotiator.AuthRefresh kind
        (AuthRefreshTransportWrapper.create "aa-token" {["X-Tenant" := "acme"]}).
Proof.
  destruct (connected_transport_is_wrapped accepting (Some "aa-token")
              {["X-Tenant" := "acme"]} Negotiator.HttpFirst fresh_connection _ _
              accepted_connection) as (kind & Hlast & Htoken & _).
  destruct (Htoken eq_refl) as (tok & Htok & Hwrapped).
  injection Htok as <-.
  exists kind. split; [exact Hlast | exact Hwrapped].
Defined.

(** *** The command line *)

Definition environment (name : string) : string :=
  if String.eqb name "API_TOKEN" then "s3cr3t" else "".

(** X27: a second argument whose value has a colon of its own *)
Lemma custom_header_witness :
  Cli.parseCustomHeaders environment ["X-Tenant: acme"] = Cli.Parsed {["X-Tenant" := "acme"]} /\
  Cli.parseCustomHeaders environment
    (["X-Tenant: acme"] ++ ["Authorization" +:+ ":" +:+ " Bearer a:b"])
  = Cli.Parsed (<[trim "Authorization" := Cli.expand environment (trim " Bearer a:b")]>
                  {["X-Tenant" := "acme"]}) /\
  Cli.expand environment (trim " Bearer a:b") = "Bearer a:b".
Proof.
  assert (Cli.parseCustomHeaders environment ["X-Tenant: acme"]
          = Cli.Parsed {["X-Tenant" := "acme"]}) as Hp by (vm_compute; reflexivity).
  split; [exact Hp|]. split; [|vm_compute; reflexivity].
  refine (proj1 (header_is_split_at_its_first_colon environment ["X-Tenant: acme"]
                   {["X-Tenant" := "acme"]} "Authorization" " Bearer a:b" Hp eq_refl) _ _).
  - vm_compute. discriminate.
  - vm_compute. discriminate.
Defined.

(** X28 at a bearer token taken from the environment *)
Lemma expansion_witness :
  Cli.expand environment ("Bearer " +:+ "${" +:+ "API_TOKEN" +:+ "}" +:+ "!")
    = "Bearer " +:+ environment "API_TOKEN" +:+ Cli.expand environment "!" /\
  Cli.expand environment "Bearer " = "Bearer ".
Proof.
  refine (variable_is_expanded_from_the_environment environment "Bearer " "API_TOKEN" "!"
            eq_refl _ eq_refl).
  discriminate.
Defined.

(** *** Private keys *)

Definition key_digits : string :=
  "59c6995e998f97a5a0044966f0945389dc9e86dae88c7a8412f4603b6b78690d".

(** X29 at a token with the prefix [aa-] *)
Lemma private_key_witness :
  Wallet.derivePrivateKey ("aa-" +:+ key_digits) = Ret ("0x" +:+ key_digits) /\
  exists h,
    "0x" +:+ key_digits = "0x" +:+ h /\ String.length h = 64 /\
    all_chars is_hex_digit h = true /\
    ("aa-" +:+ key_digits = h \/ "aa-" +:+ key_digits = "0x" +:+ h \/
     "aa-" +:+ key_digits = "aa-" +:+ h \/ "aa-" +:+ key_digits = "aa-0x" +:+ h) /\
    Wallet.derivePrivateKey h = Ret ("0x" +:+ key_digits) /\
    Wallet.derivePrivateKey ("0x" +:+ h) = Ret ("0x" +:+ key_digits) /\
    Wallet.derivePrivateKey ("aa-" +:+ h) = Ret ("0x" +:+ key_digits) /\
    Wallet.derivePrivateKey ("aa-0x" +:+ h) = Ret ("0x" +:+ key_digits).
Proof.
  assert (Wallet.derivePrivateKey ("aa-" +:+ key_digits) = Ret ("0x" +:+ key_digits)) as Hk
    by (vm_compute; reflexivity).
  split; [exact Hk|].
  exact (private_key_has_one_normal_form ("aa-" +:+ key_digits) ("0x" +:+ key_digits) Hk).
Defined.

End Examples.
